(** * manic/externals_description.py: a shallow embedding

    The externals description model of manage_externals, embedded in Rocq:
    the submodule status bridge ([git_submodule_status]), the converter of
    [.gitmodules] files ([parse_submodules_desc_section],
    [read_gitmodules_file]), the schema version gate
    ([get_cfg_schema_version], [_verify_schema_version]), the builder
    ([_parse_cfg]), the three validation phases ([_check_data],
    [_check_optional], [_validate]) and the factory
    ([create_externals_description]).

    Conventions of the embedding.
    - Python values are the inductive [pyval]; a [dict] is an association
      list in insertion order (lookups take the first binding, assignment
      replaces it in place or appends), because the loops of the source
      visit keys in insertion order and stop at the first error.  Entries
      are values: no two names of a description share one [dict] object.
    - Strings are ASCII texts ([string] of the Standard Library).
    - A raised exception is [Raise e]; [fatal_error msg] is [Raise
      (FatalError msg)].
    - The working directory and the warning log are the explicit state
      [World]; the file system, [git] and the helpers of [manic.utils]
      that are not in this module are the read-only record [Env].  Reading
      and parsing a file ([LstripReader], [configparser]) is a query of
      [Env] that gives the parsed sections.
    - A [ConfigParser] is its sections in order with the values as stored,
      the defaults under the name [DEFAULT]; [get] and [items] replace
      the references of a value as [BasicInterpolation] does and raise its
      errors, [items] adds the defaults, and [set] refuses a value with a
      [%] that starts no reference.
    - Informational output ([logging.info], [printlog], [pprint]) changes
      no result and is left out; [logging.warning] is kept in the log.

    The file has three parts: the embedding, the predicates and fixtures
    that the statements use, and the properties. *)

From Stdlib Require Import String Ascii List ZArith Bool Lia DecimalString.
From stdpp Require Import base option list gmap strings.
Import ListNotations.

Local Open Scope list_scope.

(** ** Exceptions and results *)

Inductive exn : Type :=
| FatalError (msg : string)
| KeyError (key : string)
| IndexError
| TypeError
| ValueError
| NoSectionError (section : string)
| NoOptionError (option_name : string)
| DuplicateSectionError (section : string)
| OSError (what : string)
| FormatFieldError
| InterpolationSyntaxError
| InterpolationMissingOptionError (reference : string)
| InterpolationDepthError.

Inductive result (A : Type) : Type :=
| Ok (a : A)
| Raise (e : exn).

Arguments Ok {A} a.
Arguments Raise {A} e.

Definition rbind {A B : Type} (r : result A) (k : A -> result B) : result B :=
  match r with
  | Ok a => k a
  | Raise e => Raise e
  end.

Notation "'let!' x ':=' e 'in' k" := (rbind e (fun x => k))
  (at level 10, x pattern, e at level 200, k at level 200).
Notation "'run!' e 'in' k" := (rbind e (fun _ => k))
  (at level 10, e at level 200, k at level 200).

Definition is_ok {A : Type} (r : result A) : bool :=
  match r with Ok _ => true | Raise _ => false end.

Definition is_fatal {A : Type} (r : result A) : bool :=
  match r with Raise (FatalError _) => true | _ => false end.

(** Modelled from the spec: [utils.fatal_error] is the error sink that takes
    a message and unconditionally terminates the current operation. *)
Definition fatal_error {A : Type} (msg : string) : result A :=
  Raise (FatalError msg).

(** [if cond: fatal_error(msg)] *)
Definition fatal_when (cond : bool) (msg : string) : result unit :=
  if cond then fatal_error msg else Ok tt.

(** ** Python strings *)

(** The double quote, and a text between double quotes. *)
Definition dq : string := String "034"%char EmptyString.
Definition quoted (s : string) : string := dq +:+ s +:+ dq.

Module PyStr.

(** [str.isspace] on ASCII characters. *)
Definition is_space (c : ascii) : bool :=
  let n := nat_of_ascii c in
  ((9 <=? n) && (n <=? 13)) || ((28 <=? n) && (n <=? 32)).

Fixpoint lstrip_by (p : ascii -> bool) (s : string) : string :=
  match s with
  | EmptyString => EmptyString
  | String c s' => if p c then lstrip_by p s' else s
  end.

Fixpoint rstrip_by (p : ascii -> bool) (s : string) : string :=
  match s with
  | EmptyString => EmptyString
  | String c s' =>
      match rstrip_by p s' with
      | EmptyString => if p c then EmptyString else String c EmptyString
      | t => String c t
      end
  end.

Definition strip_by (p : ascii -> bool) (s : string) : string :=
  rstrip_by p (lstrip_by p s).

(** [s.strip()] *)
Definition strip (s : string) : string := strip_by is_space s.

Fixpoint mem_char (c : ascii) (chars : string) : bool :=
  match chars with
  | EmptyString => false
  | String d chars' => Ascii.eqb c d || mem_char c chars'
  end.

(** [s.strip(chars)] *)
Definition strip_chars (chars : string) (s : string) : string :=
  strip_by (fun c => mem_char c chars) s.

(** Splitting at every character satisfying [p]: [s.split(sep)] for a
    one-character [sep], [re.split("[...]", s)] for a character class.
    The pieces are accumulated in [cur] (reversed). *)
Fixpoint split_go (p : ascii -> bool) (cur : string) (s : string) : list string :=
  match s with
  | EmptyString => [String.rev cur]
  | String c s' =>
      if p c then String.rev cur :: split_go p EmptyString s'
      else split_go p (String c cur) s'
  end.

Definition split_by (p : ascii -> bool) (s : string) : list string :=
  split_go p EmptyString s.

Definition split (sep : ascii) (s : string) : list string :=
  split_by (Ascii.eqb sep) s.

Definition lower_char (c : ascii) : ascii :=
  let n := nat_of_ascii c in
  if (65 <=? n) && (n <=? 90) then ascii_of_nat (n + 32) else c.

(** [s.lower()] *)
Fixpoint lower (s : string) : string :=
  match s with
  | EmptyString => EmptyString
  | String c s' => String (lower_char c) (lower s')
  end.

(** [s[0:n]] and [s[n:]] *)
Fixpoint take (n : nat) (s : string) : string :=
  match n, s with
  | S n', String c s' => String c (take n' s')
  | _, _ => EmptyString
  end.

Fixpoint drop (n : nat) (s : string) : string :=
  match n, s with
  | S n', String _ s' => drop n' s'
  | _, _ => s
  end.

(** [needle in hay] for two strings. *)
Fixpoint contains (needle hay : string) : bool :=
  String.prefix needle hay ||
  match hay with
  | EmptyString => false
  | String _ hay' => contains needle hay'
  end.

Definition digit_of (c : ascii) : option Z :=
  let n := nat_of_ascii c in
  if (48 <=? n) && (n <=? 57) then Some (Z.of_nat (n - 48)) else None.

(** Digits with single underscores between them. *)
Fixpoint digits_val (s : string) (acc : Z) (after_digit : bool) : option Z :=
  match s with
  | EmptyString => if after_digit then Some acc else None
  | String c s' =>
      match digit_of c with
      | Some d => digits_val s' (10 * acc + d)%Z true
      | None =>
          if Ascii.eqb c "_"%char && after_digit
          then digits_val s' acc false
          else None
      end
  end.

(** [int(s)] in base ten: surrounding white space, an optional sign,
    digits.  [None] stands for [ValueError]. *)
Definition int (s : string) : option Z :=
  match strip s with
  | String "-" t => Z.opp <$> digits_val t 0%Z false
  | String "+" t => digits_val t 0%Z false
  | t => digits_val t 0%Z false
  end.

(** [str(n)] for an integer. *)
Definition of_Z (z : Z) : string := NilZero.string_of_int (Z.to_int z).

End PyStr.

(** ** Python dictionaries and values *)

Module Dict.
Section Ops.
Context {A : Type}.

(** [d.get(k)]: the first binding of [k]. *)
Fixpoint get (k : string) (d : list (string * A)) : option A :=
  match d with
  | [] => None
  | (k', v) :: d' => if String.eqb k k' then Some v else get k d'
  end.

(** [k in d] *)
Definition mem (k : string) (d : list (string * A)) : bool :=
  match get k d with Some _ => true | None => false end.

(** [d[k] = v]: an existing key keeps its place, a new key goes last. *)
Fixpoint set (k : string) (v : A) (d : list (string * A)) : list (string * A) :=
  match d with
  | [] => [(k, v)]
  | (k', v') :: d' =>
      if String.eqb k k' then (k', v) :: d' else (k', v') :: set k v d'
  end.

(** [del d[k]] for a key that may be absent. *)
Fixpoint del (k : string) (d : list (string * A)) : list (string * A) :=
  match d with
  | [] => []
  | (k', v') :: d' => if String.eqb k k' then d' else (k', v') :: del k d'
  end.

(** [list(d.keys())] *)
Definition keys (d : list (string * A)) : list string := map fst d.

End Ops.
End Dict.

#[warnings="-register-all"]
Inductive pyval : Type :=
| PyNone
| PyBool (b : bool)
| PyStr (s : string)
| PyDict (items : list (string * pyval)).

Module Py.

(** [bool(v)] *)
Definition truthy (v : pyval) : bool :=
  match v with
  | PyNone => false
  | PyBool b => b
  | PyStr s => negb (String.eqb s "")
  | PyDict items => match items with [] => false | _ => true end
  end.

(** [v == s] for a string [s]. *)
Definition eq_str (v : pyval) (s : string) : bool :=
  match v with
  | PyStr t => String.eqb t s
  | _ => false
  end.

(** [v in strs] for a list of strings. *)
Definition in_strs (v : pyval) (strs : list string) : bool :=
  existsb (eq_str v) strs.

(** [k in v] *)
Definition contains (k : string) (v : pyval) : result bool :=
  match v with
  | PyDict items => Ok (Dict.mem k items)
  | PyStr s => Ok (PyStr.contains k s)
  | _ => Raise TypeError
  end.

(** [v[k]] for a string key. *)
Definition getitem (v : pyval) (k : string) : result pyval :=
  match v with
  | PyDict items =>
      match Dict.get k items with
      | Some x => Ok x
      | None => Raise (KeyError k)
      end
  | _ => Raise TypeError
  end.

(** [v[k] = x] for a string key. *)
Definition setitem (v : pyval) (k : string) (x : pyval) : result pyval :=
  match v with
  | PyDict items => Ok (PyDict (Dict.set k x items))
  | _ => Raise TypeError
  end.

(** [isinstance(data, type(schema))] *)
Definition same_type (schema data : pyval) : bool :=
  match schema, data with
  | PyNone, PyNone => true
  | PyBool _, PyBool _ => true
  | PyStr _, PyStr _ => true
  | PyDict _, PyDict _ => true
  | _, _ => false
  end.

Definition is_dict (v : pyval) : bool :=
  match v with PyDict _ => true | _ => false end.

Definition hex_digit (n : nat) : ascii :=
  if n <? 10 then ascii_of_nat (48 + n) else ascii_of_nat (87 + n).

Definition repr_char (quote : ascii) (c : ascii) : string :=
  let n := nat_of_ascii c in
  if Ascii.eqb c quote || Ascii.eqb c "\"%char then String "\"%char (String c "")
  else if n =? 9 then "\t"
  else if n =? 10 then "\n"
  else if n =? 13 then "\r"
  else if (n <? 32) || (n =? 127)
       then "\x" +:+ String (hex_digit (n / 16)) (String (hex_digit (n mod 16)) "")
  else String c "".

Fixpoint repr_body (quote : ascii) (s : string) : string :=
  match s with
  | EmptyString => EmptyString
  | String c s' => repr_char quote c +:+ repr_body quote s'
  end.

(** [repr(s)] for a string: single quotes, unless the text has a single
    quote and no double quote. *)
Definition repr_str (s : string) : string :=
  let quote :=
    if PyStr.mem_char "'"%char s && negb (PyStr.mem_char "034"%char s)
    then "034"%char else "'"%char in
  String quote (repr_body quote s) +:+ String quote "".

(** [", ".join(parts)] *)
Fixpoint join_comma (parts : list string) : string :=
  match parts with
  | [] => ""
  | [p] => p
  | p :: ps => p +:+ ", " +:+ join_comma ps
  end.

(** [repr(v)] *)
Fixpoint repr (v : pyval) : string :=
  match v with
  | PyNone => "None"
  | PyBool true => "True"
  | PyBool false => "False"
  | PyStr s => repr_str s
  | PyDict items =>
      "{" +:+ join_comma
        ((fix go (l : list (string * pyval)) : list string :=
            match l with
            | [] => []
            | (k, x) :: l' => (repr_str k +:+ ": " +:+ repr x) :: go l'
            end) items) +:+ "}"
  end.

(** [str(v)], the text an f-string puts for [{v}]. *)
Definition str (v : pyval) : string :=
  match v with
  | PyStr s => s
  | _ => repr v
  end.

(** [template.format(arg)] with one positional argument, a text.

    Literal text, the two brace escapes, and the replacement fields whose
    name is empty ([{}], automatic numbering), a number ([{0}], manual
    numbering) or any other text without [.], [[], [!] and [:] (a keyword,
    which is missing: [KeyError]) are as in Python: the fields are taken
    from left to right, the first error is the one raised; a second
    automatic field or a number other than zero is beyond the only
    argument ([IndexError]); automatic and manual numbering do not mix, a
    brace inside a field, a field that is not closed and a lone brace are
    [ValueError].

    What a field with an attribute, an index, a conversion or a format
    specification gives, and a number of more than 18 digits, is not
    modelled: [FormatFieldError] stands for it, and nothing is stated for
    such a template beyond that the call is made. *)
Inductive numbering : Type :=
| NotNumbered
| Automatic
| Manual.

(** Where the scan of the template is: in literal text, just after an
    opening or a closing brace, or in a replacement field, with its name
    so far (reversed). *)
Inductive format_state : Type :=
| InText
| AfterOpen
| AfterClose
| InField (name : string).

Fixpoint all_digits (s : string) : bool :=
  match s with
  | EmptyString => true
  | String c s' =>
      match PyStr.digit_of c with
      | Some _ => all_digits s'
      | None => false
      end
  end.

(** The digits are all zeros. *)
Fixpoint all_zeros (s : string) : bool :=
  match s with
  | EmptyString => true
  | String c s' => Ascii.eqb c "0"%char && all_zeros s'
  end.

(** The text that the field [name] stands for, and the numbering after it. *)
Definition format_field (name arg : string) (num : numbering)
    : result (string * numbering) :=
  if String.eqb name "" then
    match num with
    | NotNumbered => Ok (arg, Automatic)
    | Automatic => Raise IndexError
    | Manual => Raise ValueError
    end
  else if all_digits name then
    if 18 <? String.length name then Raise FormatFieldError
    else
      match num with
      | Automatic => Raise ValueError
      | _ => if all_zeros name then Ok (arg, Manual) else Raise IndexError
      end
  else Raise (KeyError name).

Definition is_field_syntax (c : ascii) : bool :=
  Ascii.eqb c "."%char || Ascii.eqb c "["%char || Ascii.eqb c "!"%char
  || Ascii.eqb c ":"%char.

Fixpoint format_scan (arg : string) (st : format_state) (num : numbering)
    (template : string) : result string :=
  match template with
  | EmptyString =>
      match st with
      | InText => Ok EmptyString
      | _ => Raise ValueError
      end
  | String c t =>
      let in_field (name : string) : result string :=
        if Ascii.eqb c "{"%char then Raise ValueError
        else if Ascii.eqb c "}"%char then
          let! (value, num') := format_field (String.rev name) arg num in
          let! r := format_scan arg InText num' t in
          Ok (value +:+ r)
        else if is_field_syntax c then Raise FormatFieldError
        else format_scan arg (InField (String c name)) num t in
      match st with
      | InText =>
          if Ascii.eqb c "{"%char then format_scan arg AfterOpen num t
          else if Ascii.eqb c "}"%char then format_scan arg AfterClose num t
          else let! r := format_scan arg InText num t in Ok (String c r)
      | AfterOpen =>
          if Ascii.eqb c "{"%char
          then let! r := format_scan arg InText num t in Ok (String "{"%char r)
          else in_field EmptyString
      | AfterClose =>
          if Ascii.eqb c "}"%char
          then let! r := format_scan arg InText num t in Ok (String "}"%char r)
          else Raise ValueError
      | InField name => in_field name
      end
  end.

Definition format1 (template arg : string) : result string :=
  format_scan arg InText NotNumbered template.

End Py.

(** ** The world outside: state, environment, and the monad of effects *)

(** [cwd] is [os.getcwd()]; [warnings] collects [logging.warning]. *)
Record World : Type := mkWorld {
  cwd : string;
  warnings : list string
}.

(** The state of a [configparser.ConfigParser]: its sections in order,
    each with its options in order and their raw values, and its defaults,
    which are the options under the name [DEFAULT].  That name is never
    the name of a section: [add_section] refuses it, and a file gives its
    [[DEFAULT]] section to the defaults.  Option names are in lower case as
    [optionxform] leaves them. *)
Definition Config : Type := list (string * list (string * string)).

(** What the module takes from its surroundings.  Every query of the file
    system is relative to the working directory, its first argument.
    - [abspath c p]: [os.path.abspath(p)];
    - [path_exists c p]: [os.path.exists(p)];
    - [chdir_target c p]: where [os.chdir(p)] leads, [None] when it raises;
    - [execute_subprocess c cmd]: [utils.execute_subprocess(cmd,
      output_to_caller=True)], the output of the command or an exception;
    - [read_lstripped c p]: [config.read_file(LstripReader(p))], where
      [Ok None] is [MissingSectionHeaderError];
    - [expand_local_url url name]: [utils.expand_local_url];
    - [str_to_bool s]: [utils.str_to_bool]. *)
Record Env : Type := mkEnv {
  abspath : string -> string -> string;
  path_exists : string -> string -> bool;
  chdir_target : string -> string -> option string;
  execute_subprocess : string -> list string -> result string;
  read_lstripped : string -> string -> result (option Config);
  expand_local_url : pyval -> string -> result pyval;
  str_to_bool : string -> result bool
}.

Definition M (A : Type) : Type := World -> result A * World.

Definition ret {A : Type} (a : A) : M A := fun w => (Ok a, w).

Definition bind {A B : Type} (m : M A) (k : A -> M B) : M B :=
  fun w =>
    match m w with
    | (Ok a, w') => k a w'
    | (Raise e, w') => (Raise e, w')
    end.

Definition lift {A : Type} (r : result A) : M A := fun w => (r, w).

Notation "'let*' x ':=' e 'in' k" := (bind e (fun x => k))
  (at level 10, x pattern, e at level 200, k at level 200).
Notation "'run*' e 'in' k" := (bind e (fun _ => k))
  (at level 10, e at level 200, k at level 200).

(** [os.getcwd()] *)
Definition getcwd : M string := fun w => (Ok (cwd w), w).

(** [os.chdir(path)] *)
Definition chdir (env : Env) (path : string) : M unit :=
  fun w =>
    match chdir_target env (cwd w) path with
    | Some c => (Ok tt, mkWorld c (warnings w))
    | None => (Raise (OSError path), w)
    end.

(** [logging.warning(msg)] *)
Definition log_warning (msg : string) : M unit :=
  fun w => (Ok tt, mkWorld (cwd w) (warnings w ++ [msg])).

(** [os.path.join(a, p)] (posix). *)
Definition path_join (a p : string) : string :=
  if String.prefix "/" p then p
  else if String.eqb a "" || String.eqb (PyStr.drop (String.length a - 1) a) "/"
       then a +:+ p
       else a +:+ "/" +:+ p.

(** ** [configparser] *)

Module Cfg.

Definition DEFAULTSECT : string := "DEFAULT".

(** [self._defaults] *)
Definition defaults (c : Config) : list (string * string) :=
  match Dict.get DEFAULTSECT c with
  | Some d => d
  | None => []
  end.

(** [self._sections[section]], [None] for a [KeyError]. *)
Definition section_dict (section : string) (c : Config)
    : option (list (string * string)) :=
  if String.eqb section DEFAULTSECT then None else Dict.get section c.

(** [cfg.sections()] *)
Definition sections (c : Config) : list string :=
  List.filter (fun name => negb (String.eqb name DEFAULTSECT)) (Dict.keys c).

(** [d.update(other)] *)
Definition update (d other : list (string * string)) : list (string * string) :=
  fold_left (fun d item => Dict.set (fst item) (snd item) d) other d.

(** *** [BasicInterpolation] *)

(** Where the scan of a value is: in plain text, after a [%], in the name
    of a reference [%(name)s] (the name so far, reversed), or after the
    closing parenthesis of the reference to [name]. *)
Inductive istate : Type :=
| IText
| IPercent
| IName (acc : string)
| IClose (name : string).

(** The loop of [_interpolate_some] over [rest], appending to [accum];
    [deeper] is the call for a value that has a [%] itself, one level
    down.  A reference is [_KEYCRE], [%\(([^)]+)\)s]: a name of one
    character at least up to the first closing parenthesis, and then
    [s]. *)
Fixpoint interpolate_loop (deeper : string -> string -> result string)
    (map : list (string * string)) (st : istate) (rest accum : string)
    : result string :=
  match rest with
  | EmptyString =>
      match st with
      | IText => Ok accum
      | _ => Raise InterpolationSyntaxError
      end
  | String c rest' =>
      match st with
      | IText =>
          if Ascii.eqb c "%"%char then interpolate_loop deeper map IPercent rest' accum
          else interpolate_loop deeper map IText rest'
                 (accum +:+ String c EmptyString)
      | IPercent =>
          if Ascii.eqb c "%"%char
          then interpolate_loop deeper map IText rest' (accum +:+ "%")
          else if Ascii.eqb c "("%char
               then interpolate_loop deeper map (IName EmptyString) rest' accum
               else Raise InterpolationSyntaxError
      | IName acc =>
          if Ascii.eqb c ")"%char then
            match acc with
            | EmptyString => Raise InterpolationSyntaxError
            | _ => interpolate_loop deeper map (IClose (String.rev acc)) rest' accum
            end
          else interpolate_loop deeper map (IName (String c acc)) rest' accum
      | IClose name =>
          if Ascii.eqb c "s"%char then
            match Dict.get (PyStr.lower name) map with
            | None => Raise (InterpolationMissingOptionError (PyStr.lower name))
            | Some v =>
                let! accum := (if PyStr.contains "%" v then deeper v accum
                               else Ok (accum +:+ v)) in
                interpolate_loop deeper map IText rest' accum
            end
          else Raise InterpolationSyntaxError
      end
  end.

(** [_interpolate_some] with [levels] levels left of the
    [MAX_INTERPOLATION_DEPTH] of ten. *)
Fixpoint interpolate_some (levels : nat) (map : list (string * string))
    (rest accum : string) : result string :=
  match levels with
  | 0 => Raise InterpolationDepthError
  | S levels' =>
      interpolate_loop (interpolate_some levels' map) map IText rest accum
  end.

(** [before_get]: the value with its references replaced, looked up in
    [map], the options of the section over the defaults. *)
Definition before_get (map : list (string * string)) (value : string)
    : result string :=
  interpolate_some 10 map value EmptyString.

(** [value.replace('%%', '')] *)
Fixpoint remove_escaped (value : string) : string :=
  match value with
  | EmptyString => EmptyString
  | String c rest =>
      match rest with
      | String c' rest' =>
          if Ascii.eqb c "%"%char && Ascii.eqb c' "%"%char
          then remove_escaped rest'
          else String c (remove_escaped rest)
      | EmptyString => String c EmptyString
      end
  end.

(** No [%] is left once the references are taken out: every [%] starts a
    reference. *)
Fixpoint only_references (st : istate) (value : string) : bool :=
  match value with
  | EmptyString =>
      match st with
      | IText => true
      | _ => false
      end
  | String c rest =>
      match st with
      | IText =>
          if Ascii.eqb c "%"%char then only_references IPercent rest
          else only_references IText rest
      | IPercent =>
          Ascii.eqb c "("%char && only_references (IName EmptyString) rest
      | IName acc =>
          if Ascii.eqb c ")"%char then
            match acc with
            | EmptyString => false
            | _ => only_references (IClose acc) rest
            end
          else only_references (IName (String c acc)) rest
      | IClose _ => Ascii.eqb c "s"%char && only_references IText rest
      end
  end.

(** [before_set] does not raise [ValueError] on the value. *)
Definition set_accepts (value : string) : bool :=
  only_references IText (remove_escaped value).

(** [cfg.add_section(name)] *)
Definition add_section (name : string) (c : Config) : result Config :=
  if String.eqb name DEFAULTSECT then Raise ValueError
  else if Dict.mem name c then Raise (DuplicateSectionError name)
  else Ok (c ++ [(name, [])]).

(** [cfg.set(section, option, value)]: the value is checked first; an
    empty section name, like [DEFAULT], means the defaults. *)
Definition set (section option_name value : string) (c : Config) : result Config :=
  if negb (set_accepts value) then Raise ValueError
  else if String.eqb section EmptyString || String.eqb section DEFAULTSECT then
    Ok (Dict.set DEFAULTSECT
          (Dict.set (PyStr.lower option_name) value (defaults c)) c)
  else
    match Dict.get section c with
    | Some opts => Ok (Dict.set section (Dict.set (PyStr.lower option_name) value opts) c)
    | None => Raise (NoSectionError section)
    end.

(** [_unify_values(section, None)]: the options that [get] looks at, those
    of the section before the defaults, or [NoSectionError]. *)
Definition unify_values (section : string) (c : Config)
    : result (list (string * string)) :=
  match section_dict section c with
  | Some opts => Ok (opts ++ defaults c)
  | None =>
      if String.eqb section DEFAULTSECT then Ok (defaults c)
      else Raise (NoSectionError section)
  end.

(** [cfg.get(section, option, raw=True)] *)
Definition get_raw (section option_name : string) (c : Config) : result string :=
  let! d := unify_values section c in
  match Dict.get (PyStr.lower option_name) d with
  | Some v => Ok v
  | None => Raise (NoOptionError (PyStr.lower option_name))
  end.

(** [cfg.get(section, option)] *)
Definition get (section option_name : string) (c : Config) : result string :=
  let! d := unify_values section c in
  match Dict.get (PyStr.lower option_name) d with
  | Some v => before_get d v
  | None => Raise (NoOptionError (PyStr.lower option_name))
  end.

(** The values of [todo], each with its references replaced, up to the
    first that raises. *)
Fixpoint interpolate_items (d : list (string * string))
    (todo : list (string * string)) : result (list (string * string)) :=
  match todo with
  | [] => Ok []
  | (option_name, value) :: todo' =>
      let! v := before_get d value in
      let! rest := interpolate_items d todo' in
      Ok ((option_name, v) :: rest)
  end.

(** The dictionary [d] of [items]: a copy of the defaults, updated with
    the options of the section. *)
Definition merged (section : string) (c : Config) : result (list (string * string)) :=
  match section_dict section c with
  | Some opts => Ok (update (defaults c) opts)
  | None =>
      if String.eqb section DEFAULTSECT then Ok (defaults c)
      else Raise (NoSectionError section)
  end.

(** [cfg.items(section)] *)
Definition items (section : string) (c : Config) : result (list (string * string)) :=
  let! d := merged section c in
  interpolate_items d d.

(** [cfg.remove_section(section)] *)
Definition remove_section (section : string) (c : Config) : Config :=
  match section_dict section c with
  | Some _ => Dict.del section c
  | None => c
  end.

End Cfg.

(** ** Globals of the module and keywords of [ExternalsDescription] *)

Definition DESCRIPTION_SECTION : string := "externals_description".
Definition VERSION_ITEM : string := "schema_version".

(** Modelled from the spec: [global_constants.EMPTY_STR] is the empty-string
    default, [global_constants.VERSION_SEPERATOR] the dot of a dotted
    version. *)
Definition EMPTY_STR : string := "".
Definition VERSION_SEPERATOR : ascii := "."%char.

Definition EXTERNALS : string := "externals".
Definition BRANCH : string := "branch".
Definition SUBMODULE : string := "from_submodule".
Definition HASH : string := "hash".
Definition PATH : string := "local_path".
Definition PROTOCOL : string := "protocol".
Definition REPO : string := "repo".
Definition REPO_URL : string := "repo_url".
Definition REQUIRED : string := "required".
Definition TAG : string := "tag".
Definition SPARSE : string := "sparse".

Definition PROTOCOL_EXTERNALS_ONLY : string := "externals_only".
Definition PROTOCOL_GIT : string := "git".
Definition PROTOCOL_SVN : string := "svn".
Definition GIT_SUBMODULES_FILENAME : string := ".gitmodules".
Definition KNOWN_PRROTOCOLS : list string :=
  [PROTOCOL_GIT; PROTOCOL_SVN; PROTOCOL_EXTERNALS_ONLY].

Definition _source_schema_repo : list (string * pyval) :=
  [(PROTOCOL, PyStr "string"); (REPO_URL, PyStr "string"); (TAG, PyStr "string");
   (BRANCH, PyStr "string"); (HASH, PyStr "string"); (SPARSE, PyStr "string")].

Definition _source_schema : list (string * pyval) :=
  [(REQUIRED, PyBool true); (PATH, PyStr "string"); (EXTERNALS, PyStr "string");
   (SUBMODULE, PyBool true); (REPO, PyDict _source_schema_repo)].

(** ** [git_submodule_status] *)

(** One record of the status mapping: [{"hash": .., "status": .., "tag": ..}]. *)
Record SubmoduleStatus : Type := mkStatus {
  sm_hash : string;
  sm_status : string;
  sm_tag : option string
}.

(** The body of the loop over the lines of [git submodule status]. *)
Definition parse_status_line (submod : string)
    (submodules : gmap string SubmoduleStatus) : result (gmap string SubmoduleStatus) :=
  match submod with
  | EmptyString => Ok submodules
  | String status rest =>
      let items := PyStr.split " "%char rest in
      let tag := if 2 <? length items then nth_error items 2 else None in
      match nth_error items 0, nth_error items 1 with
      | Some h, Some name =>
          Ok (<[name := mkStatus h (String status EmptyString) tag]> submodules)
      | _, _ => Raise IndexError
      end
  end.

Fixpoint parse_status_lines (submods : list string)
    (submodules : gmap string SubmoduleStatus) : result (gmap string SubmoduleStatus) :=
  match submods with
  | [] => Ok submodules
  | submod :: rest =>
      let! submodules' := parse_status_line submod submodules in
      parse_status_lines rest submodules'
  end.

Definition git_submodule_status (env : Env) (repo_dir : string)
    : M (gmap string SubmoduleStatus) :=
  let* cwd0 := getcwd in
  run* chdir env repo_dir in
  let* git_output :=
    (fun w => (execute_subprocess env (cwd w) ["git"; "submodule"; "status"], w)) in
  let* submodules := lift (parse_status_lines (PyStr.split "010"%char git_output) ∅) in
  run* chdir env cwd0 in
  ret submodules.

(** ** [parse_submodules_desc_section] *)

Fixpoint parse_submodules_desc_loop (section_items : list (string * string))
    (file_path : string) (path url : option string) : M (option string * option string) :=
  match section_items with
  | [] => ret (path, url)
  | item :: rest =>
      let name := PyStr.strip (fst item) in
      if String.eqb name "path" then
        parse_submodules_desc_loop rest file_path (Some (PyStr.strip (snd item))) url
      else if String.eqb name "url" then
        parse_submodules_desc_loop rest file_path path (Some (PyStr.strip (snd item)))
      else if String.eqb name "branch" then
        parse_submodules_desc_loop rest file_path path url
      else
        run* log_warning ("WARNING: Ignoring unknown " +:+ fst item
                          +:+ " property, in " +:+ file_path) in
        parse_submodules_desc_loop rest file_path path url
  end.

Definition parse_submodules_desc_section (section_items : list (string * string))
    (file_path : string) : M (option string * option string) :=
  parse_submodules_desc_loop section_items file_path None None.

(** ** [read_gitmodules_file] *)

Definition no_status_msg (submod_name : string) : string :=
  "submodule status has no section, '" +:+ submod_name +:+ "'"
  +:+ String "010"%char "Check section names in externals config file".

(** The name that the section called [section] gets: what follows the
    first nine characters, without the blanks and double quotes around it. *)
Definition sec_name_of (section : string) : string :=
  PyStr.strip_chars (" " +:+ dq) (PyStr.drop 9 section).

(** The part of the loop body that picks the key of the status mapping and
    stores the hash. *)
Definition attach_submodule_hash (submods : gmap string SubmoduleStatus)
    (sec_name path : string) (externals_description : Config) : result Config :=
  let submod_name :=
    if bool_decide (is_Some (submods !! sec_name)) then sec_name else path in
  match submods !! submod_name with
  | Some st => Cfg.set sec_name HASH (sm_hash st) externals_description
  | None =>
      fatal_error (no_status_msg submod_name)
  end.

(** The body of the loop over the sections of the submodules file. *)
Definition convert_submodule_section (submodules_description : Config)
    (submods : gmap string SubmoduleStatus) (file_path section : string)
    (externals_description : Config) : M Config :=
  if String.eqb (PyStr.take 9 section) "submodule" then
    let sec_name := sec_name_of section in
    let* ed := lift (Cfg.add_section sec_name externals_description) in
    let* section_items := lift (Cfg.items section submodules_description) in
    let* pu := parse_submodules_desc_section section_items file_path in
    match pu with
    | (None, _) => lift (fatal_error ("Submodule " +:+ sec_name +:+ " missing path"))
    | (Some _, None) => lift (fatal_error ("Submodule " +:+ sec_name +:+ " missing url"))
    | (Some path, Some url) =>
        lift (let! ed := Cfg.set sec_name PATH path ed in
              let! ed := Cfg.set sec_name PROTOCOL "git" ed in
              let! ed := Cfg.set sec_name REPO_URL url ed in
              let! ed := Cfg.set sec_name REQUIRED "True" ed in
              attach_submodule_hash submods sec_name path ed)
    end
  else ret externals_description.

Fixpoint convert_submodule_sections (submodules_description : Config)
    (submods : gmap string SubmoduleStatus) (file_path : string)
    (sections : list string) (externals_description : Config) : M Config :=
  match sections with
  | [] => ret externals_description
  | section :: rest =>
      let* ed := convert_submodule_section submodules_description submods
                   file_path section externals_description in
      convert_submodule_sections submodules_description submods file_path rest ed
  end.

Definition read_gitmodules_file (env : Env) (root_dir file_name : string) : M Config :=
  let* c := getcwd in
  let root_dir := abspath env c root_dir in
  let file_path := path_join root_dir file_name in
  run* lift (fatal_when (negb (path_exists env c file_name))
          ("ERROR: submodules description file, " +:+ quoted file_name
           +:+ ", does not exist at path:" +:+ String "010"%char "    " +:+ file_path)) in
  let* submodules_description := lift (read_lstripped env c file_path) in
  match submodules_description with
  | None => lift (fatal_error "Unknown file format!")
  | Some submodules_description =>
      let* submods := git_submodule_status env root_dir in
      let* ed := convert_submodule_sections submodules_description submods file_path
                   (Cfg.sections submodules_description) [] in
      lift (let! ed := Cfg.add_section DESCRIPTION_SECTION ed in
            Cfg.set DESCRIPTION_SECTION VERSION_ITEM "1.0.0" ed)
  end.

(** ** [get_cfg_schema_version] *)

(** [try: r except (kinds): handler] *)
Definition try_except {A : Type} (r : result A) (caught : exn -> bool)
    (handler : result A) : result A :=
  match r with
  | Ok a => Ok a
  | Raise e => if caught e then handler else Raise e
  end.

Definition is_no_section_or_option (e : exn) : bool :=
  match e with NoSectionError _ | NoOptionError _ => true | _ => false end.

Definition is_value_error (e : exn) : bool :=
  match e with ValueError => true | _ => false end.

(** [int(version[i].strip())] *)
Definition version_component (version : list string) (i : nat) : result Z :=
  match nth_error version i with
  | None => Raise IndexError
  | Some s =>
      match PyStr.int (PyStr.strip s) with
      | Some z => Ok z
      | None => Raise ValueError
      end
  end.

Definition is_dash_or_plus (c : ascii) : bool :=
  Ascii.eqb c "-"%char || Ascii.eqb c "+"%char.

Definition get_cfg_schema_version (model_cfg : Config) : result (Z * Z * Z) :=
  let! semver_str :=
    try_except (Cfg.get DESCRIPTION_SECTION VERSION_ITEM model_cfg)
      is_no_section_or_option
      (fatal_error ("externals description file must have the required section: "
                    +:+ quoted DESCRIPTION_SECTION +:+ " and item "
                    +:+ quoted VERSION_ITEM)) in
  let version_list := PyStr.split_by is_dash_or_plus semver_str in
  let! version_str :=
    match nth_error version_list 0 with
    | Some v => Ok v
    | None => Raise IndexError
    end in
  let version := PyStr.split VERSION_SEPERATOR version_str in
  try_except
    (let! major := version_component version 0 in
     let! minor := version_component version 1 in
     let! patch := version_component version 2 in
     Ok (major, minor, patch))
    is_value_error
    (fatal_error ("Config file schema version must have integer digits for "
                  +:+ "major, minor and patch versions. "
                  +:+ "Received " +:+ quoted version_str)).

(** ** [ExternalsDescription._verify_schema_version] *)

Record SchemaVersion : Type := mkVersion {
  major : Z;
  minor : Z;
  patch : Z
}.

Definition version_text (v : SchemaVersion) : string :=
  PyStr.of_Z (major v) +:+ "." +:+ PyStr.of_Z (minor v) +:+ "." +:+ PyStr.of_Z (patch v).

Definition dev_error_msg (schema input : SchemaVersion) : string :=
  "DEV_ERROR: version " +:+ quoted (version_text schema) +:+ " parser received "
  +:+ "version " +:+ quoted (version_text input) +:+ " input.".

Definition too_new_msg (schema input : SchemaVersion) : string :=
  "Incompatible schema version:" +:+ String "010"%char
  ("  User supplied schema version " +:+ quoted (version_text input)
   +:+ " is too new." +:+ dq +:+ String "010"%char
  ("  Can only process version " +:+ quoted (version_text schema) +:+ " files and "
   +:+ "older.")).

(** [schema] is [_schema_major/minor/patch], [input] is
    [_input_major/minor/patch]. *)
Definition _verify_schema_version (schema input : SchemaVersion) : result unit :=
  run! fatal_when (negb (major input =? major schema)%Z) (dev_error_msg schema input) in
  run! fatal_when (minor schema <? minor input)%Z (too_new_msg schema input) in
  Ok tt.

(** ** [ExternalsDescription._check_data] *)

(** The description itself: the [dict] from external names to entries. *)
Definition Description : Type := list (string * pyval).

(** [SUBMODULE in ext and ext[SUBMODULE]] *)
Definition submodule_set (ext : pyval) : result bool :=
  let! present := Py.contains SUBMODULE ext in
  if present then
    let! v := Py.getitem ext SUBMODULE in Ok (Py.truthy v)
  else Ok false.

(** The four steps that count the references of an entry and build
    [found_refs].  Only the first text is an f-string throughout; the other
    three end in a plain literal. *)
Definition found_tag (value found_refs : string) : string :=
  dq +:+ TAG +:+ " = " +:+ dq +:+ value +:+ dq +:+ ", " +:+ found_refs.

Definition found_branch : string :=
  dq +:+ BRANCH +:+ " = " +:+ "{self[ext_name][self.REPO][self.BRANCH]}" +:+ dq
  +:+ ", {found_refs}".

Definition found_hash : string :=
  dq +:+ HASH +:+ " = " +:+ "{self[ext_name][self.REPO][self.HASH]}" +:+ dq
  +:+ ", {found_refs}".

Definition found_submodule : string :=
  dq +:+ SUBMODULE +:+ " = " +:+ "{self[ext_name][self.SUBMODULE]}" +:+ dq
  +:+ ", {found_refs}".

Definition count_refs (ext repo : pyval) : result (nat * string) :=
  let ref_count := 0 in
  let found_refs := "" in
  let! has_tag := Py.contains TAG repo in
  let! (ref_count, found_refs) :=
    (if has_tag : bool then
       let! v := Py.getitem repo TAG in
       Ok (ref_count + 1, found_tag (Py.str v) found_refs)
     else Ok (ref_count, found_refs)) in
  let! has_branch := Py.contains BRANCH repo in
  let '(ref_count, found_refs) :=
    if has_branch : bool then (ref_count + 1, found_branch)
    else (ref_count, found_refs) in
  let! has_hash := Py.contains HASH repo in
  let '(ref_count, found_refs) :=
    if has_hash : bool then (ref_count + 1, found_hash)
    else (ref_count, found_refs) in
  let! sub := submodule_set ext in
  let '(ref_count, found_refs) :=
    if sub : bool then (ref_count + 1, found_submodule)
    else (ref_count, found_refs) in
  Ok (ref_count, found_refs).

Definition unknown_protocol_msg (ext_name : string) (protocol : pyval) : string :=
  "Unknown repository protocol " +:+ quoted (Py.str protocol) +:+ " in "
  +:+ quoted ext_name +:+ ".".

Definition svn_hash_msg (ext_name : string) : string :=
  "In repo description for " +:+ quoted ext_name +:+ ". svn repositories "
  +:+ "may not include the " +:+ quoted "hash" +:+ " keyword.".

Definition submodule_protocol_msg (ext_name : string) (protocol : pyval) : string :=
  "self.SUBMODULE is only supported with " +:+ PROTOCOL_GIT +:+ " protocol, "
  +:+ quoted ext_name +:+ " is defined as an " +:+ Py.str protocol +:+ " repository".

Definition tag_branch_hash : string :=
  quoted "tag" +:+ ", " +:+ quoted "branch" +:+ ", or " +:+ quoted "hash" +:+ " ".

Definition over_specified_prefix : string := "Model description is over specified! ".
Definition under_specified_prefix : string := "Model description is under specified! ".

Definition submodule_wording : string :=
  "from_submodule is not compatible with " +:+ tag_branch_hash.

Definition only_one_wording : string :=
  " Only one of " +:+ tag_branch_hash +:+ "may be specified ".

(** The message of the over-specified error; [.format(ext_name)] is applied
    to the text that already names the entry. *)
Definition over_specified_msg (ext_name : string) (ext : pyval)
    (found_refs : string) : result string :=
  let msg := over_specified_prefix in
  let! has_submodule := Py.contains SUBMODULE ext in
  let msg := msg +:+ (if has_submodule : bool then submodule_wording else only_one_wording) in
  let! part := Py.format1 ("for repo description of " +:+ quoted ext_name +:+ ".")
                 ext_name in
  let msg := msg +:+ part in
  Ok (msg +:+ String "010"%char "Found: " +:+ found_refs).

Definition under_specified_msg (ext_name : string) : string :=
  under_specified_prefix +:+ "One of " +:+ quoted "tag" +:+ ", " +:+ quoted "branch"
  +:+ ", or " +:+ quoted "hash" +:+ " must be specified for "
  +:+ "repo description of " +:+ quoted ext_name.

Definition missing_url_msg (ext_name : string) : string :=
  under_specified_prefix +:+ "Must have " +:+ quoted "repo_url" +:+ " in repo "
  +:+ "description for " +:+ quoted ext_name.

Definition submodule_keyword_msg (keyword ext_name : string) : string :=
  over_specified_prefix +:+ "from_submodule keyword is not compatible with "
  +:+ keyword +:+ " keyword for" +:+ " repo description of " +:+ quoted ext_name.

(** The checks of one entry whose protocol is not [externals_only]. *)
Definition check_references (env : Env) (ext_name : string) (ext repo : pyval)
    : result pyval :=
  let! (ref_count, found_refs) := count_refs ext repo in
  run! (if 1 <? ref_count then
          let! msg := over_specified_msg ext_name ext found_refs in
          fatal_error msg
        else fatal_when (ref_count <? 1) (under_specified_msg ext_name)) in
  let! has_url := Py.contains REPO_URL repo in
  let! sub := submodule_set ext in
  run! fatal_when (negb has_url && negb sub) (missing_url_msg ext_name) in
  run! (if sub then
          run! fatal_when has_url (submodule_keyword_msg REPO_URL ext_name) in
          let! has_path := Py.contains PATH ext in
          fatal_when has_path (submodule_keyword_msg PATH ext_name)
        else Ok tt) in
  if has_url then
    let! old := Py.getitem repo REPO_URL in
    let! url := expand_local_url env old ext_name in
    let! repo := Py.setitem repo REPO_URL url in
    Py.setitem ext REPO repo
  else Ok ext.

(** The body of the loop of [_check_data] for the entry [ext] of name
    [ext_name]; the result is the entry as the body leaves it. *)
Definition check_data_entry (env : Env) (ext_name : string) (ext : pyval)
    : result pyval :=
  let! repo := Py.getitem ext REPO in
  let! protocol := Py.getitem repo PROTOCOL in
  run! fatal_when (negb (Py.in_strs protocol KNOWN_PRROTOCOLS))
         (unknown_protocol_msg ext_name protocol) in
  run! (if Py.eq_str protocol PROTOCOL_SVN then
          let! has_hash := Py.contains HASH repo in
          fatal_when has_hash (svn_hash_msg ext_name)
        else Ok tt) in
  run! (if negb (Py.eq_str protocol PROTOCOL_GIT) then
          let! has_submodule := Py.contains SUBMODULE ext in
          fatal_when has_submodule (submodule_protocol_msg ext_name protocol)
        else Ok tt) in
  if negb (Py.eq_str protocol PROTOCOL_EXTERNALS_ONLY) then
    check_references env ext_name ext repo
  else Ok ext.

(** [self[name]] *)
Definition desc_get (self : Description) (name : string) : result pyval :=
  match Dict.get name self with
  | Some ext => Ok ext
  | None => Raise (KeyError name)
  end.

Fixpoint check_data_loop (env : Env) (names : list string) (self : Description)
    : result Description :=
  match names with
  | [] => Ok self
  | ext_name :: rest =>
      let! ext := desc_get self ext_name in
      let! ext' := check_data_entry env ext_name ext in
      check_data_loop env rest (Dict.set ext_name ext' self)
  end.

Definition _check_data (env : Env) (self : Description) : result Description :=
  check_data_loop env (Dict.keys self) self.

(** ** [ExternalsDescription._validate] *)

(** [for item in v]: the keys of a [dict], the characters of a string. *)
Fixpoint chars (s : string) : list string :=
  match s with
  | EmptyString => []
  | String c s' => String c EmptyString :: chars s'
  end.

Definition py_iter (v : pyval) : result (list string) :=
  match v with
  | PyDict items => Ok (Dict.keys items)
  | PyStr s => Ok (chars s)
  | _ => Raise TypeError
  end.

(** [print_compare_difference]: what it prints is left out, what it
    evaluates (and so may raise) is kept. *)
Fixpoint print_compare_loop (items : list string) (data_a data_b : pyval)
    : result unit :=
  match items with
  | [] => Ok tt
  | item :: rest =>
      let! present := Py.contains item data_b in
      run! (if present : bool then
              let! _ := Py.getitem data_b item in
              let! _ := Py.getitem data_a item in
              Ok tt
            else
              let! _ := Py.getitem data_a item in
              Ok tt) in
      print_compare_loop rest data_a data_b
  end.

Definition print_compare_difference (data_a data_b : pyval) : result unit :=
  let! items := py_iter data_a in
  print_compare_loop items data_a data_b.

(** The diagnostics of [validate_data_struct] for a mismatch. *)
Definition print_unmatched (schema data : pyval) : result unit :=
  if Py.is_dict schema then
    run! print_compare_difference schema data in
    print_compare_difference data schema
  else Ok tt.

(** The loop over the keys of a [dict] schema; [validate] is
    [validate_data_struct] itself. *)
Fixpoint validate_keys (validate : pyval -> pyval -> result bool)
    (data : pyval) (l : list (string * pyval)) (in_ref valid : bool) : result bool :=
  match l with
  | [] => Ok (in_ref && valid)
  | (key, sub) :: l' =>
      let! present := (if in_ref then Py.contains key data else Ok false) in
      let in_ref := in_ref && present in
      if in_ref && valid then
        let! sub_data := Py.getitem data key in
        let! v := validate sub sub_data in
        validate_keys validate data l' in_ref v
      else validate_keys validate data l' in_ref valid
  end.

Fixpoint validate_data_struct (schema data : pyval) : result bool :=
  let! is_valid :=
    match schema with
    | PyDict sitems =>
        if Py.is_dict data
        then validate_keys validate_data_struct data sitems true true
        else Ok (Py.same_type schema data)
    | _ => Ok (Py.same_type schema data)
    end in
  if is_valid : bool then Ok true
  else run! print_unmatched schema data in Ok false.

Definition not_validated_msg (field : string) : string :=
  "ERROR: source for " +:+ quoted field +:+ " did not validate".

Fixpoint validate_loop (fields : list string) (self : Description) : result unit :=
  match fields with
  | [] => Ok tt
  | field :: rest =>
      let! ext := desc_get self field in
      let! valid := validate_data_struct (PyDict _source_schema) ext in
      run! fatal_when (negb valid) (not_validated_msg field) in
      validate_loop rest self
  end.

Definition _validate (self : Description) : result unit :=
  validate_loop (Dict.keys self) self.

(** ** [ExternalsDescription._check_optional] *)

(** The parent repository, as far as this module calls it: [protocol()],
    [name()] and [submodules_file(repo_path=..)]. *)
Record ParentRepo : Type := mkParent {
  parent_protocol : string;
  parent_name : string;
  parent_submodules_file : string -> option string
}.

(** [if key not in ext: ext[key] = EMPTY_STR] *)
Definition default_top (key : string) (ext : pyval) : result pyval :=
  let! present := Py.contains key ext in
  if present : bool then Ok ext else Py.setitem ext key (PyStr EMPTY_STR).

(** [ext[REPO][key] = x] *)
Definition set_repo_item (key : string) (x : pyval) (ext : pyval) : result pyval :=
  let! repo := Py.getitem ext REPO in
  let! repo := Py.setitem repo key x in
  Py.setitem ext REPO repo.

(** [if key not in ext[REPO]: ext[REPO][key] = EMPTY_STR] *)
Definition default_repo (key : string) (ext : pyval) : result pyval :=
  let! repo := Py.getitem ext REPO in
  let! present := Py.contains key repo in
  if present : bool then Ok ext else set_repo_item key (PyStr EMPTY_STR) ext.

Definition fill_defaults (ext : pyval) : result pyval :=
  let! ext := default_top EXTERNALS ext in
  let! ext := default_repo TAG ext in
  let! ext := default_repo BRANCH ext in
  let! ext := default_repo HASH ext in
  let! ext := default_repo REPO_URL ext in
  default_repo SPARSE ext.

(** The search loop of [_repo_config_from_submodule]; [PyNone] is [None]. *)
Definition find_submodule_config (field : string) (submod_desc : Description)
    : result (pyval * pyval * pyval) :=
  match Dict.get field submod_desc with
  | Some ext =>
      let! repo := Py.getitem ext REPO in
      let! repo_url := Py.getitem repo REPO_URL in
      let! repo_path := Py.getitem ext PATH in
      let! ref_hash := Py.getitem repo HASH in
      Ok (repo_url, repo_path, ref_hash)
  | None => Ok (PyNone, PyNone, PyNone)
  end.

Definition no_submodules_msg (field : string) (parent : ParentRepo) : string :=
  "Cannot checkout " +:+ quoted field +:+ " from submodule information"
  +:+ String "010"%char "       Parent repo, " +:+ quoted (parent_name parent)
  +:+ " does not have submodules".

Definition no_parent_msg (field : string) : string :=
  "No parent submodule for " +:+ quoted field.

Definition parent_protocol_msg (parent : ParentRepo) : string :=
  "Parent protocol, " +:+ quoted (parent_protocol parent)
  +:+ ", does not support submodules".

Definition submodule_not_found_msg (field : string) : string :=
  "Cannot checkout " +:+ quoted field +:+ " as a submodule, "
  +:+ "repo not found in " +:+ GIT_SUBMODULES_FILENAME +:+ " file".

Section Validation.

(** [create_externals_description(submod_file)], the call that
    [_repo_config_from_submodule] makes to build the description of the
    parent's submodules; the knot is tied after the classes, below. *)
Variable create : Config -> M Description.
Variable env : Env.

Definition _repo_config_from_submodule (parent : ParentRepo) (field : string)
    (submod_desc : option Description)
    : M (pyval * pyval * pyval * Description) :=
  let* submod_desc :=
    match submod_desc with
    | Some d => ret d
    | None =>
        let* repo_path := getcwd in
        match parent_submodules_file parent repo_path with
        | None => lift (fatal_error (no_submodules_msg field parent))
        | Some submod_file =>
            let* submod_file := read_gitmodules_file env repo_path submod_file in
            create submod_file
        end
    end in
  let* found := lift (find_submodule_config field submod_desc) in
  let '(repo_url, repo_path, ref_hash) := found in
  ret (repo_url, repo_path, ref_hash, submod_desc).

Definition is_none (v : pyval) : bool :=
  match v with PyNone => true | _ => false end.

(** The branch of [_check_optional] for an entry that has the
    [from_submodule] key. *)
Definition resolve_from_submodule (parent_repo : option ParentRepo) (field : string)
    (ext : pyval) (submod_desc : option Description)
    : M (pyval * option Description) :=
  match parent_repo with
  | None => lift (fatal_error (no_parent_msg field))
  | Some parent =>
      if negb (String.eqb (parent_protocol parent) PROTOCOL_GIT) then
        lift (fatal_error (parent_protocol_msg parent))
      else
        let* args := _repo_config_from_submodule parent field submod_desc in
        let '(repo_url, repo_path, ref_hash, submod_desc) := args in
        run* lift (fatal_when (is_none repo_url) (submodule_not_found_msg field)) in
        let* ext := lift (let! ext := set_repo_item REPO_URL repo_url ext in
                          let! ext := set_repo_item HASH ref_hash ext in
                          Py.setitem ext PATH repo_path) in
        ret (ext, Some submod_desc)
  end.

(** The body of the loop of [_check_optional]. *)
Definition check_optional_entry (parent_repo : option ParentRepo) (field : string)
    (ext : pyval) (submod_desc : option Description)
    : M (pyval * option Description) :=
  let* ext := lift (fill_defaults ext) in
  let* has_submodule := lift (Py.contains SUBMODULE ext) in
  if has_submodule : bool then
    let* r := resolve_from_submodule parent_repo field ext submod_desc in
    let* _ := lift (Py.getitem (fst r) SUBMODULE) in
    ret r
  else
    let* ext := lift (Py.setitem ext SUBMODULE (PyBool false)) in
    ret (ext, submod_desc).

Fixpoint check_optional_loop (parent_repo : option ParentRepo) (fields : list string)
    (self : Description) (submod_desc : option Description) : M Description :=
  match fields with
  | [] => ret self
  | field :: rest =>
      let* ext := lift (desc_get self field) in
      let* r := check_optional_entry parent_repo field ext submod_desc in
      check_optional_loop parent_repo rest (Dict.set field (fst r) self) (snd r)
  end.

Definition _check_optional (parent_repo : option ParentRepo) (self : Description)
    : M Description :=
  check_optional_loop parent_repo (Dict.keys self) self None.

(** ** [ExternalsDescription._check_user_input] *)

Definition _check_user_input (parent_repo : option ParentRepo) (self : Description)
    : M Description :=
  let* self := lift (_check_data env self) in
  let* self := _check_optional parent_repo self in
  run* lift (_validate self) in
  ret self.

End Validation.

(** ** [ExternalsDescriptionConfigV1._parse_cfg] *)

Definition str_mem (s : string) (l : list string) : bool :=
  existsb (String.eqb s) l.

(** [list_to_dict(input_list)] with [convert_to_lower_case=True]. *)
Definition list_to_dict (input_list : list (string * string)) : list (string * pyval) :=
  fold_left
    (fun output_dict item =>
       Dict.set (PyStr.lower (PyStr.strip (fst item)))
                (PyStr (PyStr.strip (snd item))) output_dict)
    input_list [].

Definition unknown_item_msg (name item : string) : string :=
  "Invalid input: " +:+ quoted name +:+ " contains unknown " +:+ "item "
  +:+ quoted item +:+ ".".

(** The body of the loop over [loop_keys]. *)
Definition parse_cfg_item (env : Env) (name item : string) (ext : pyval)
    : result pyval :=
  match Dict.get item _source_schema with
  | Some (PyBool _) =>
      let! v := Py.getitem ext item in
      match v with
      | PyStr s => let! b := str_to_bool env s in Py.setitem ext item (PyBool b)
      | _ => Raise TypeError
      end
  | Some _ => Ok ext
  | None =>
      if Dict.mem item _source_schema_repo then
        let! v := Py.getitem ext item in
        let! ext := set_repo_item item v ext in
        match ext with
        | PyDict items => Ok (PyDict (Dict.del item items))
        | _ => Raise TypeError
        end
      else fatal_error (unknown_item_msg name item)
  end.

Fixpoint parse_cfg_items (env : Env) (name : string) (loop_keys : list string)
    (ext : pyval) : result pyval :=
  match loop_keys with
  | [] => Ok ext
  | item :: rest =>
      let! ext := parse_cfg_item env name item ext in
      parse_cfg_items env name rest ext
  end.

(** The body of the loop over the sections; [components] and [exclude] are
    lists, the empty list standing for [None] as well. *)
Definition parse_cfg_section (env : Env) (cfg_data : Config)
    (components exclude : list string) (section : string) (self : Description)
    : result Description :=
  let name := PyStr.strip section in
  if (negb (length components =? 0) && negb (str_mem name components))
     || (negb (length exclude =? 0) && str_mem name exclude)
  then Ok self
  else
    let! items := Cfg.items section cfg_data in
    let ext := list_to_dict items in
    let ext := Dict.set REPO (PyDict []) ext in
    let loop_keys := Dict.keys ext in
    let! ext := parse_cfg_items env name loop_keys (PyDict ext) in
    Ok (Dict.set name ext self).

Fixpoint parse_cfg_sections (env : Env) (cfg_data : Config)
    (components exclude : list string) (sections : list string) (self : Description)
    : result Description :=
  match sections with
  | [] => Ok self
  | section :: rest =>
      let! self := parse_cfg_section env cfg_data components exclude section self in
      parse_cfg_sections env cfg_data components exclude rest self
  end.

Definition _parse_cfg (env : Env) (cfg_data : Config) (components exclude : list string)
    : result Description :=
  parse_cfg_sections env cfg_data components exclude (Cfg.sections cfg_data) [].

(** ** The classes and the factory *)

(** [ExternalsDescriptionConfigV1._remove_metadata] *)
Definition _remove_metadata (model_data : Config) : Config :=
  Cfg.remove_section DESCRIPTION_SECTION model_data.

Section Classes.

Variable create : Config -> M Description.
Variable env : Env.

(** [ExternalsDescriptionConfigV1.__init__]: the supported schema is 1.1.0. *)
Definition ExternalsDescriptionConfigV1 (model_data : Config)
    (components exclude : list string) (parent_repo : option ParentRepo)
    : M Description :=
  let schema := mkVersion 1 1 0 in
  let* v := lift (get_cfg_schema_version model_data) in
  let '(input_major, input_minor, input_patch) := v in
  run* lift (_verify_schema_version schema
               (mkVersion input_major input_minor input_patch)) in
  let model_data := _remove_metadata model_data in
  let* self := lift (_parse_cfg env model_data components exclude) in
  _check_user_input create env parent_repo self.

(** [ExternalsDescriptionDict.__init__]: schema and input are both 1.0.0,
    and there is no parent repository. *)
Definition ExternalsDescriptionDict (model_data : Description)
    (components exclude : list string) : M Description :=
  run* lift (_verify_schema_version (mkVersion 1 0 0) (mkVersion 1 0 0)) in
  let model_data :=
    if negb (length components =? 0)
    then List.filter (fun kv => str_mem (fst kv) components) model_data
    else model_data in
  let model_data :=
    if negb (length exclude =? 0)
    then List.filter (fun kv => negb (str_mem (fst kv) exclude)) model_data
    else model_data in
  _check_user_input create env None model_data.

(** The two kinds of [model_data] with their [model_format], and any other
    format name. *)
Inductive ModelData : Type :=
| CfgData (model_data : Config)
| DictData (model_data : Description)
| OtherFormat (model_format : string).

Definition unsupported_version_msg (major : Z) : string :=
  "Externals description file has unsupported schema " +:+ "version "
  +:+ quoted (PyStr.of_Z major) +:+ ".".

Definition create_externals_description_with (data : ModelData)
    (components exclude : list string) (parent_repo : option ParentRepo)
    : M Description :=
  match data with
  | DictData model_data => ExternalsDescriptionDict model_data components exclude
  | CfgData model_data =>
      let* v := lift (get_cfg_schema_version model_data) in
      let '(major, _, _) := v in
      if (major =? 1)%Z then
        ExternalsDescriptionConfigV1 model_data components exclude parent_repo
      else lift (fatal_error (unsupported_version_msg major))
  | OtherFormat model_format =>
      lift (fatal_error ("Unknown model data format " +:+ quoted model_format))
  end.

End Classes.

(** [_repo_config_from_submodule] calls the factory with its defaults, so
    without a parent repository: the description it builds never reaches
    the factory again, and the inner factory is given one that only
    raises. *)
Definition create_for_submodules (env : Env) (submod_file : Config) : M Description :=
  create_externals_description_with
    (fun _ => lift (Raise TypeError)) env (CfgData submod_file) [] [] None.

Definition create_externals_description (env : Env) (data : ModelData)
    (components exclude : list string) (parent_repo : option ParentRepo)
    : M Description :=
  create_externals_description_with (create_for_submodules env) env data
    components exclude parent_repo.

(** * Specification-level definitions and fixtures *)

(** Modelled from the spec: [utils.str_to_bool] accepts, in any case,
    true/false, yes/no and 1/0 and rejects anything else with a fatal
    error. *)
Definition str_to_bool_spec (s : string) : result bool :=
  let l := PyStr.lower s in
  if str_mem l ["true"; "yes"; "1"] then Ok true
  else if str_mem l ["false"; "no"; "0"] then Ok false
  else fatal_error ("Invalid boolean string " +:+ quoted s).

(** A configuration that only declares its schema version. *)
Definition cfg_with_version (v : string) : Config :=
  [(DESCRIPTION_SECTION, [(VERSION_ITEM, v)])].

(** The submodules file with the single section [submodule "lib"]. *)
Definition manifest_lib : Config :=
  [("submodule " +:+ quoted "lib", [("path", "src/lib"); ("url", "https://x/lib.git")])].

(** The status mapping [{"lib": {"hash": "abc123", "status": " ", "tag": None}}]. *)
Definition status_lib : gmap string SubmoduleStatus :=
  {[ "lib" := mkStatus "abc123" " " None ]}.

(** The document that the converter makes of [manifest_lib] and [status_lib]. *)
Definition document_lib : Config :=
  [("lib", [(PATH, "src/lib"); (PROTOCOL, "git"); (REPO_URL, "https://x/lib.git");
            (REQUIRED, "True"); (HASH, "abc123")]);
   (DESCRIPTION_SECTION, [(VERSION_ITEM, "1.0.0")])].

(** The description built from [document_lib]. *)
Definition description_lib : Description :=
  [("lib", PyDict
     [(PATH, PyStr "src/lib"); (REQUIRED, PyBool true);
      (REPO, PyDict [(PROTOCOL, PyStr "git"); (REPO_URL, PyStr "https://x/lib.git");
                     (HASH, PyStr "abc123"); (TAG, PyStr ""); (BRANCH, PyStr "");
                     (SPARSE, PyStr "")]);
      (EXTERNALS, PyStr ""); (SUBMODULE, PyBool false)])].

(** An environment in which every path exists, [abspath] and [os.chdir]
    take absolute paths as they are, the submodules file is [manifest_lib],
    [git submodule status] prints [git_output], and local URLs expand to
    themselves. *)
Definition env_with_output (git_output : result string) : Env :=
  mkEnv (fun _ p => p) (fun _ _ => true) (fun _ p => Some p)
        (fun _ _ => git_output) (fun _ _ => Ok (Some manifest_lib))
        (fun url _ => Ok url) str_to_bool_spec.

Definition env_lib : Env := env_with_output (Ok " abc123 lib").

(** The same, in a directory that is not a git work tree: the command fails. *)
Definition env_git_fails : Env :=
  env_with_output (Raise (FatalError "Command 'git submodule status' failed")).

Definition world0 : World := mkWorld "/start" [].

Definition parent_git : ParentRepo := mkParent "git" "parent" (fun _ => Some ".gitmodules").
Definition parent_svn : ParentRepo := mkParent "svn" "parent" (fun _ => None).

(** The schema version that [ExternalsDescriptionConfigV1] supports. *)
Definition supported_v1 : SchemaVersion := mkVersion 1 1 0.

(** The keys of a submodule section that the converter reads or skips in
    silence. *)
Definition tolerated_key (item : string * string) : bool :=
  let name := PyStr.strip (fst item) in
  String.eqb name "path" || String.eqb name "url" || String.eqb name "branch".

Definition unknown_key_warning (file_path : string) (item : string * string) : string :=
  "WARNING: Ignoring unknown " +:+ fst item +:+ " property, in " +:+ file_path.

(** The value of the last item named [key], starting from [acc]. *)
Definition last_value (key : string) (items : list (string * string))
    (acc : option string) : option string :=
  fold_left
    (fun acc item =>
       if String.eqb (PyStr.strip (fst item)) key
       then Some (PyStr.strip (snd item)) else acc)
    items acc.


(** The command of the status query. *)
Definition status_cmd : list string := ["git"; "submodule"; "status"].

(** The name of the only section of [manifest_lib]. *)
Definition section_lib : string := "submodule " +:+ quoted "lib".

(** A status mapping keyed by the path of the submodule, as [git submodule
    status] prints it, and not by the section name. *)
Definition status_by_path : gmap string SubmoduleStatus :=
  {[ "src/lib" := mkStatus "abc123" " " None ]}.

(** A git entry that gives both a tag and a branch. *)
Definition entry_tag_branch : pyval :=
  PyDict [(REQUIRED, PyBool true); (PATH, PyStr "src/lib");
          (REPO, PyDict [(PROTOCOL, PyStr "git"); (REPO_URL, PyStr "https://x/lib.git");
                         (TAG, PyStr "v1"); (BRANCH, PyStr "main")])].

(** The same with [from_submodule] declared false. *)
Definition entry_tag_branch_no_submodule : pyval :=
  PyDict [(REQUIRED, PyBool true); (PATH, PyStr "src/lib"); (SUBMODULE, PyBool false);
          (REPO, PyDict [(PROTOCOL, PyStr "git"); (REPO_URL, PyStr "https://x/lib.git");
                         (TAG, PyStr "v1"); (BRANCH, PyStr "main")])].

(** The text that ends every over-specified message for the entry [lib]. *)
Definition for_lib_found (found_refs : string) : string :=
  "for repo description of " +:+ quoted "lib" +:+ "." +:+ String "010"%char "Found: "
  +:+ found_refs.

(** ** What [_validate] requires, read off as a predicate

    [conforms schema data]: every key of the schema tree is a key of the
    data, at every level, and every leaf of the data has the type of the
    leaf of the schema.  Keys of the data that the schema does not have are
    not looked at. *)
Fixpoint conforms_keys (conforms : pyval -> pyval -> bool)
    (ditems : list (string * pyval)) (l : list (string * pyval)) : bool :=
  match l with
  | [] => true
  | (key, sub) :: l' =>
      match Dict.get key ditems with
      | Some x => conforms sub x
      | None => false
      end && conforms_keys conforms ditems l'
  end.

Fixpoint conforms (schema data : pyval) : bool :=
  match schema, data with
  | PyDict sitems, PyDict ditems => conforms_keys conforms ditems sitems
  | _, _ => Py.same_type schema data
  end.

(** [dicts_where_expected schema data]: wherever the schema has a [dict]
    and the data has the key, the data has a [dict] too.  The builder and
    the first two phases only make such entries; for others the diagnostics
    of [validate_data_struct] can raise [TypeError] before the fatal error
    is reached. *)
Fixpoint expected_keys (expected : pyval -> pyval -> bool)
    (ditems : list (string * pyval)) (l : list (string * pyval)) : bool :=
  match l with
  | [] => true
  | (key, sub) :: l' =>
      match Dict.get key ditems with
      | Some x => expected sub x
      | None => true
      end && expected_keys expected ditems l'
  end.

Fixpoint dicts_where_expected (schema data : pyval) : bool :=
  match schema with
  | PyDict sitems =>
      match data with
      | PyDict ditems => expected_keys dicts_where_expected ditems sitems
      | _ => false
      end
  | _ => true
  end.

(** [conforms] and [dicts_where_expected] for the entry of name [field]. *)
Definition conforms_at (self : Description) (field : string) : bool :=
  match Dict.get field self with
  | Some ext => conforms (PyDict _source_schema) ext
  | None => false
  end.

Definition well_shaped (self : Description) : bool :=
  forallb (fun kv => dicts_where_expected (PyDict _source_schema) (snd kv)) self.

(** The first entry, in the order of the keys, that does not conform. *)
Definition first_mismatch (self : Description) : option string :=
  List.find (fun field => negb (conforms_at self field)) (Dict.keys self).

(** An entry with every required key, of the right type, and one key more
    at each level. *)
Definition entry_with_extra_keys : pyval :=
  PyDict [(REQUIRED, PyBool true); (PATH, PyStr "src/lib"); (EXTERNALS, PyStr "");
          (SUBMODULE, PyBool false); ("comment", PyStr "not in the schema");
          (REPO, PyDict [(PROTOCOL, PyStr "git"); (REPO_URL, PyStr "https://x/lib.git");
                         (TAG, PyStr "v1"); (BRANCH, PyStr ""); (HASH, PyStr "");
                         (SPARSE, PyStr ""); ("depth", PyStr "1")])].

(** An entry without [required], and one whose [required] is a text. *)
Definition entry_missing_required : pyval :=
  PyDict [(PATH, PyStr "src/lib"); (EXTERNALS, PyStr ""); (SUBMODULE, PyBool false);
          (REPO, PyDict [(PROTOCOL, PyStr "git"); (REPO_URL, PyStr "https://x/lib.git");
                         (TAG, PyStr "v1"); (BRANCH, PyStr ""); (HASH, PyStr "");
                         (SPARSE, PyStr "")])].

(** ** The reference rule of an entry, read off as predicates *)

(** The [repo] dictionary of an entry. *)
Definition repo_of (ext : pyval) : option (list (string * pyval)) :=
  match ext with
  | PyDict d =>
      match Dict.get REPO d with
      | Some (PyDict r) => Some r
      | _ => None
      end
  | _ => None
  end.

Definition protocol_of (ext : pyval) : option pyval :=
  match repo_of ext with
  | Some r => Dict.get PROTOCOL r
  | None => None
  end.

(** [key] is present in the [repo] dictionary of the entry. *)
Definition repo_has (key : string) (ext : pyval) : bool :=
  match repo_of ext with
  | Some r => Dict.mem key r
  | None => false
  end.

(** The value of [from_submodule], when the key is present. *)
Definition from_submodule_of (ext : pyval) : option pyval :=
  match ext with
  | PyDict d => Dict.get SUBMODULE d
  | _ => None
  end.

(** [from_submodule] is present and true. *)
Definition from_submodule_true (ext : pyval) : bool :=
  match from_submodule_of ext with
  | Some v => Py.truthy v
  | None => false
  end.

(** How many of: tag present, branch present, hash present,
    [from_submodule] true. *)
Definition ref_count (ext : pyval) : nat :=
  Nat.b2n (repo_has TAG ext) + Nat.b2n (repo_has BRANCH ext)
  + Nat.b2n (repo_has HASH ext) + Nat.b2n (from_submodule_true ext).

Definition is_externals_only (ext : pyval) : bool :=
  match protocol_of ext with
  | Some p => Py.eq_str p PROTOCOL_EXTERNALS_ONLY
  | None => false
  end.

(** Exactly one reference, and a [repo_url] unless [from_submodule] is
    true, for an entry whose protocol is not [externals_only]. *)
Definition reference_rule (ext : pyval) : Prop :=
  is_externals_only ext = false ->
  ref_count ext = 1
  /\ (from_submodule_true ext = false -> repo_has REPO_URL ext = true).

(** [from_submodule], when present, is a boolean. *)
Definition from_submodule_is_bool (ext : pyval) : Prop :=
  forall v, from_submodule_of ext = Some v -> exists b, v = PyBool b.

(** An entry that reaches the count of references in [_check_data]: its
    protocol is [git] or [svn], an [svn] entry has no [hash], and only a
    [git] entry has the [from_submodule] key. *)
Definition reaches_count (ext : pyval) : bool :=
  match protocol_of ext with
  | Some p =>
      (Py.eq_str p PROTOCOL_GIT
       || (Py.eq_str p PROTOCOL_SVN && negb (repo_has HASH ext)
           && match from_submodule_of ext with Some _ => false | None => true end))
  | None => false
  end.

(** [_check_data], entry by entry. *)
Fixpoint check_data_entries (env : Env) (d : Description) : result Description :=
  match d with
  | [] => Ok []
  | (name, ext) :: rest =>
      let! ext' := check_data_entry env name ext in
      let! rest' := check_data_entries env rest in
      Ok ((name, ext') :: rest')
  end.

(** [_check_optional], entry by entry. *)
Fixpoint check_optional_entries (create : Config -> M Description) (env : Env)
    (parent_repo : option ParentRepo) (d : Description)
    (submod_desc : option Description) : M Description :=
  match d with
  | [] => ret []
  | (field, ext) :: rest =>
      let* r := check_optional_entry create env parent_repo field ext submod_desc in
      let* rest' := check_optional_entries create env parent_repo rest (snd r) in
      ret ((field, fst r) :: rest')
  end.

(** A text without braces. *)
Fixpoint no_braces (s : string) : bool :=
  match s with
  | EmptyString => true
  | String c s' =>
      negb (Ascii.eqb c "{"%char) && negb (Ascii.eqb c "}"%char) && no_braces s'
  end.

(** What one of the default-setting steps may do to an entry: nothing,
    or set one key of the entry, or set one key of its [repo]. *)
Inductive entry_step : pyval -> pyval -> Prop :=
| step_same (e : pyval) : entry_step e e
| step_top (d : list (string * pyval)) (k : string) (x : pyval) :
    k <> SUBMODULE -> k <> REPO ->
    entry_step (PyDict d) (PyDict (Dict.set k x d))
| step_repo (d r : list (string * pyval)) (k : string) (x : pyval) :
    Dict.get REPO d = Some (PyDict r) ->
    entry_step (PyDict d) (PyDict (Dict.set REPO (PyDict (Dict.set k x r)) d)).

(** The reflexive-transitive closure of the steps: the entry keeps being a
    dictionary with a dictionary under [repo], and keeps every key other
    than those that were set. *)
Inductive entry_steps : pyval -> pyval -> Prop :=
| steps_nil (e : pyval) : entry_steps e e
| steps_cons (e1 e2 e3 : pyval) :
    entry_step e1 e2 -> entry_steps e2 e3 -> entry_steps e1 e3.


(** What [check_references] does with an entry [d] whose [repo] is [r],
    by cases on the number of references, on [repo_url] and on
    [from_submodule]; [found_refs] is the text that [count_refs] built. *)
Definition check_references_cases (env : Env) (ext_name : string)
    (d r : list (string * pyval)) (found_refs : string) : result pyval :=
  let n := ref_count (PyDict d) in
  let has_url := Dict.mem REPO_URL r in
  let sub := from_submodule_true (PyDict d) in
  if 1 <? n then
    let! msg := over_specified_msg ext_name (PyDict d) found_refs in fatal_error msg
  else if n <? 1 then fatal_error (under_specified_msg ext_name)
  else if negb has_url && negb sub then fatal_error (missing_url_msg ext_name)
  else if sub && has_url then fatal_error (submodule_keyword_msg REPO_URL ext_name)
  else if sub && Dict.mem PATH d then fatal_error (submodule_keyword_msg PATH ext_name)
  else
    match Dict.get REPO_URL r with
    | Some old =>
        let! url := expand_local_url env old ext_name in
        Ok (PyDict (Dict.set REPO (PyDict (Dict.set REPO_URL url r)) d))
    | None => Ok (PyDict d)
    end.

(** The text of the over-specified error for a name without braces. *)
Definition over_specified_text (ext_name : string) (has_submodule : bool)
    (found_refs : string) : string :=
  ((over_specified_prefix
    +:+ (if has_submodule then submodule_wording else only_one_wording))
   +:+ ("for repo description of " +:+ quoted ext_name +:+ "."))
  +:+ String "010"%char "Found: " +:+ found_refs.

(** The keys of a dictionary are distinct. *)
Fixpoint distinct (l : list string) : bool :=
  match l with
  | [] => true
  | x :: t => negb (str_mem x t) && distinct t
  end.

(** [ext[REPO][key]] *)
Definition repo_item (key : string) (ext : pyval) : result pyval :=
  let! repo := Py.getitem ext REPO in Py.getitem repo key.

(** The description of the parent's submodules that an entry with the
    [from_submodule] key is resolved against: the one loaded for an earlier
    entry, or else the one built from the parent's submodules file. *)
Definition submodules_loaded (create : Config -> M Description) (env : Env)
    (parent : ParentRepo) (submod_desc : option Description) (w : World)
    (d : Description) (w' : World) : Prop :=
  match submod_desc with
  | Some d0 => d = d0 /\ w' = w
  | None =>
      exists submod_file cfg w1,
        parent_submodules_file parent (cwd w) = Some submod_file
        /\ read_gitmodules_file env (cwd w) submod_file w = (Ok cfg, w1)
        /\ create cfg w1 = (Ok d, w')
  end.

(** The entry has the key [from_submodule], whatever its value. *)
Definition declares_from_submodule (ext : pyval) : bool :=
  match from_submodule_of ext with Some _ => true | None => false end.

(** The entry is a dictionary with a dictionary under [repo]. *)
Definition has_repo_dict (ext : pyval) : bool :=
  match repo_of ext with Some _ => true | None => false end.

(** The fatal error of an entry that has the [from_submodule] key when
    there is no parent repository or its protocol is not git. *)
Definition parent_error (parent_repo : option ParentRepo) (field : string)
    : option string :=
  match parent_repo with
  | None => Some (no_parent_msg field)
  | Some parent =>
      if String.eqb (parent_protocol parent) PROTOCOL_GIT then None
      else Some (parent_protocol_msg parent)
  end.

(** An entry as [_check_data] leaves it that does not have the
    [from_submodule] key. *)
Definition plain_entry (kv : string * pyval) : bool :=
  has_repo_dict (snd kv) && negb (declares_from_submodule (snd kv)).

(** A git entry that declares [from_submodule = False] beside a tag and a
    URL of its own. *)
Definition entry_declared_false : pyval :=
  PyDict [(REQUIRED, PyBool true); (SUBMODULE, PyBool false);
          (REPO, PyDict [(PROTOCOL, PyStr "git"); (TAG, PyStr "v1");
                         (REPO_URL, PyStr "https://user/fork.git")])].

(** [entry_declared_false] once resolved against [description_lib]. *)
Definition entry_declared_false_resolved : pyval :=
  PyDict [(REQUIRED, PyBool true); (SUBMODULE, PyBool false);
          (REPO, PyDict [(PROTOCOL, PyStr "git"); (TAG, PyStr "v1");
                         (REPO_URL, PyStr "https://x/lib.git"); (BRANCH, PyStr "");
                         (HASH, PyStr "abc123"); (SPARSE, PyStr "")]);
          (EXTERNALS, PyStr ""); (PATH, PyStr "src/lib")].

(** A git entry with exactly one reference and a URL, but without
    [required] and [local_path]; and one with the protocol [hg]. *)
Definition entry_without_required : pyval :=
  PyDict [(REPO, PyDict [(PROTOCOL, PyStr "git"); (TAG, PyStr "v1");
                         (REPO_URL, PyStr "https://x/lib.git")])].

Definition entry_hg : pyval :=
  PyDict [(REQUIRED, PyBool true); (PATH, PyStr "src/lib");
          (REPO, PyDict [(PROTOCOL, PyStr "hg"); (TAG, PyStr "v1");
                         (REPO_URL, PyStr "https://x/lib.git")])].

(** A git entry that passes the three phases. *)
Definition entry_tag_only : pyval :=
  PyDict [(REQUIRED, PyBool true); (PATH, PyStr "src/lib");
          (REPO, PyDict [(PROTOCOL, PyStr "git"); (TAG, PyStr "v1");
                         (REPO_URL, PyStr "https://x/lib.git")])].

(** [entry_tag_only] after the three phases. *)
Definition entry_tag_only_validated : pyval :=
  PyDict [(REQUIRED, PyBool true); (PATH, PyStr "src/lib");
          (REPO, PyDict [(PROTOCOL, PyStr "git"); (TAG, PyStr "v1");
                         (REPO_URL, PyStr "https://x/lib.git"); (BRANCH, PyStr "");
                         (HASH, PyStr ""); (SPARSE, PyStr "")]);
          (EXTERNALS, PyStr ""); (SUBMODULE, PyBool false)].

(** The section is there and, when it has no name, has no option of its
    own: what [add_section] makes and [set] keeps. *)
Definition section_ready (section : string) (c : Config) : Prop :=
  section <> Cfg.DEFAULTSECT
  /\ exists opts, Dict.get section c = Some opts /\ (section = "" -> opts = []).

(** * The rest of the module *)

(** ** [LstripReader] *)

(** The object: [_lines], [_num_lines] and [_index]. *)
Record LstripReader : Type := mkReader {
  _lines : list string;
  _num_lines : nat;
  _index : nat
}.

(** [line.lstrip()] *)
Definition lstrip (line : string) : string := PyStr.lstrip_by PyStr.is_space line.

(** [LstripReader.__init__], given the lines that [infile.readlines()]
    returns. *)
Definition LstripReader_init (lines : list string) : LstripReader :=
  mkReader (map lstrip lines) (length lines) 0.

(** [LstripReader.readlines] *)
Definition readlines (self : LstripReader) : list string := _lines self.

(** [LstripReader.__iter__] *)
Definition reader_iter (self : LstripReader) : LstripReader :=
  mkReader (_lines self) (_num_lines self) 0.

(** [LstripReader.next] and [__next__]: [Ok None] is [StopIteration],
    [Raise IndexError] an index outside [_lines]. *)
Definition reader_next (self : LstripReader) : result (option string) * LstripReader :=
  if _num_lines self <=? _index self then (Ok None, self)
  else
    let self := mkReader (_lines self) (_num_lines self) (_index self + 1) in
    match nth_error (_lines self) (_index self - 1) with
    | Some line => (Ok (Some line), self)
    | None => (Raise IndexError, self)
    end.

(** [LstripReader.readline(size)] *)
Definition readline (self : LstripReader) (size : Z) : result string * LstripReader :=
  match reader_next self with
  | (Ok next_line, self) =>
      let line := match next_line with Some l => l | None => "" end in
      if (0 <? size)%Z && (Z.of_nat (String.length line) <? size)%Z
      then (Ok (PyStr.take (Z.to_nat size) line), self)
      else (Ok line, self)
  | (Raise e, self) => (Raise e, self)
  end.

(** [for line in reader], as [configparser] reads it: [__iter__], then
    [__next__] until [StopIteration]; [fuel] bounds the number of calls. *)
Fixpoint next_until_stop (fuel : nat) (self : LstripReader)
    : result (list string) * LstripReader :=
  match fuel with
  | 0 => (Ok [], self)
  | S fuel' =>
      match reader_next self with
      | (Ok (Some line), self) =>
          match next_until_stop fuel' self with
          | (Ok rest, self) => (Ok (line :: rest), self)
          | (Raise e, self) => (Raise e, self)
          end
      | (Ok None, self) => (Ok [], self)
      | (Raise e, self) => (Raise e, self)
      end
  end.

Definition iterate (fuel : nat) (self : LstripReader)
    : result (list string) * LstripReader :=
  next_until_stop fuel (reader_iter self).

(** ** [read_externals_description_file] *)

Definition not_configured_msg (file_path : string) : string :=
  "INTERNAL ERROR: Attempt to read externals file " +:+ "from " +:+ file_path
  +:+ " when not configured".

Definition no_description_file_msg (file_name file_path : string) : string :=
  "ERROR: Model description file, " +:+ quoted file_name +:+ ", does not "
  +:+ "exist at path:" +:+ String "010"%char "    " +:+ file_path
  +:+ String "010"%char "Did you run from the root of " +:+ "the source tree?".

(** [read_cfg c p] is [config.read(p)] on a fresh parser, seen from the
    working directory [c]: the parsed sections, where [Ok None] is
    [MissingSectionHeaderError]. *)
Definition read_externals_description_file (env : Env)
    (read_cfg : string -> string -> result (option Config))
    (root_dir file_name : string) : M Config :=
  let* c := getcwd in
  let root_dir := abspath env c root_dir in
  let file_path := path_join root_dir file_name in
  run* lift (fatal_when (negb (path_exists env c file_name))
               (if String.eqb (PyStr.lower file_name) "none"
                then not_configured_msg file_path
                else no_description_file_msg file_name file_path)) in
  let* externals_description :=
    (if String.eqb file_name GIT_SUBMODULES_FILENAME then
       let* d := read_gitmodules_file env root_dir file_name in ret (Some d)
     else lift (read_cfg c file_path)) in
  match externals_description with
  | None => lift (fatal_error "Unknown file format!")
  | Some d => ret d
  end.

(** The text starts with white space. *)
Definition starts_with_space (s : string) : bool :=
  match s with
  | String c _ => PyStr.is_space c
  | EmptyString => false
  end.

(** Every character of the text is white space. *)
Fixpoint all_space (s : string) : bool :=
  match s with
  | String c s' => PyStr.is_space c && all_space s'
  | EmptyString => true
  end.

(** The reader is as [__init__] and the methods leave it: [_num_lines] is
    the number of lines and [_index] does not pass it. *)
Definition reader_ok (self : LstripReader) : Prop :=
  _num_lines self = length (_lines self) /\ _index self <= _num_lines self.

(** An environment for [read_externals_description_file]: only the file
    [Externals.cfg] exists, and it declares schema version 1.0.0. *)
Definition env_cfg_only : Env :=
  mkEnv (fun _ p => p) (fun _ p => String.eqb p "Externals.cfg") (fun _ p => Some p)
        (fun _ _ => Raise (OSError "git")) (fun _ _ => Raise (OSError "open"))
        (fun url _ => Ok url) str_to_bool_spec.

Definition read_cfg_versioned (c p : string) : result (option Config) :=
  Ok (Some (cfg_with_version "1.0.0")).

(** No character of the text satisfies [p]. *)
Fixpoint free_of (p : ascii -> bool) (s : string) : bool :=
  match s with
  | String c s' => negb (p c) && free_of p s'
  | EmptyString => true
  end.

Definition is_blank (c : ascii) : bool := Ascii.eqb " "%char c.

(** The section of the submodules file is one that the converter takes. *)
Definition is_submodule_section (section : string) : bool :=
  String.eqb (PyStr.take 9 section) "submodule".

(** The options that the converter writes for one submodule, in the order
    in which it sets them. *)
Definition converted_section (path url hash : string) : list (string * string) :=
  [(PATH, path); (PROTOCOL, "git"); (REPO_URL, url); (REQUIRED, "True"); (HASH, hash)].

Definition is_converted_section (kv : string * list (string * string)) : Prop :=
  exists path url hash, snd kv = converted_section path url hash.

(** The section that closes every converted document. *)
Definition version_section : string * list (string * string) :=
  (DESCRIPTION_SECTION, [(VERSION_ITEM, "1.0.0")]).

(** The world after the warnings for the keys of a submodule section that
    the converter does not know. *)
Definition warned (file_path : string) (section_items : list (string * string))
    (w : World) : World :=
  mkWorld (cwd w)
    (warnings w ++ map (unknown_key_warning file_path)
                     (List.filter (fun item => negb (tolerated_key item)) section_items)).

(** A submodules file with two sections that differ in their quotes only. *)
Definition manifest_twice : Config :=
  [("submodule " +:+ quoted "lib", [("path", "src/lib"); ("url", "https://x/lib.git")]);
   ("submodule lib", [("path", "src/lib2"); ("url", "https://x/lib2.git")])].

(** There is a parent repository and its protocol is git: the only case in
    which [_check_optional] looks for the submodules of the parent. *)
Definition submodules_supported (parent_repo : option ParentRepo) : bool :=
  match parent_repo with
  | Some parent => String.eqb (parent_protocol parent) PROTOCOL_GIT
  | None => false
  end.

(** A git entry taken from the submodules of the parent. *)
Definition entry_from_submodule : pyval :=
  PyDict [(REQUIRED, PyBool true); (SUBMODULE, PyBool true);
          (REPO, PyDict [(PROTOCOL, PyStr "git")])].

(** [d] with the empty text under [key] unless it has the key. *)
Definition with_default (key : string) (d : list (string * pyval))
    : list (string * pyval) :=
  if Dict.mem key d then d else Dict.set key (PyStr EMPTY_STR) d.

(** The value under [k] once the keys [defaults] have their default: the
    value that is there, or else the empty text for one of [defaults]. *)
Definition get_or_default (defaults : list string) (k : string)
    (d : list (string * pyval)) : option pyval :=
  match Dict.get k d with
  | Some v => Some v
  | None => if str_mem k defaults then Some (PyStr EMPTY_STR) else None
  end.

(** The name passes the filters [components] and [exclude]; an empty list
    is no filter. *)
Definition selected (components exclude : list string) (name : string) : bool :=
  ((length components =? 0) || str_mem name components)
  && ((length exclude =? 0) || negb (str_mem name exclude)).

(** The key under which [list_to_dict] stores an option. *)
Definition option_key (item : string * string) : string :=
  PyStr.lower (PyStr.strip (fst item)).

(** The key is one of the schema, at the top level or under [repo]. *)
Definition known_key (key : string) : bool :=
  Dict.mem key _source_schema || Dict.mem key _source_schema_repo.

(** A document with one section that has an option the schema does not
    know. *)
Definition document_with_comment : Config :=
  [("lib", [("protocol", "git"); ("comment", "not in the schema")])].

(** ** From the converter to the factory *)

(** One submodule as the converter writes it down: the name of its
    section, and its path, url and hash. *)
Record Submodule : Type := mkSubmodule {
  sub_name : string;
  sub_path : string;
  sub_url : string;
  sub_hash : string
}.

Definition section_of (s : Submodule) : string * list (string * string) :=
  (sub_name s, converted_section (sub_path s) (sub_url s) (sub_hash s)).

(** The document that the converter makes of the submodules [subs]. *)
Definition document_of (subs : list Submodule) : Config :=
  map section_of subs ++ [version_section].

(** The name of the entry that the builder makes of a submodule. *)
Definition entry_name (s : Submodule) : string := PyStr.strip (sub_name s).

(** [expand_local_url] on the url of a submodule. *)
Definition expanded_url (env : Env) (s : Submodule) : result pyval :=
  expand_local_url env (PyStr (PyStr.strip (sub_url s))) (entry_name s).

(** The expansion of the url of the submodule is a text. *)
Definition expands_to_text (env : Env) (s : Submodule) : Prop :=
  exists url, expanded_url env s = Ok (PyStr url).

Definition expanded (env : Env) (s : Submodule) : pyval :=
  match expanded_url env s with
  | Ok url => url
  | Raise _ => PyNone
  end.

(** The entry of a submodule as the builder makes it, as the first phase
    leaves it, and as the second phase leaves it. *)
Definition entry_built (s : Submodule) : pyval :=
  PyDict [(PATH, PyStr (PyStr.strip (sub_path s))); (REQUIRED, PyBool true);
          (REPO, PyDict [(PROTOCOL, PyStr "git");
                         (REPO_URL, PyStr (PyStr.strip (sub_url s)));
                         (HASH, PyStr (PyStr.strip (sub_hash s)))])].

Definition entry_checked (env : Env) (s : Submodule) : pyval :=
  PyDict [(PATH, PyStr (PyStr.strip (sub_path s))); (REQUIRED, PyBool true);
          (REPO, PyDict [(PROTOCOL, PyStr "git"); (REPO_URL, expanded env s);
                         (HASH, PyStr (PyStr.strip (sub_hash s)))])].

Definition entry_of (env : Env) (s : Submodule) : pyval :=
  PyDict [(PATH, PyStr (PyStr.strip (sub_path s))); (REQUIRED, PyBool true);
          (REPO, PyDict [(PROTOCOL, PyStr "git"); (REPO_URL, expanded env s);
                         (HASH, PyStr (PyStr.strip (sub_hash s))); (TAG, PyStr "");
                         (BRANCH, PyStr ""); (SPARSE, PyStr "")]);
          (EXTERNALS, PyStr ""); (SUBMODULE, PyBool false)].

Definition built_of (subs : list Submodule) : Description :=
  map (fun s => (entry_name s, entry_built s)) subs.

Definition checked_of (env : Env) (subs : list Submodule) : Description :=
  map (fun s => (entry_name s, entry_checked env s)) subs.

(** The description that the factory makes of the document of [subs]. *)
Definition description_of (env : Env) (subs : list Submodule) : Description :=
  map (fun s => (entry_name s, entry_of env s)) subs.

Definition submodule_lib : Submodule :=
  mkSubmodule "lib" "src/lib" "https://x/lib.git" "abc123".

(** The exception is one of [configparser]'s interpolation errors. *)
Definition is_interpolation_error (e : exn) : bool :=
  match e with
  | InterpolationSyntaxError
  | InterpolationMissingOptionError _
  | InterpolationDepthError => true
  | _ => false
  end.

(** The character that starts a reference in a [configparser] value. *)
Definition is_percent (c : ascii) : bool := Ascii.eqb c "%"%char.

(** The path, url and hash of the submodule have no [%]: [configparser]
    stores them and gives them back as they are. *)
Definition plain_values (s : Submodule) : bool :=
  free_of is_percent (sub_path s) && free_of is_percent (sub_url s)
  && free_of is_percent (sub_hash s).
(** * Properties *)

(** ** The Python layer on examples *)

Example strip_ex : PyStr.strip "  1 " = "1".
Proof. reflexivity. Qed.

Example sec_name_of_ex : sec_name_of section_lib = "lib".
Proof. reflexivity. Qed.

Example split_ex : PyStr.split "."%char "1.2..x" = ["1"; "2"; ""; "x"].
Proof. reflexivity. Qed.

Example int_ex :
  PyStr.int " 1_0 " = Some 10%Z /\ PyStr.int "1__0" = None /\ PyStr.int "" = None
  /\ PyStr.int "007" = Some 7%Z.
Proof. repeat split; reflexivity. Qed.

Example of_Z_ex : PyStr.of_Z 0 = "0" /\ PyStr.of_Z 12 = "12" /\ PyStr.of_Z (-3) = "-3".
Proof. repeat split; reflexivity. Qed.

Example repr_ex :
  Py.repr (PyDict [("a", PyStr "it's"); ("b", PyDict [("c", PyBool true); ("d", PyNone)])])
  = "{'a': " +:+ quoted "it's" +:+ ", 'b': {'c': True, 'd': None}}".
Proof. reflexivity. Qed.

Example format1_ex :
  Py.format1 "for {{x}}." "lib" = Ok "for {x}."
  /\ Py.format1 "plain." "lib" = Ok "plain."
  /\ Py.format1 "of {0}, {0}" "lib" = Ok "of lib, lib"
  /\ Py.format1 "of {}" "lib" = Ok "of lib"
  /\ Py.format1 "{}{}" "lib" = Raise IndexError
  /\ Py.format1 "{0}{}" "lib" = Raise ValueError
  /\ Py.format1 "{name}" "lib" = Raise (KeyError "name")
  /\ Py.format1 "a{b" "lib" = Raise ValueError
  /\ Py.format1 "a}b" "lib" = Raise ValueError
  /\ Py.format1 "{0!r}" "lib" = Raise FormatFieldError.
Proof. repeat split; reflexivity. Qed.

Example interpolation_ex :
  Cfg.get "s" "url" [("s", [("url", "%(base)s/lib"); ("base", "https://x")])]
  = Ok "https://x/lib"
  /\ Cfg.get "s" "v" [("s", [("v", "50%%")])] = Ok "50%"
  /\ Cfg.get "s" "v" [("s", [("v", "my%20lib")])] = Raise InterpolationSyntaxError
  /\ Cfg.get "s" "v" [("s", [("v", "%(w)s")])]
     = Raise (InterpolationMissingOptionError "w")
  /\ Cfg.get "s" "v" [("s", [("v", "%(v)s")])] = Raise InterpolationDepthError
  /\ Cfg.items "s" [("DEFAULT", [("base", "b")]); ("s", [("v", "%(base)s")])]
     = Ok [("base", "b"); ("v", "b")]
  /\ Cfg.set "s" "v" "my%20lib" [("s", [])] = Raise ValueError
  /\ Cfg.set "" "v" "x" [("", [])] = Ok [("", []); ("DEFAULT", [("v", "x")])].
Proof. repeat split; reflexivity. Qed.

Example path_join_ex :
  path_join "/r" ".gitmodules" = "/r/.gitmodules" /\ path_join "/r/" "x" = "/r/x"
  /\ path_join "/r" "/abs" = "/abs".
Proof. repeat split; reflexivity. Qed.

Example parse_status_line_ex :
  parse_status_line "+abc123 src/lib (v1.0-2-gabc)" ∅
  = Ok {[ "src/lib" := mkStatus "abc123" "+" (Some "(v1.0-2-gabc)") ]}
  /\ parse_status_line "" status_lib = Ok status_lib
  /\ parse_status_line " abc123" ∅ = Raise IndexError.
Proof. repeat split; vm_compute; reflexivity. Qed.

Example str_to_bool_spec_ex :
  str_to_bool_spec "True" = Ok true /\ str_to_bool_spec "NO" = Ok false
  /\ is_fatal (str_to_bool_spec "maybe") = true.
Proof. repeat split; reflexivity. Qed.

(** ** The schema version gate *)

Lemma verify_major_mismatch (schema input : SchemaVersion) :
  major input <> major schema ->
  _verify_schema_version schema input = Raise (FatalError (dev_error_msg schema input)).
Proof.
  intros Hne. unfold _verify_schema_version, fatal_when.
  destruct (Z.eqb_spec (major input) (major schema)) as [Heq | _]; [contradiction | reflexivity].
Qed.

Lemma verify_minor_too_new (schema input : SchemaVersion) :
  major input = major schema -> (minor schema < minor input)%Z ->
  _verify_schema_version schema input = Raise (FatalError (too_new_msg schema input)).
Proof.
  intros Hmaj Hmin. unfold _verify_schema_version, fatal_when.
  rewrite Hmaj, Z.eqb_refl. simpl.
  destruct (Z.ltb_spec (minor schema) (minor input)); [reflexivity | lia].
Qed.

Lemma verify_accepts (schema input : SchemaVersion) :
  major input = major schema -> (minor input <= minor schema)%Z ->
  _verify_schema_version schema input = Ok tt.
Proof.
  intros Hmaj Hmin. unfold _verify_schema_version, fatal_when.
  rewrite Hmaj, Z.eqb_refl. simpl.
  destruct (Z.ltb_spec (minor schema) (minor input)); [lia | reflexivity].
Qed.

(** C2, as stated, fails: declared 2.2.0 has a minor above 1, and the gate
    of a 1.1.0 parser answers with the internal-consistency error of the
    major check, which comes first, not with the compatibility error. *)
Lemma schema_gate_minor_rule_counterexample :
  (minor (mkVersion 2 2 0) > minor supported_v1)%Z
  /\ _verify_schema_version supported_v1 (mkVersion 2 2 0)
     = Raise (FatalError (dev_error_msg supported_v1 (mkVersion 2 2 0)))
  /\ _verify_schema_version supported_v1 (mkVersion 2 2 0)
     <> Raise (FatalError (too_new_msg supported_v1 (mkVersion 2 2 0))).
Proof.
  split; [reflexivity |]. split; [reflexivity |].
  vm_compute. discriminate.
Qed.

(** C2, amended: a parser supporting 1.1.0 accepts every declared version
    with major 1 and minor at most 1, whatever the patch (so 1.0.0, 1.1.0
    and 1.1.5); it rejects with the compatibility error every declared
    version with major 1 and minor above 1 (so 1.2.0); and it rejects with
    the internal-consistency error every declared version whose major is
    not 1, whatever its minor. *)
Theorem schema_gate_1_1_0 (declared : SchemaVersion) :
  (major declared = 1%Z -> (minor declared <= 1)%Z ->
   _verify_schema_version supported_v1 declared = Ok tt)
  /\ (major declared = 1%Z -> (minor declared > 1)%Z ->
      _verify_schema_version supported_v1 declared
      = Raise (FatalError (too_new_msg supported_v1 declared)))
  /\ (major declared <> 1%Z ->
      _verify_schema_version supported_v1 declared
      = Raise (FatalError (dev_error_msg supported_v1 declared)))
  /\ _verify_schema_version supported_v1 (mkVersion 1 0 0) = Ok tt
  /\ _verify_schema_version supported_v1 (mkVersion 1 1 0) = Ok tt
  /\ _verify_schema_version supported_v1 (mkVersion 1 1 5) = Ok tt
  /\ PyStr.contains "Incompatible schema version"
       (too_new_msg supported_v1 (mkVersion 1 2 0)) = true
  /\ PyStr.contains "DEV_ERROR" (dev_error_msg supported_v1 declared) = true.
Proof.
  repeat split.
  - intros Hmaj Hmin. apply verify_accepts; simpl; assumption.
  - intros Hmaj Hmin. apply verify_minor_too_new; simpl; [assumption | lia].
  - intros Hmaj. apply verify_major_mismatch. simpl. assumption.
Qed.

(** ** [get_cfg_schema_version] *)

Lemma get_version_text (model_cfg : Config) (semver_str : string) :
  Cfg.get DESCRIPTION_SECTION VERSION_ITEM model_cfg = Ok semver_str ->
  exists version_str,
    nth_error (PyStr.split_by is_dash_or_plus semver_str) 0 = Some version_str.
Proof.
  intros _. unfold PyStr.split_by.
  generalize EmptyString as cur. induction semver_str as [| c s IH]; intros cur; simpl.
  - eauto.
  - destruct (is_dash_or_plus c); simpl; eauto.
Qed.

(** A version text with two integer components and no third one ends in
    [IndexError]: the handler of [get_cfg_schema_version] only catches
    [ValueError]. *)
Lemma missing_patch_is_index_error (model_cfg : Config) (semver_str version_str x y : string)
    (a b : Z) :
  Cfg.get DESCRIPTION_SECTION VERSION_ITEM model_cfg = Ok semver_str ->
  nth_error (PyStr.split_by is_dash_or_plus semver_str) 0 = Some version_str ->
  PyStr.split VERSION_SEPERATOR version_str = [x; y] ->
  PyStr.int (PyStr.strip x) = Some a ->
  PyStr.int (PyStr.strip y) = Some b ->
  get_cfg_schema_version model_cfg = Raise IndexError.
Proof.
  intros Hget Hhead Hsplit Hx Hy. unfold get_cfg_schema_version.
  rewrite Hget. cbn [try_except rbind]. rewrite Hhead. cbn [rbind]. rewrite Hsplit.
  unfold version_component. cbn [nth_error]. rewrite Hx, Hy. reflexivity.
Qed.

(** C4, the failing input: the declared version [1.2] has two components;
    reading the third raises [IndexError], which no handler catches, so the
    caller gets an unhandled exception and not the fatal version-format
    error.  A non-integer component ([abc]) does get the fatal error, which
    names the text, and a fourth component ([1.2.3.4]) is not looked at. *)
Theorem get_cfg_schema_version_two_components :
  get_cfg_schema_version (cfg_with_version "1.2") = Raise IndexError
  /\ is_fatal (get_cfg_schema_version (cfg_with_version "1.2")) = false
  /\ get_cfg_schema_version (cfg_with_version "abc")
     = Raise (FatalError ("Config file schema version must have integer digits for "
                          +:+ "major, minor and patch versions. Received " +:+ quoted "abc"))
  /\ get_cfg_schema_version (cfg_with_version "1.2.3.4") = Ok (1, 2, 3)%Z
  /\ get_cfg_schema_version (cfg_with_version "1.1.0-rc1+b5") = Ok (1, 1, 0)%Z.
Proof. repeat split; reflexivity. Qed.

(** ** [parse_submodules_desc_section] *)

Lemma parse_submodules_desc_loop_spec (section_items : list (string * string))
    (file_path : string) (path url : option string) (w : World) :
  parse_submodules_desc_loop section_items file_path path url w
  = (Ok (last_value "path" section_items path, last_value "url" section_items url),
     mkWorld (cwd w)
       (warnings w
        ++ map (unknown_key_warning file_path)
             (List.filter (fun item => negb (tolerated_key item)) section_items))).
Proof.
  revert path url w.
  induction section_items as [| item rest IH]; intros path url w.
  - simpl. rewrite app_nil_r. destruct w; reflexivity.
  - cbn [parse_submodules_desc_loop]. unfold last_value in *.
    cbn [fold_left List.filter]. unfold tolerated_key at 1.
    destruct (String.eqb_spec (PyStr.strip (fst item)) "path") as [Hp | Hp].
    + rewrite IH, Hp. cbn [String.eqb Ascii.eqb Bool.eqb orb negb]. reflexivity.
    + destruct (String.eqb_spec (PyStr.strip (fst item)) "url") as [Hu | Hu].
      * rewrite IH, Hu. cbn [String.eqb Ascii.eqb Bool.eqb orb negb]. reflexivity.
      * destruct (String.eqb (PyStr.strip (fst item)) "branch") eqn:Hb.
        -- rewrite IH. reflexivity.
        -- unfold bind, log_warning. rewrite IH. cbn [cwd warnings negb orb map].
           rewrite <- app_assoc. reflexivity.
Qed.



(** ** Dictionaries *)

Section DictFacts.
Context {A : Type}.
Implicit Types (d : list (string * A)) (k : string) (v : A).

Lemma dict_get_set_eq k v d : Dict.get k (Dict.set k v d) = Some v.
Proof.
  induction d as [| [k' v'] d IH]; simpl.
  - rewrite String.eqb_refl. reflexivity.
  - destruct (String.eqb k k') eqn:E; simpl; rewrite E; [reflexivity | exact IH].
Qed.

Lemma dict_get_set_ne k k' v d :
  k <> k' -> Dict.get k' (Dict.set k v d) = Dict.get k' d.
Proof.
  intros Hne. induction d as [| [k0 v0] d IH]; simpl.
  - destruct (String.eqb_spec k' k); [congruence | reflexivity].
  - destruct (String.eqb_spec k k0) as [-> | Hk]; simpl.
    + destruct (String.eqb_spec k' k0); [congruence | reflexivity].
    + destruct (String.eqb_spec k' k0); [reflexivity | exact IH].
Qed.

Lemma dict_get_app_fresh k v d :
  Dict.get k d = None -> Dict.get k (d ++ [(k, v)]) = Some v.
Proof.
  induction d as [| [k' v'] d IH]; simpl; intros H.
  - rewrite String.eqb_refl. reflexivity.
  - destruct (String.eqb k k'); [discriminate | auto].
Qed.

Lemma dict_mem_get k d : Dict.mem k d = true <-> exists v, Dict.get k d = Some v.
Proof.
  unfold Dict.mem. destruct (Dict.get k d) as [v |].
  - split; eauto.
  - split; [discriminate | intros [v Hv]; discriminate].
Qed.

Lemma dict_mem_false k d : Dict.mem k d = false <-> Dict.get k d = None.
Proof.
  unfold Dict.mem. destruct (Dict.get k d); split; congruence.
Qed.

Lemma dict_get_in_keys k d : In k (Dict.keys d) -> exists v, Dict.get k d = Some v.
Proof.
  induction d as [| [k' v'] d IH]; simpl; [tauto |].
  intros [-> | Hin].
  - rewrite String.eqb_refl. eauto.
  - destruct (String.eqb k k'); eauto.
Qed.

Lemma dict_get_not_in_keys k d : ~ In k (Dict.keys d) -> Dict.get k d = None.
Proof.
  induction d as [| [k' v'] d IH]; simpl; [reflexivity |].
  intros Hnot. destruct (String.eqb_spec k k') as [-> | Hne]; [tauto | auto].
Qed.

Lemma dict_keys_set_present k v d :
  In k (Dict.keys d) -> Dict.keys (Dict.set k v d) = Dict.keys d.
Proof.
  induction d as [| [k' v'] d IH]; simpl; [tauto |].
  intros Hin. destruct (String.eqb_spec k k') as [-> | Hne]; simpl; [reflexivity |].
  f_equal. apply IH. destruct Hin; congruence.
Qed.

Lemma dict_get_app_found (k : string) (v : A) (d1 d2 : list (string * A)) :
  Dict.get k d1 = Some v -> Dict.get k (d1 ++ d2) = Some v.
Proof.
  induction d1 as [| [k' v'] d1 IH]; simpl; [discriminate |].
  destruct (String.eqb k k'); [intros H; exact H | exact IH].
Qed.

End DictFacts.

(** ** [git_submodule_status] and the working directory *)

Lemma git_submodule_status_command_fails (env : Env) (repo_dir c : string) (w : World)
    (e : exn) :
  chdir_target env (cwd w) repo_dir = Some c ->
  execute_subprocess env c status_cmd = Raise e ->
  git_submodule_status env repo_dir w = (Raise e, mkWorld c (warnings w)).
Proof.
  intros Hcd Hrun. unfold git_submodule_status, bind, getcwd, chdir.
  rewrite Hcd. cbn [cwd]. fold status_cmd. rewrite Hrun. reflexivity.
Qed.

Lemma git_submodule_status_bad_line (env : Env) (repo_dir c git_output : string)
    (w : World) (e : exn) :
  chdir_target env (cwd w) repo_dir = Some c ->
  execute_subprocess env c status_cmd = Ok git_output ->
  parse_status_lines (PyStr.split "010"%char git_output) ∅ = Raise e ->
  git_submodule_status env repo_dir w = (Raise e, mkWorld c (warnings w)).
Proof.
  intros Hcd Hrun Hparse. unfold git_submodule_status, bind, getcwd, chdir, lift.
  rewrite Hcd. cbn [cwd]. fold status_cmd. rewrite Hrun, Hparse. reflexivity.
Qed.

(** On the path without an exception the directory that was current at the
    call is the one [os.chdir] is given last. *)
Lemma git_submodule_status_returns (env : Env) (repo_dir : string) (w w' : World)
    (submodules : gmap string SubmoduleStatus) :
  git_submodule_status env repo_dir w = (Ok submodules, w') ->
  exists c, chdir_target env c (cwd w) = Some (cwd w') /\ warnings w' = warnings w.
Proof.
  unfold git_submodule_status, bind, getcwd, chdir, lift, ret.
  destruct (chdir_target env (cwd w) repo_dir) as [c |]; [| discriminate].
  cbn [cwd warnings].
  destruct (execute_subprocess env c _) as [out | e]; [| discriminate].
  destruct (parse_status_lines _ _) as [m | e]; [| discriminate].
  destruct (chdir_target env c (cwd w)) as [c' |] eqn:Hback; [| discriminate].
  intros H. inversion H; subst. exists c. split; [exact Hback | reflexivity].
Qed.

(** C8, the failing input: in a directory where [git submodule status]
    fails, the exception leaves [git_submodule_status] with the working
    directory still at the repository ([/repo]) and not at the directory of
    the caller ([/start]); only the path without an exception restores it. *)
Theorem git_submodule_status_failure_keeps_cwd :
  cwd world0 = "/start"
  /\ is_ok (fst (git_submodule_status env_git_fails "/repo" world0)) = false
  /\ cwd (snd (git_submodule_status env_git_fails "/repo" world0)) = "/repo"
  /\ git_submodule_status env_lib "/repo" world0 = (Ok status_lib, world0).
Proof. repeat split; vm_compute; reflexivity. Qed.

(** ** [read_gitmodules_file] *)

Lemma cfg_add_section_ok (name : string) (c c' : Config) :
  Cfg.add_section name c = Ok c' ->
  name <> Cfg.DEFAULTSECT /\ Dict.mem name c = false /\ c' = c ++ [(name, [])].
Proof.
  unfold Cfg.add_section. destruct (String.eqb_spec name Cfg.DEFAULTSECT); [discriminate |].
  destruct (Dict.mem name c) eqn:Hmem; [discriminate |].
  intros H. inversion H; subst. auto.
Qed.

(** [set] on a section with a name of its own: the value is checked, then
    stored under the section. *)
Lemma cfg_set_named (section option_name value : string) (c : Config)
    (opts : list (string * string)) :
  section <> "" -> section <> Cfg.DEFAULTSECT ->
  Dict.get section c = Some opts ->
  Cfg.set section option_name value c
  = if Cfg.set_accepts value
    then Ok (Dict.set section (Dict.set (PyStr.lower option_name) value opts) c)
    else Raise ValueError.
Proof.
  intros Hne Hnd Hget. unfold Cfg.set.
  destruct (Cfg.set_accepts value); [| reflexivity]. cbn [negb].
  apply String.eqb_neq in Hne, Hnd. rewrite Hne, Hnd, Hget. reflexivity.
Qed.

(** [set] on the section without a name: the value is checked, then stored
    in the defaults. *)
Lemma cfg_set_nameless (option_name value : string) (c : Config) :
  Cfg.set "" option_name value c
  = if Cfg.set_accepts value
    then Ok (Dict.set Cfg.DEFAULTSECT
               (Dict.set (PyStr.lower option_name) value (Cfg.defaults c)) c)
    else Raise ValueError.
Proof. unfold Cfg.set. destruct (Cfg.set_accepts value); reflexivity. Qed.

Lemma add_section_ready (name : string) (c c' : Config) :
  Cfg.add_section name c = Ok c' -> section_ready name c'.
Proof.
  intros H. apply cfg_add_section_ok in H as (Hnd & Hmem & ->).
  split; [exact Hnd |]. exists []. split; [| reflexivity].
  apply dict_get_app_fresh, dict_mem_false, Hmem.
Qed.

(** A [set] either refuses the value or stores it, where the raw [get]
    finds it, and keeps the section ready. *)
Lemma cfg_set_ready (section option_name value : string) (c : Config) :
  section_ready section c ->
  (Cfg.set_accepts value = false /\ Cfg.set section option_name value c = Raise ValueError)
  \/ (Cfg.set_accepts value = true
      /\ exists c',
           Cfg.set section option_name value c = Ok c'
           /\ section_ready section c'
           /\ Cfg.get_raw section option_name c' = Ok value).
Proof.
  intros (Hnd & opts & Hget & Hempty).
  destruct (Cfg.set_accepts value) eqn:Hacc.
  2: { left. split; [reflexivity |]. unfold Cfg.set. rewrite Hacc. reflexivity. }
  right. split; [reflexivity |].
  assert (Hnd' : String.eqb section Cfg.DEFAULTSECT = false) by (apply String.eqb_neq, Hnd).
  destruct (String.eqb_spec section "") as [-> | Hne].
  - rewrite cfg_set_nameless, Hacc. eexists. split; [reflexivity |].
    specialize (Hempty eq_refl). subst opts.
    assert (Hsame : Dict.get ""
                      (Dict.set Cfg.DEFAULTSECT
                         (Dict.set (PyStr.lower option_name) value (Cfg.defaults c)) c)
                    = Some []).
    { rewrite dict_get_set_ne by discriminate. exact Hget. }
    split.
    + split; [exact Hnd |]. exists []. split; [exact Hsame | reflexivity].
    + unfold Cfg.get_raw, Cfg.unify_values, Cfg.section_dict.
      change (String.eqb "" Cfg.DEFAULTSECT) with false. cbv iota.
      rewrite Hsame. cbn [rbind app].
      unfold Cfg.defaults at 1. rewrite dict_get_set_eq, dict_get_set_eq. reflexivity.
  - rewrite (cfg_set_named section option_name value c opts Hne Hnd Hget), Hacc.
    eexists. split; [reflexivity |]. split.
    + split; [exact Hnd |]. eexists. split; [apply dict_get_set_eq |].
      intros E. contradiction.
    + unfold Cfg.get_raw, Cfg.unify_values, Cfg.section_dict.
      rewrite Hnd', dict_get_set_eq. cbn [rbind].
      rewrite (dict_get_app_found _ value) by apply dict_get_set_eq. reflexivity.
Qed.

(** The lookup of [read_gitmodules_file] in the status mapping, by cases. *)
Lemma attach_submodule_hash_cases (submods : gmap string SubmoduleStatus)
    (sec_name path : string) (ed : Config) :
  attach_submodule_hash submods sec_name path ed
  = match submods !! sec_name, submods !! path with
    | Some st, _ => Cfg.set sec_name HASH (sm_hash st) ed
    | None, Some st => Cfg.set sec_name HASH (sm_hash st) ed
    | None, None => fatal_error (no_status_msg path)
    end.
Proof.
  unfold attach_submodule_hash.
  destruct (submods !! sec_name) as [st |] eqn:Hname.
  - rewrite bool_decide_eq_true_2 by eauto. rewrite Hname. reflexivity.
  - rewrite bool_decide_eq_false_2 by (intros [x Hx]; discriminate).
    destruct (submods !! path); reflexivity.
Qed.

(** The four options that a submodule section always gets: the first value
    that [set] refuses ends the conversion with [ValueError]. *)
Lemma convert_section_sets (sec_name path url : string) (ed1 : Config) :
  section_ready sec_name ed1 ->
  ((Cfg.set_accepts path = false \/ Cfg.set_accepts url = false)
   /\ (let! ed := Cfg.set sec_name PATH path ed1 in
       let! ed := Cfg.set sec_name PROTOCOL "git" ed in
       let! ed := Cfg.set sec_name REPO_URL url ed in
       Cfg.set sec_name REQUIRED "True" ed) = Raise ValueError)
  \/ (Cfg.set_accepts path = true /\ Cfg.set_accepts url = true
      /\ exists ed5,
           (let! ed := Cfg.set sec_name PATH path ed1 in
            let! ed := Cfg.set sec_name PROTOCOL "git" ed in
            let! ed := Cfg.set sec_name REPO_URL url ed in
            Cfg.set sec_name REQUIRED "True" ed) = Ok ed5
           /\ section_ready sec_name ed5).
Proof.
  intros H1.
  destruct (cfg_set_ready sec_name PATH path ed1 H1)
    as [[Hp E2] | (Hp & ed2 & E2 & H2 & _)]; rewrite E2; cbn [rbind];
    [left; split; [left; exact Hp | reflexivity] |].
  destruct (cfg_set_ready sec_name PROTOCOL "git" ed2 H2)
    as [[Hg _] | (_ & ed3 & E3 & H3 & _)]; [discriminate Hg |].
  rewrite E3. cbn [rbind].
  destruct (cfg_set_ready sec_name REPO_URL url ed3 H3)
    as [[Hu E4] | (Hu & ed4 & E4 & H4 & _)]; rewrite E4; cbn [rbind];
    [left; split; [right; exact Hu | reflexivity] |].
  destruct (cfg_set_ready sec_name REQUIRED "True" ed4 H4)
    as [[Ht _] | (_ & ed5 & E5 & H5 & _)]; [discriminate Ht |].
  right. split; [exact Hp |]. split; [exact Hu |]. exists ed5. split; assumption.
Qed.

(** C10: when a submodule section is converted, the status mapping is asked
    for the section name first and, when the name is not a key, for the
    declared path; the hash found is stored under [hash].  Whenever the
    conversion of the section succeeds, the hash that is stored is that of
    the section name, or else, the name not being a key, that of the path;
    the fatal error "submodule status has no section" is raised only when
    neither the section name nor the path is a key of the status mapping.
    When [set] takes the path and the url (no [%] in them but in [%%] and
    in [%(name)s]), the converse holds as well: a name or else a path that
    is a key, with a hash that [set] takes, gives the document with that
    hash, and neither being a key gives the fatal error; when [set]
    refuses the path or the url, the conversion ends with [ValueError]
    before the status mapping is asked. *)
Theorem submodule_status_lookup_order
    (submodules_description : Config) (submods : gmap string SubmoduleStatus)
    (file_path section : string) (ed ed1 : Config) (w w1 : World)
    (section_items : list (string * string)) (path url : string) :
  PyStr.take 9 section = "submodule" ->
  Cfg.add_section (sec_name_of section) ed = Ok ed1 ->
  Cfg.items section submodules_description = Ok section_items ->
  parse_submodules_desc_section section_items file_path w = (Ok (Some path, Some url), w1) ->
  let r := convert_submodule_section submodules_description submods file_path
             section ed w in
  (forall ed' w',
     r = (Ok ed', w') ->
     exists st,
       Cfg.get_raw (sec_name_of section) HASH ed' = Ok (sm_hash st)
       /\ (submods !! sec_name_of section = Some st
           \/ (submods !! sec_name_of section = None /\ submods !! path = Some st)))
  /\ (forall name w',
        r = (Raise (FatalError (no_status_msg name)), w') ->
        submods !! sec_name_of section = None /\ submods !! path = None)
  /\ (Cfg.set_accepts path = true -> Cfg.set_accepts url = true ->
      (forall st, submods !! sec_name_of section = Some st ->
         Cfg.set_accepts (sm_hash st) = true ->
         exists ed', r = (Ok ed', w1)
                     /\ Cfg.get_raw (sec_name_of section) HASH ed' = Ok (sm_hash st))
      /\ (submods !! sec_name_of section = None ->
          forall st, submods !! path = Some st ->
          Cfg.set_accepts (sm_hash st) = true ->
          exists ed', r = (Ok ed', w1)
                      /\ Cfg.get_raw (sec_name_of section) HASH ed' = Ok (sm_hash st))
      /\ (submods !! sec_name_of section = None -> submods !! path = None ->
          r = (Raise (FatalError (no_status_msg path)), w1)))
  /\ (Cfg.set_accepts path = false \/ Cfg.set_accepts url = false ->
      r = (Raise ValueError, w1)).
Proof.
  intros Hprefix Hadd Hitems Hparse r.
  assert (Hr : r = (let! ed5 := (let! ed := Cfg.set (sec_name_of section) PATH path ed1 in
                                 let! ed := Cfg.set (sec_name_of section) PROTOCOL "git" ed in
                                 let! ed := Cfg.set (sec_name_of section) REPO_URL url ed in
                                 Cfg.set (sec_name_of section) REQUIRED "True" ed) in
                    attach_submodule_hash submods (sec_name_of section) path ed5, w1)).
  { subst r. unfold convert_submodule_section. rewrite Hprefix.
    cbn [String.eqb Ascii.eqb Bool.eqb]. fold (sec_name_of section).
    unfold bind, lift. rewrite Hadd, Hitems, Hparse.
    destruct (Cfg.set (sec_name_of section) PATH path ed1) as [e2 |]; [| reflexivity].
    cbn [rbind].
    destruct (Cfg.set (sec_name_of section) PROTOCOL "git" e2) as [e3 |]; [| reflexivity].
    cbn [rbind].
    destruct (Cfg.set (sec_name_of section) REPO_URL url e3) as [e4 |]; [| reflexivity].
    cbn [rbind].
    destruct (Cfg.set (sec_name_of section) REQUIRED "True" e4) as [e5 |]; reflexivity. }
  clearbody r. subst r.
  destruct (convert_section_sets (sec_name_of section) path url ed1
              (add_section_ready _ _ _ Hadd))
    as [[Hbad Hsets] | (Hp & Hu & ed5 & Hsets & Hready)]; rewrite Hsets; cbn [rbind].
  - split; [intros ed' w' H; discriminate H |].
    split; [intros name w' H; discriminate H |].
    split; [| intros _; reflexivity].
    intros Hp Hu. destruct Hbad as [Hbad | Hbad]; congruence.
  - rewrite attach_submodule_hash_cases.
    assert (Hstore : forall st,
               (Cfg.set_accepts (sm_hash st) = false
                /\ Cfg.set (sec_name_of section) HASH (sm_hash st) ed5 = Raise ValueError)
               \/ (Cfg.set_accepts (sm_hash st) = true
                   /\ exists ed6,
                        Cfg.set (sec_name_of section) HASH (sm_hash st) ed5 = Ok ed6
                        /\ Cfg.get_raw (sec_name_of section) HASH ed6 = Ok (sm_hash st))).
    { intros st.
      destruct (cfg_set_ready (sec_name_of section) HASH (sm_hash st) ed5 Hready)
        as [[Ha E] | (Ha & ed6 & E & _ & Hraw)]; [left; auto |].
      right. split; [exact Ha |]. exists ed6. auto. }
    split; [| split; [| split]].
    + intros ed' w' Hrun.
      destruct (submods !! sec_name_of section) as [st |] eqn:Hname.
      * destruct (Hstore st) as [[_ E] | (_ & ed6 & E & Hraw)]; rewrite E in Hrun;
          [discriminate Hrun |].
        inversion Hrun; subst. exists st. split; [exact Hraw | left; reflexivity].
      * destruct (submods !! path) as [st |] eqn:Hpath; [| discriminate Hrun].
        destruct (Hstore st) as [[_ E] | (_ & ed6 & E & Hraw)]; rewrite E in Hrun;
          [discriminate Hrun |].
        inversion Hrun; subst. exists st. split; [exact Hraw | right; auto].
    + intros name w' Hrun.
      destruct (submods !! sec_name_of section) as [st |] eqn:Hname.
      * destruct (Hstore st) as [[_ E] | (_ & ed6 & E & _)]; rewrite E in Hrun;
          discriminate Hrun.
      * destruct (submods !! path) as [st |] eqn:Hpath; [| auto].
        destruct (Hstore st) as [[_ E] | (_ & ed6 & E & _)]; rewrite E in Hrun;
          discriminate Hrun.
    + intros _ _. split; [| split].
      * intros st Hst Hacc. rewrite Hst.
        destruct (Hstore st) as [[Ha _] | (_ & ed6 & E & Hraw)]; [congruence |].
        exists ed6. rewrite E. auto.
      * intros Hnone st Hst Hacc. rewrite Hnone, Hst.
        destruct (Hstore st) as [[Ha _] | (_ & ed6 & E & Hraw)]; [congruence |].
        exists ed6. rewrite E. auto.
      * intros Hnone Hpath. rewrite Hnone, Hpath. reflexivity.
    + intros [Hbad | Hbad]; congruence.
Qed.

(** The lookup on [manifest_lib] with a status mapping keyed by the path: the
    section name [lib] is not a key, the path [src/lib] is, and its hash is
    stored. *)
Lemma submodule_status_lookup_order_witness :
  exists ed',
    convert_submodule_section manifest_lib status_by_path "/r/.gitmodules"
      section_lib [] world0 = (Ok ed', world0)
    /\ Cfg.get_raw "lib" HASH ed' = Ok "abc123".
Proof.
  destruct (submodule_status_lookup_order manifest_lib status_by_path "/r/.gitmodules"
              section_lib [] [("lib", [])] world0 world0
              [("path", "src/lib"); ("url", "https://x/lib.git")]
              "src/lib" "https://x/lib.git"
              eq_refl eq_refl eq_refl eq_refl) as (_ & _ & Hconverse & _).
  destruct (Hconverse eq_refl eq_refl) as (_ & Hfallback & _).
  exact (Hfallback eq_refl (mkStatus "abc123" " " None) eq_refl eq_refl).
Defined.

(** C3: the submodules file with the one section [submodule "lib"]
    (path [src/lib], url [https://x/lib.git]) and the status mapping
    [{"lib": {"hash": "abc123", "status": " ", "tag": None}}] are converted
    to the document with exactly the section [lib], holding
    [local_path = src/lib], [protocol = git], [repo_url = https://x/lib.git],
    [required = True] and [hash = abc123], followed by the reserved section
    that declares schema version [1.0.0]; the description built from that
    document has the single entry [lib] with those values and [required]
    the boolean true. *)
Theorem read_gitmodules_file_lib (env : Env) (root_dir file_name : string) (w w' : World) :
  path_exists env (cwd w) file_name = true ->
  read_lstripped env (cwd w) (path_join (abspath env (cwd w) root_dir) file_name)
  = Ok (Some manifest_lib) ->
  git_submodule_status env (abspath env (cwd w) root_dir) w = (Ok status_lib, w') ->
  str_to_bool env "True" = Ok true ->
  expand_local_url env (PyStr "https://x/lib.git") "lib" = Ok (PyStr "https://x/lib.git") ->
  read_gitmodules_file env root_dir file_name w = (Ok document_lib, w')
  /\ Cfg.sections document_lib = ["lib"; DESCRIPTION_SECTION]
  /\ Cfg.get DESCRIPTION_SECTION VERSION_ITEM document_lib = Ok "1.0.0"
  /\ create_externals_description env (CfgData document_lib) [] [] None w'
     = (Ok description_lib, w').
Proof.
  destruct env as [f_abs f_exists f_chdir f_run f_read f_url f_bool].
  cbn [path_exists read_lstripped abspath str_to_bool expand_local_url].
  intros Hexists Hread Hstatus Hbool Hurl.
  split; [| split; [reflexivity | split; [reflexivity |]]].
  - unfold read_gitmodules_file, bind, getcwd, lift.
    cbn [path_exists read_lstripped abspath].
    rewrite Hexists. cbn [negb fatal_when]. rewrite Hread, Hstatus.
    vm_compute. destruct w'; reflexivity.
  - unfold create_externals_description, create_externals_description_with,
      ExternalsDescriptionConfigV1, bind, lift.
    change (get_cfg_schema_version document_lib) with (@Ok (Z * Z * Z) (1, 0, 0)%Z).
    cbn iota beta. change (1 =? 1)%Z with true. cbn iota.
    change (_verify_schema_version (mkVersion 1 1 0) (mkVersion 1 0 0)) with (Ok tt).
    cbn iota beta.
    assert (Hparse : _parse_cfg (mkEnv f_abs f_exists f_chdir f_run f_read f_url f_bool)
                       (_remove_metadata document_lib) [] []
                     = Ok [("lib", PyDict
                             [(PATH, PyStr "src/lib"); (REQUIRED, PyBool true);
                              (REPO, PyDict [(PROTOCOL, PyStr "git");
                                             (REPO_URL, PyStr "https://x/lib.git");
                                             (HASH, PyStr "abc123")])])]).
    { vm_compute. rewrite Hbool. reflexivity. }
    rewrite Hparse. unfold _check_user_input, bind, lift.
    assert (Hdata : _check_data (mkEnv f_abs f_exists f_chdir f_run f_read f_url f_bool)
                      [("lib", PyDict
                         [(PATH, PyStr "src/lib"); (REQUIRED, PyBool true);
                          (REPO, PyDict [(PROTOCOL, PyStr "git");
                                         (REPO_URL, PyStr "https://x/lib.git");
                                         (HASH, PyStr "abc123")])])]
                    = Ok [("lib", PyDict
                            [(PATH, PyStr "src/lib"); (REQUIRED, PyBool true);
                             (REPO, PyDict [(PROTOCOL, PyStr "git");
                                            (REPO_URL, PyStr "https://x/lib.git");
                                            (HASH, PyStr "abc123")])])]).
    { vm_compute. rewrite Hurl. reflexivity. }
    rewrite Hdata. vm_compute. destruct w'; reflexivity.
Qed.

(** The conversion in the environment [env_lib]. *)
Lemma read_gitmodules_file_lib_witness :
  read_gitmodules_file env_lib "/r" ".gitmodules" world0 = (Ok document_lib, world0)
  /\ Cfg.sections document_lib = ["lib"; DESCRIPTION_SECTION]
  /\ Cfg.get DESCRIPTION_SECTION VERSION_ITEM document_lib = Ok "1.0.0"
  /\ create_externals_description env_lib (CfgData document_lib) [] [] None world0
     = (Ok description_lib, world0).
Proof.
  exact (read_gitmodules_file_lib env_lib "/r" ".gitmodules" world0 world0
           eq_refl eq_refl eq_refl eq_refl eq_refl).
Defined.

(** ** The message of the over-specified error *)

(** As soon as a branch, a hash or a true [from_submodule] is counted,
    [found_refs] is one of three fixed texts: the values of the entry and
    the references found before are not in it. *)
Lemma count_refs_found_is_literal (ext repo : pyval) (ref_count : nat)
    (found_refs : string) :
  count_refs ext repo = Ok (ref_count, found_refs) ->
  1 < ref_count ->
  found_refs = found_branch \/ found_refs = found_hash \/ found_refs = found_submodule.
Proof.
  unfold count_refs.
  destruct (Py.contains TAG repo) as [[|] |]; cbn [rbind]; [| | discriminate].
  - destruct (Py.getitem repo TAG) as [v |]; cbn [rbind]; [| discriminate].
    destruct (Py.contains BRANCH repo) as [[|] |]; cbn [rbind]; [| | discriminate];
      (destruct (Py.contains HASH repo) as [[|] |]; cbn [rbind]; [| | discriminate]);
      (destruct (submodule_set ext) as [[|] |]; cbn [rbind]; [| | discriminate]);
      intros H Hn; inversion H; subst; auto; cbn in Hn; lia.
  - destruct (Py.contains BRANCH repo) as [[|] |]; cbn [rbind]; [| | discriminate];
      (destruct (Py.contains HASH repo) as [[|] |]; cbn [rbind]; [| | discriminate]);
      (destruct (submodule_set ext) as [[|] |]; cbn [rbind]; [| | discriminate]);
      intros H Hn; inversion H; subst; auto; cbn in Hn; lia.
Qed.

(** C7, the failing input: a git entry [lib] with [tag = v1] and
    [branch = main] is over specified, and the message of the fatal error
    ends in the unexpanded template of the branch: it holds neither [v1] nor
    [main], and does not name the tag.  With [from_submodule] declared
    false beside the same tag and branch, the message takes the wording of
    the submodule conflict although [from_submodule] is not among the
    references counted. *)
Theorem over_specified_message_omits_values :
  check_data_entry env_lib "lib" entry_tag_branch
  = Raise (FatalError (over_specified_prefix +:+ only_one_wording
                       +:+ for_lib_found found_branch))
  /\ PyStr.contains "v1" (over_specified_prefix +:+ only_one_wording
                          +:+ for_lib_found found_branch) = false
  /\ PyStr.contains "main" (over_specified_prefix +:+ only_one_wording
                            +:+ for_lib_found found_branch) = false
  /\ PyStr.contains "tag = " (over_specified_prefix +:+ only_one_wording
                              +:+ for_lib_found found_branch) = false
  /\ count_refs entry_tag_branch_no_submodule
       (PyDict [(PROTOCOL, PyStr "git"); (REPO_URL, PyStr "https://x/lib.git");
                (TAG, PyStr "v1"); (BRANCH, PyStr "main")])
     = Ok (2, found_branch)
  /\ check_data_entry env_lib "lib" entry_tag_branch_no_submodule
     = Raise (FatalError (over_specified_prefix +:+ submodule_wording
                          +:+ for_lib_found found_branch)).
Proof. repeat split; vm_compute; reflexivity. Qed.

(** ** [_validate] *)

(** Induction on Python values, with the hypothesis for every value of a
    [dict]. *)
Lemma pyval_induction (P : pyval -> Prop) :
  P PyNone ->
  (forall b, P (PyBool b)) ->
  (forall s, P (PyStr s)) ->
  (forall items, Forall (fun kv => P (snd kv)) items -> P (PyDict items)) ->
  forall v, P v.
Proof.
  intros HNone HBool HStr HDict.
  fix IH 1. intros [| b | s | items].
  - exact HNone.
  - apply HBool.
  - apply HStr.
  - apply HDict. induction items as [| [k x] items IHitems].
    + constructor.
    + constructor; [apply IH | exact IHitems].
Qed.

Lemma print_compare_loop_dicts (a b : list (string * pyval)) (items : list string) :
  (forall item, In item items -> In item (Dict.keys a)) ->
  print_compare_loop items (PyDict a) (PyDict b) = Ok tt.
Proof.
  induction items as [| item rest IH]; intros Hin; [reflexivity |].
  cbn [print_compare_loop Py.contains rbind].
  destruct (dict_get_in_keys item a (Hin item (or_introl eq_refl))) as [x Hx].
  destruct (Dict.mem item b) eqn:Hmem.
  - apply dict_mem_get in Hmem as [y Hy].
    cbn [Py.getitem]. rewrite Hy, Hx. cbn [rbind].
    apply IH. intros i Hi. apply Hin. right. exact Hi.
  - cbn [Py.getitem]. rewrite Hx. cbn [rbind].
    apply IH. intros i Hi. apply Hin. right. exact Hi.
Qed.

Lemma print_unmatched_dicts (a b : list (string * pyval)) :
  print_unmatched (PyDict a) (PyDict b) = Ok tt.
Proof.
  unfold print_unmatched, print_compare_difference. cbn [Py.is_dict py_iter rbind].
  rewrite print_compare_loop_dicts by auto. cbn [rbind].
  apply print_compare_loop_dicts. auto.
Qed.

Lemma print_unmatched_leaf (schema data : pyval) :
  Py.is_dict schema = false -> print_unmatched schema data = Ok tt.
Proof. unfold print_unmatched. intros ->. reflexivity. Qed.

(** The loop over the keys of the schema computes [conforms_keys], given
    that [validate] computes [conforms] on the values of those keys. *)
Lemma validate_keys_conforms (validate : pyval -> pyval -> result bool)
    (ditems l : list (string * pyval)) :
  Forall (fun kv => forall data,
            dicts_where_expected (snd kv) data = true ->
            validate (snd kv) data = Ok (conforms (snd kv) data)) l ->
  expected_keys dicts_where_expected ditems l = true ->
  forall in_ref valid,
    validate_keys validate (PyDict ditems) l in_ref valid
    = Ok (in_ref && valid && conforms_keys conforms ditems l).
Proof.
  induction l as [| [key sub] l IH]; intros Hall Hexp in_ref valid.
  - cbn. rewrite andb_true_r. reflexivity.
  - inversion Hall as [| ? ? Hsub Hrest]; subst. cbn [snd] in Hsub.
    cbn [expected_keys] in Hexp. apply andb_true_iff in Hexp as [Hexp1 Hexp2].
    cbn [validate_keys conforms_keys].
    destruct in_ref; cbn [Py.contains rbind andb].
    + unfold Dict.mem. destruct (Dict.get key ditems) as [x |] eqn:Hget.
      * destruct valid; cbn [andb].
        -- cbn [Py.getitem]. rewrite Hget. cbn [rbind].
           rewrite (Hsub x Hexp1). cbn [rbind].
           rewrite (IH Hrest Hexp2). reflexivity.
        -- rewrite (IH Hrest Hexp2). reflexivity.
      * cbn [andb]. rewrite (IH Hrest Hexp2). destruct valid; reflexivity.
    + rewrite (IH Hrest Hexp2). reflexivity.
Qed.

(** On data with dictionaries where the schema has them,
    [validate_data_struct] returns, and returns [conforms]. *)
Lemma validate_data_struct_conforms (schema : pyval) :
  forall data,
    dicts_where_expected schema data = true ->
    validate_data_struct schema data = Ok (conforms schema data).
Proof.
  induction schema as [| b | s | sitems IH] using pyval_induction; intros data Hexp.
  - destruct data; reflexivity.
  - destruct data; reflexivity.
  - destruct data; reflexivity.
  - destruct data as [| b | s | ditems]; cbn in Hexp; try discriminate.
    cbn [validate_data_struct Py.is_dict conforms].
    rewrite (validate_keys_conforms validate_data_struct ditems sitems IH Hexp).
    cbn [andb rbind].
    destruct (conforms_keys conforms ditems sitems); [reflexivity |].
    rewrite print_unmatched_dicts. reflexivity.
Qed.

Lemma dict_get_in (k : string) (v : pyval) (d : Description) :
  Dict.get k d = Some v -> In (k, v) d.
Proof.
  induction d as [| [k' v'] d IH]; simpl; [discriminate |].
  destruct (String.eqb_spec k k') as [-> | Hne].
  - intros H. inversion H; subst. left. reflexivity.
  - intros H. right. auto.
Qed.

Lemma well_shaped_get (self : Description) (field : string) (ext : pyval) :
  well_shaped self = true ->
  Dict.get field self = Some ext ->
  dicts_where_expected (PyDict _source_schema) ext = true.
Proof.
  unfold well_shaped. rewrite forallb_forall. intros Hall Hget.
  apply (Hall (field, ext)). apply dict_get_in, Hget.
Qed.

Lemma validate_loop_first_mismatch (self : Description) (fields : list string) :
  well_shaped self = true ->
  (forall f, In f fields -> In f (Dict.keys self)) ->
  validate_loop fields self
  = match List.find (fun field => negb (conforms_at self field)) fields with
    | None => Ok tt
    | Some field => Raise (FatalError (not_validated_msg field))
    end.
Proof.
  intros Hshape. induction fields as [| field rest IH]; intros Hin; [reflexivity |].
  cbn [validate_loop List.find]. unfold desc_get, conforms_at at 1.
  destruct (dict_get_in_keys field self (Hin field (or_introl eq_refl))) as [ext Hget].
  rewrite Hget. cbn [rbind].
  rewrite (validate_data_struct_conforms _ ext (well_shaped_get _ _ _ Hshape Hget)).
  cbn [rbind]. destruct (conforms (PyDict _source_schema) ext); cbn [negb fatal_when rbind].
  - apply IH. intros f Hf. apply Hin. right. exact Hf.
  - reflexivity.
Qed.

(** C5, as stated, fails: an entry with every required key, each of the
    right type, and with the extra keys [comment] (top level) and [depth]
    (in [repo]) passes [_validate]. *)
Lemma extra_key_counterexample :
  Dict.mem "comment" _source_schema = false
  /\ Py.contains "comment" entry_with_extra_keys = Ok true
  /\ Dict.mem "depth" _source_schema_repo = false
  /\ _validate [("lib", entry_with_extra_keys)] = Ok tt.
Proof. repeat split; reflexivity. Qed.

(** C5, amended: [_validate] raises the fatal schema-validation error,
    naming the first such entry, exactly when some entry lacks a key of the
    required-field schema tree or has, under a key of the tree, a value of
    another type than the schema's, at any level; keys that the schema does
    not have are not looked at, so an entry with all required keys of the
    right types is accepted whatever other keys it has.  (For entries that
    are dictionaries with a dictionary under [repo], as the builder and the
    first two phases leave them.) *)
Theorem validate_checks_required_keys (self : Description) :
  well_shaped self = true ->
  _validate self
  = match first_mismatch self with
    | None => Ok tt
    | Some field => Raise (FatalError (not_validated_msg field))
    end
  /\ (_validate self = Ok tt
      <-> forall field ext,
            Dict.get field self = Some ext ->
            conforms (PyDict _source_schema) ext = true).
Proof.
  intros Hshape.
  assert (Heq : _validate self
                = match first_mismatch self with
                  | None => Ok tt
                  | Some field => Raise (FatalError (not_validated_msg field))
                  end).
  { unfold _validate, first_mismatch. apply validate_loop_first_mismatch; auto. }
  split; [exact Heq |]. rewrite Heq. unfold first_mismatch. split.
  - destruct (List.find _ _) as [f |] eqn:Hfind; [discriminate |].
    intros _ field ext Hget.
    assert (Hin : In field (Dict.keys self)).
    { apply dict_get_in in Hget. apply (in_map fst) in Hget. exact Hget. }
    pose proof (find_none _ _ Hfind field Hin) as Hnone. cbn beta in Hnone.
    unfold conforms_at in Hnone. rewrite Hget in Hnone.
    destruct (conforms (PyDict _source_schema) ext); [reflexivity | discriminate].
  - intros Hall. destruct (List.find _ _) as [f |] eqn:Hfind; [| reflexivity].
    apply find_some in Hfind as [Hin Hbad].
    destruct (dict_get_in_keys f self Hin) as [ext Hget].
    unfold conforms_at in Hbad. rewrite Hget, (Hall f ext Hget) in Hbad. discriminate.
Qed.

(** A description whose first entry has extra keys and whose second entry
    lacks [required]: the fatal error names the second. *)
Lemma validate_checks_required_keys_witness :
  _validate [("lib", entry_with_extra_keys); ("bad", entry_missing_required)]
  = Raise (FatalError (not_validated_msg "bad")).
Proof.
  exact (proj1 (validate_checks_required_keys
                  [("lib", entry_with_extra_keys); ("bad", entry_missing_required)]
                  eq_refl)).
Defined.

(** ** Assignments leave the other keys alone *)

Lemma setitem_inv (e e' x : pyval) (k : string) :
  Py.setitem e k x = Ok e' ->
  exists d, e = PyDict d /\ e' = PyDict (Dict.set k x d).
Proof.
  destruct e; cbn; try discriminate. intros H. inversion H. eauto.
Qed.

Lemma getitem_inv (e x : pyval) (k : string) :
  Py.getitem e k = Ok x ->
  exists d, e = PyDict d /\ Dict.get k d = Some x.
Proof.
  destruct e as [| | | d]; cbn; try discriminate.
  destruct (Dict.get k d) eqn:E; [| discriminate].
  intros H. inversion H; subst. eauto.
Qed.

Lemma set_repo_item_inv (key : string) (x ext ext' : pyval) :
  set_repo_item key x ext = Ok ext' ->
  exists d r,
    ext = PyDict d /\ Dict.get REPO d = Some (PyDict r)
    /\ ext' = PyDict (Dict.set REPO (PyDict (Dict.set key x r)) d).
Proof.
  unfold set_repo_item.
  destruct (Py.getitem ext REPO) as [repo |] eqn:Hrepo; cbn [rbind]; [| discriminate].
  apply getitem_inv in Hrepo as (d & -> & Hget).
  destruct (Py.setitem repo key x) as [repo' |] eqn:Hset; cbn [rbind]; [| discriminate].
  apply setitem_inv in Hset as (r & -> & ->).
  cbn. intros H. inversion H. eauto.
Qed.

Lemma default_top_step (key : string) (ext ext' : pyval) :
  key <> SUBMODULE -> key <> REPO ->
  default_top key ext = Ok ext' -> entry_step ext ext'.
Proof.
  intros Hk1 Hk2. unfold default_top.
  destruct (Py.contains key ext) as [[|] |]; cbn [rbind]; [| | discriminate].
  - intros H. inversion H. constructor.
  - intros H. apply setitem_inv in H as (d & -> & ->). apply step_top; assumption.
Qed.

Lemma default_repo_step (key : string) (ext ext' : pyval) :
  default_repo key ext = Ok ext' -> entry_step ext ext'.
Proof.
  unfold default_repo.
  destruct (Py.getitem ext REPO) as [repo |]; cbn [rbind]; [| discriminate].
  destruct (Py.contains key repo) as [[|] |]; cbn [rbind]; [| | discriminate].
  - intros H. inversion H. constructor.
  - intros H. apply set_repo_item_inv in H as (d & r & -> & Hget & ->).
    apply step_repo. exact Hget.
Qed.

Lemma entry_steps_one (e e' : pyval) : entry_step e e' -> entry_steps e e'.
Proof. intros H. eapply steps_cons; [exact H | constructor]. Qed.

Lemma entry_steps_trans (e1 e2 e3 : pyval) :
  entry_steps e1 e2 -> entry_steps e2 e3 -> entry_steps e1 e3.
Proof.
  induction 1 as [| a b c Hab Hbc IH]; [auto |].
  intros H. eapply steps_cons; [exact Hab | auto].
Qed.

Lemma entry_step_submodule (e e' : pyval) :
  entry_step e e' -> from_submodule_of e' = from_submodule_of e.
Proof.
  destruct 1 as [e | d k x Hk1 Hk2 | d r k x Hget]; [reflexivity | |]; cbn.
  - apply dict_get_set_ne. exact Hk1.
  - apply dict_get_set_ne. discriminate.
Qed.

Lemma entry_steps_submodule (e e' : pyval) :
  entry_steps e e' -> from_submodule_of e' = from_submodule_of e.
Proof.
  induction 1 as [| a b c Hab Hbc IH]; [reflexivity |].
  rewrite IH. apply entry_step_submodule, Hab.
Qed.

Lemma fill_defaults_steps (ext ext' : pyval) :
  fill_defaults ext = Ok ext' -> entry_steps ext ext'.
Proof.
  unfold fill_defaults.
  destruct (default_top EXTERNALS ext) as [e1 |] eqn:H1; cbn [rbind]; [| discriminate].
  destruct (default_repo TAG e1) as [e2 |] eqn:H2; cbn [rbind]; [| discriminate].
  destruct (default_repo BRANCH e2) as [e3 |] eqn:H3; cbn [rbind]; [| discriminate].
  destruct (default_repo HASH e3) as [e4 |] eqn:H4; cbn [rbind]; [| discriminate].
  destruct (default_repo REPO_URL e4) as [e5 |] eqn:H5; cbn [rbind]; [| discriminate].
  intros H6.
  apply default_top_step in H1; [| discriminate | discriminate].
  apply default_repo_step in H2, H3, H4, H5, H6.
  repeat (eapply steps_cons; [eassumption |]). constructor.
Qed.

(** ** [_check_data], one entry *)

Lemma format_scan_no_braces (s arg : string) (num : Py.numbering) :
  no_braces s = true -> Py.format_scan arg Py.InText num s = Ok s.
Proof.
  induction s as [| c s IH]; [reflexivity |].
  cbn [no_braces Py.format_scan]. intros H.
  apply andb_true_iff in H as [H Hs]. apply andb_true_iff in H as [H1 H2].
  apply negb_true_iff in H1, H2. rewrite H1, H2, (IH Hs). reflexivity.
Qed.

Lemma format1_no_braces (s arg : string) :
  no_braces s = true -> Py.format1 s arg = Ok s.
Proof. apply format_scan_no_braces. Qed.

Lemma no_braces_app (a b : string) :
  no_braces (a +:+ b) = no_braces a && no_braces b.
Proof.
  induction a as [| c a IH]; [reflexivity |].
  change (no_braces (String c a +:+ b))
    with (negb (Ascii.eqb c "{"%char) && negb (Ascii.eqb c "}"%char)
          && no_braces (a +:+ b)).
  cbn [no_braces]. rewrite IH, andb_assoc. reflexivity.
Qed.

Lemma format1_for_repo (ext_name : string) :
  no_braces ext_name = true ->
  Py.format1 ("for repo description of " +:+ quoted ext_name +:+ ".") ext_name
  = Ok ("for repo description of " +:+ quoted ext_name +:+ ".").
Proof.
  intros H. apply format1_no_braces. unfold quoted.
  rewrite !no_braces_app, H. reflexivity.
Qed.

Lemma submodule_set_dict (d : list (string * pyval)) :
  submodule_set (PyDict d) = Ok (from_submodule_true (PyDict d)).
Proof.
  unfold submodule_set, from_submodule_true, from_submodule_of.
  cbn [Py.contains rbind Py.getitem]. unfold Dict.mem.
  destruct (Dict.get SUBMODULE d); reflexivity.
Qed.

Lemma ref_count_dicts (d r : list (string * pyval)) :
  Dict.get REPO d = Some (PyDict r) ->
  ref_count (PyDict d)
  = Nat.b2n (Dict.mem TAG r) + Nat.b2n (Dict.mem BRANCH r) + Nat.b2n (Dict.mem HASH r)
    + Nat.b2n (from_submodule_true (PyDict d)).
Proof.
  intros Hrepo. unfold ref_count, repo_has, repo_of. rewrite Hrepo. reflexivity.
Qed.

(** On an entry and its [repo], both dictionaries, [count_refs] returns
    the number of references of the entry. *)
Lemma count_refs_dicts (d r : list (string * pyval)) :
  Dict.get REPO d = Some (PyDict r) ->
  exists found_refs,
    count_refs (PyDict d) (PyDict r) = Ok (ref_count (PyDict d), found_refs).
Proof.
  intros Hrepo. rewrite (ref_count_dicts d r Hrepo).
  unfold count_refs. cbn [Py.contains rbind]. rewrite submodule_set_dict.
  destruct (Dict.mem TAG r) eqn:Htag.
  - apply dict_mem_get in Htag as [v Hv]. cbn [Py.getitem]. rewrite Hv. cbn [rbind].
    destruct (Dict.mem BRANCH r), (Dict.mem HASH r), (from_submodule_true (PyDict d));
      cbn; eauto.
  - cbn [rbind].
    destruct (Dict.mem BRANCH r), (Dict.mem HASH r), (from_submodule_true (PyDict d));
      cbn; eauto.
Qed.

Lemma check_references_by_cases (env : Env) (ext_name : string)
    (d r : list (string * pyval)) :
  Dict.get REPO d = Some (PyDict r) ->
  exists found_refs,
    check_references env ext_name (PyDict d) (PyDict r)
    = check_references_cases env ext_name d r found_refs.
Proof.
  intros Hrepo. destruct (count_refs_dicts d r Hrepo) as [found Hcount].
  exists found. unfold check_references, check_references_cases.
  rewrite Hcount. cbn [rbind].
  destruct (1 <? ref_count (PyDict d)) eqn:Hover.
  { destruct (over_specified_msg ext_name (PyDict d) found); reflexivity. }
  destruct (ref_count (PyDict d) <? 1) eqn:Hunder; [reflexivity |].
  cbn [fatal_when rbind Py.contains]. rewrite submodule_set_dict. cbn [rbind].
  destruct (Dict.mem REPO_URL r) eqn:Hmem.
  - destruct (proj1 (dict_mem_get _ _) Hmem) as [old Hurl]. rewrite Hurl.
    destruct (from_submodule_true (PyDict d)); cbn [negb andb fatal_when rbind];
      [reflexivity |].
    cbn [Py.getitem]. rewrite Hurl. cbn [rbind].
    destruct (expand_local_url env old ext_name) as [url |]; reflexivity.
  - rewrite (proj1 (dict_mem_false _ _) Hmem).
    destruct (from_submodule_true (PyDict d)); cbn [negb andb fatal_when rbind];
      [| reflexivity].
    destruct (Dict.mem PATH d); reflexivity.
Qed.

Lemma over_specified_msg_text (ext_name : string) (d : list (string * pyval))
    (found_refs : string) :
  no_braces ext_name = true ->
  over_specified_msg ext_name (PyDict d) found_refs
  = Ok (over_specified_text ext_name (Dict.mem SUBMODULE d) found_refs).
Proof.
  intros H. unfold over_specified_msg, over_specified_text.
  cbn [Py.contains rbind]. rewrite (format1_for_repo ext_name H). reflexivity.
Qed.

(** An entry that passes [check_references] has exactly one reference and,
    unless [from_submodule] is true, a [repo_url]; what is left of it
    differs at most in the [repo_url]. *)
Lemma check_references_ok (env : Env) (ext_name : string)
    (d r : list (string * pyval)) (ext' : pyval) :
  Dict.get REPO d = Some (PyDict r) ->
  check_references env ext_name (PyDict d) (PyDict r) = Ok ext' ->
  ref_count (PyDict d) = 1
  /\ (from_submodule_true (PyDict d) = false -> Dict.mem REPO_URL r = true)
  /\ entry_step (PyDict d) ext'.
Proof.
  intros Hrepo. destruct (check_references_by_cases env ext_name d r Hrepo) as [found ->].
  unfold check_references_cases.
  destruct (Nat.ltb_spec 1 (ref_count (PyDict d))) as [Hover | Hover].
  { destruct (over_specified_msg ext_name (PyDict d) found); discriminate. }
  destruct (Nat.ltb_spec (ref_count (PyDict d)) 1) as [Hunder | Hunder]; [discriminate |].
  assert (Hone : ref_count (PyDict d) = 1) by lia.
  destruct (Dict.mem REPO_URL r) eqn:Hmem.
  - destruct (proj1 (dict_mem_get _ _) Hmem) as [old Hurl]. rewrite Hurl.
    destruct (from_submodule_true (PyDict d)); cbn [negb andb]; [discriminate |].
    destruct (expand_local_url env old ext_name) as [url |]; cbn [rbind]; [| discriminate].
    intros H. inversion H; subst. split; [exact Hone |]. split.
    + reflexivity.
    + apply step_repo. exact Hrepo.
  - rewrite (proj1 (dict_mem_false _ _) Hmem).
    destruct (from_submodule_true (PyDict d)); cbn [negb andb]; [| discriminate].
    destruct (Dict.mem PATH d); [discriminate |].
    intros H. inversion H; subst. split; [exact Hone |]. split.
    + discriminate.
    + constructor.
Qed.

Lemma eq_str_inv (p : pyval) (s : string) : Py.eq_str p s = true -> p = PyStr s.
Proof.
  destruct p as [| | t |]; cbn; try discriminate.
  intros H. apply String.eqb_eq in H. congruence.
Qed.

(** An entry that passes the body of [_check_data] is a dictionary with a
    dictionary under [repo], obeys the reference rule, and is left as it
    was but for the [repo_url]. *)
Lemma check_data_entry_ok (env : Env) (ext_name : string) (ext ext' : pyval) :
  check_data_entry env ext_name ext = Ok ext' ->
  reference_rule ext /\ entry_step ext ext'
  /\ exists d r, ext = PyDict d /\ Dict.get REPO d = Some (PyDict r).
Proof.
  unfold check_data_entry.
  destruct (Py.getitem ext REPO) as [repo |] eqn:Hrepo; cbn [rbind]; [| discriminate].
  apply getitem_inv in Hrepo as (d & -> & Hrepo).
  destruct (Py.getitem repo PROTOCOL) as [p |] eqn:Hproto; cbn [rbind]; [| discriminate].
  apply getitem_inv in Hproto as (r & -> & Hproto).
  destruct (fatal_when _ (unknown_protocol_msg ext_name p)); cbn [rbind]; [| discriminate].
  destruct (if Py.eq_str p PROTOCOL_SVN then _ else _); cbn [rbind]; [| discriminate].
  destruct (if negb (Py.eq_str p PROTOCOL_GIT) then _ else _); cbn [rbind];
    [| discriminate].
  assert (Hext : is_externals_only (PyDict d) = Py.eq_str p PROTOCOL_EXTERNALS_ONLY).
  { unfold is_externals_only, protocol_of, repo_of. rewrite Hrepo, Hproto. reflexivity. }
  destruct (Py.eq_str p PROTOCOL_EXTERNALS_ONLY) eqn:Hp; cbn [negb].
  - intros H. inversion H; subst. split; [| split; [constructor | eauto]].
    intros Hne. congruence.
  - intros H. apply check_references_ok in H as (Hone & Hurl & Hstep); [| exact Hrepo].
    split; [| split; [exact Hstep | eauto]].
    intros _. split; [exact Hone |].
    unfold repo_has, repo_of. rewrite Hrepo. exact Hurl.
Qed.

(** An entry with a [git] protocol, or with an [svn] protocol and neither
    [hash] nor [from_submodule], goes on to [check_references]. *)
Lemma check_data_entry_reaches (env : Env) (ext_name : string)
    (d r : list (string * pyval)) :
  Dict.get REPO d = Some (PyDict r) ->
  reaches_count (PyDict d) = true ->
  check_data_entry env ext_name (PyDict d)
  = check_references env ext_name (PyDict d) (PyDict r).
Proof.
  intros Hrepo. unfold reaches_count, protocol_of, repo_has, from_submodule_of, repo_of.
  rewrite Hrepo. unfold check_data_entry. cbn [Py.getitem]. rewrite Hrepo.
  cbn [rbind Py.getitem].
  destruct (Dict.get PROTOCOL r) as [p |]; [| discriminate]. cbn [rbind].
  intros H. apply orb_true_iff in H as [Hgit | Hsvn].
  - apply eq_str_inv in Hgit as ->. reflexivity.
  - apply andb_true_iff in Hsvn as [Hsvn Hsub]. apply andb_true_iff in Hsvn as [Hsvn Hhash].
    apply eq_str_inv in Hsvn as ->. apply negb_true_iff in Hhash.
    cbn [Py.in_strs existsb KNOWN_PRROTOCOLS Py.eq_str]. cbn.
    rewrite Hhash. cbn. unfold Dict.mem.
    destruct (Dict.get SUBMODULE d); [discriminate | reflexivity].
Qed.

(** ** The loops over the entries *)

Lemma dict_get_app_none (k : string) (d1 d2 : Description) :
  Dict.get k d1 = None -> Dict.get k (d1 ++ d2) = Dict.get k d2.
Proof.
  induction d1 as [| [k' v'] d1 IH]; simpl; [reflexivity |].
  destruct (String.eqb k k'); [discriminate | exact IH].
Qed.

Lemma dict_set_app_none (k : string) (v : pyval) (d1 d2 : Description) :
  Dict.get k d1 = None -> Dict.set k v (d1 ++ d2) = d1 ++ Dict.set k v d2.
Proof.
  induction d1 as [| [k' v'] d1 IH]; simpl; [reflexivity |].
  destruct (String.eqb k k'); [discriminate |]. intros H. rewrite (IH H). reflexivity.
Qed.

Lemma str_mem_keys_mid (n : string) (e : pyval) (done todo : Description) :
  str_mem n (Dict.keys (done ++ (n, e) :: todo)) = true.
Proof.
  unfold str_mem, Dict.keys. rewrite map_app, existsb_app. cbn.
  rewrite String.eqb_refl. cbn. apply orb_true_r.
Qed.

Lemma distinct_keys_mid (n : string) (e : pyval) (done todo : Description) :
  distinct (Dict.keys (done ++ (n, e) :: todo)) = true -> Dict.get n done = None.
Proof.
  induction done as [| [k v] done IH]; cbn; [reflexivity |].
  intros H. apply andb_true_iff in H as [Hk Hrest].
  destruct (String.eqb_spec n k) as [-> | Hne]; [| exact (IH Hrest)].
  fold (Dict.keys (done ++ (k, e) :: todo)) in Hk.
  rewrite str_mem_keys_mid in Hk. discriminate.
Qed.

Lemma keys_mid (n : string) (e e' : pyval) (done todo : Description) :
  Dict.keys ((done ++ [(n, e')]) ++ todo) = Dict.keys (done ++ (n, e) :: todo).
Proof.
  unfold Dict.keys. rewrite <- app_assoc, !map_app. reflexivity.
Qed.

Lemma desc_get_mid (n : string) (e : pyval) (done todo : Description) :
  distinct (Dict.keys (done ++ (n, e) :: todo)) = true ->
  desc_get (done ++ (n, e) :: todo) n = Ok e.
Proof.
  intros H. unfold desc_get.
  rewrite dict_get_app_none by (exact (distinct_keys_mid n e done todo H)).
  cbn. rewrite String.eqb_refl. reflexivity.
Qed.

Lemma dict_set_mid (n : string) (e e' : pyval) (done todo : Description) :
  distinct (Dict.keys (done ++ (n, e) :: todo)) = true ->
  Dict.set n e' (done ++ (n, e) :: todo) = (done ++ [(n, e')]) ++ todo.
Proof.
  intros H. rewrite dict_set_app_none by (exact (distinct_keys_mid n e done todo H)).
  cbn. rewrite String.eqb_refl, <- app_assoc. reflexivity.
Qed.

(** With distinct keys, the loop of [_check_data] handles the entries one
    after the other, each as it was at the start. *)
Lemma check_data_loop_entries (env : Env) (todo : Description) :
  forall done,
    distinct (Dict.keys (done ++ todo)) = true ->
    check_data_loop env (Dict.keys todo) (done ++ todo)
    = (let! todo' := check_data_entries env todo in Ok (done ++ todo')).
Proof.
  induction todo as [| [n e] todo IH]; intros done Hd.
  - cbn. reflexivity.
  - cbn [Dict.keys map fst check_data_loop check_data_entries].
    rewrite (desc_get_mid n e done todo Hd). cbn [rbind].
    destruct (check_data_entry env n e) as [e' |]; cbn [rbind]; [| reflexivity].
    rewrite (dict_set_mid n e e' done todo Hd).
    fold (Dict.keys todo). rewrite IH by (rewrite (keys_mid n e e'); exact Hd).
    destruct (check_data_entries env todo) as [todo' |]; cbn [rbind]; [| reflexivity].
    rewrite <- app_assoc. reflexivity.
Qed.

Lemma _check_data_entries (env : Env) (self : Description) :
  distinct (Dict.keys self) = true ->
  _check_data env self = check_data_entries env self.
Proof.
  intros Hd. unfold _check_data.
  pose proof (check_data_loop_entries env self [] Hd) as H. cbn [app] in H.
  rewrite H. destruct (check_data_entries env self); reflexivity.
Qed.

Lemma check_data_entries_keys (env : Env) (d d' : Description) :
  check_data_entries env d = Ok d' -> Dict.keys d' = Dict.keys d.
Proof.
  revert d'. induction d as [| [n e] d IH]; intros d'; cbn.
  - intros H. inversion H. reflexivity.
  - destruct (check_data_entry env n e) as [e' |]; cbn [rbind]; [| discriminate].
    destruct (check_data_entries env d) as [rest |]; cbn [rbind]; [| discriminate].
    intros H. inversion H; subst. cbn. f_equal. apply IH. reflexivity.
Qed.

Lemma check_data_entries_get (env : Env) (d d' : Description) (name : string)
    (e : pyval) :
  check_data_entries env d = Ok d' ->
  Dict.get name d = Some e ->
  exists e', Dict.get name d' = Some e' /\ check_data_entry env name e = Ok e'.
Proof.
  revert d'. induction d as [| [n x] d IH]; intros d'; cbn; [discriminate |].
  destruct (check_data_entry env n x) as [x' |] eqn:Hx; cbn [rbind]; [| discriminate].
  destruct (check_data_entries env d) as [rest |]; cbn [rbind]; [| discriminate].
  intros H. inversion H; subst. cbn.
  destruct (String.eqb_spec name n) as [-> | Hne].
  - intros Hget. inversion Hget; subst. eauto.
  - intros Hget. apply (IH rest eq_refl Hget).
Qed.

(** The first entry that fails decides the result of [_check_data]. *)
Lemma check_data_entries_first_error (env : Env) (done rest done' : Description)
    (name : string) (ext : pyval) (e : exn) :
  check_data_entries env done = Ok done' ->
  check_data_entry env name ext = Raise e ->
  check_data_entries env (done ++ (name, ext) :: rest) = Raise e.
Proof.
  revert done'. induction done as [| [n x] done IH]; intros done'; cbn.
  - intros _ ->. reflexivity.
  - destruct (check_data_entry env n x) as [x' |]; cbn [rbind]; [| discriminate].
    destruct (check_data_entries env done) as [d1 |]; cbn [rbind]; [| discriminate].
    intros _ He. rewrite (IH d1 eq_refl He). reflexivity.
Qed.

Section OptionalLoop.
Variable create : Config -> M Description.
Variable env : Env.
Variable parent_repo : option ParentRepo.

(** With distinct keys, the loop of [_check_optional] handles the entries
    one after the other, each as [_check_data] left it. *)
Lemma check_optional_loop_entries (todo : Description) :
  forall done submod_desc w,
    distinct (Dict.keys (done ++ todo)) = true ->
    check_optional_loop create env parent_repo (Dict.keys todo) (done ++ todo)
      submod_desc w
    = (let* todo' := check_optional_entries create env parent_repo todo submod_desc in
       ret (done ++ todo')) w.
Proof.
  induction todo as [| [n e] todo IH]; intros done sd w Hd.
  - cbn. reflexivity.
  - cbn [Dict.keys map fst check_optional_loop check_optional_entries].
    unfold bind, lift, ret.
    rewrite (desc_get_mid n e done todo Hd).
    destruct (check_optional_entry create env parent_repo n e sd w) as [[[e' sd'] | ex] w1];
      [| reflexivity].
    cbn [fst snd]. rewrite (dict_set_mid n e e' done todo Hd).
    fold (Dict.keys todo). rewrite IH by (rewrite (keys_mid n e e'); exact Hd).
    unfold bind, ret.
    destruct (check_optional_entries create env parent_repo todo sd' w1)
      as [[todo' | ex] w2]; [| reflexivity].
    rewrite <- app_assoc. reflexivity.
Qed.

Lemma _check_optional_entries (self : Description) (w : World) :
  distinct (Dict.keys self) = true ->
  _check_optional create env parent_repo self w
  = check_optional_entries create env parent_repo self None w.
Proof.
  intros Hd. unfold _check_optional.
  pose proof (check_optional_loop_entries self [] None w Hd) as H. cbn [app] in H.
  rewrite H. unfold bind, ret.
  destruct (check_optional_entries create env parent_repo self None w) as [[d | ex] w'];
    reflexivity.
Qed.

Lemma check_optional_entries_get (d d' : Description) (name : string) (e : pyval) :
  forall submod_desc w w',
    check_optional_entries create env parent_repo d submod_desc w = (Ok d', w') ->
    Dict.get name d = Some e ->
    exists e' sd1 w1 sd2 w2,
      Dict.get name d' = Some e'
      /\ check_optional_entry create env parent_repo name e sd1 w1 = (Ok (e', sd2), w2).
Proof.
  revert d'. induction d as [| [n x] d IH]; intros d' sd w w'; cbn; [discriminate |].
  unfold bind, ret.
  destruct (check_optional_entry create env parent_repo n x sd w)
    as [[[x' sd'] | ex] w1] eqn:Hx; [| discriminate].
  cbn [fst snd].
  destruct (check_optional_entries create env parent_repo d sd' w1)
    as [[rest | ex] w2] eqn:Hrest; [| discriminate].
  intros H. inversion H; subst. cbn.
  destruct (String.eqb_spec name n) as [-> | Hne].
  - intros Hget. inversion Hget; subst.
    exists x', sd, w, sd', w1. split; [reflexivity | exact Hx].
  - intros Hget. eapply IH; eassumption.
Qed.

End OptionalLoop.

(** ** [_check_optional], one entry *)

Lemma entry_step_repo_dict (e e' : pyval) :
  entry_step e e' -> has_repo_dict e = true -> has_repo_dict e' = true.
Proof.
  unfold has_repo_dict, repo_of.
  destruct 1 as [e | d k x Hk1 Hk2 | d r k x Hget]; [auto | |]; intros H.
  - rewrite dict_get_set_ne by exact Hk2. exact H.
  - rewrite dict_get_set_eq. reflexivity.
Qed.

Lemma entry_steps_repo_dict (e e' : pyval) :
  entry_steps e e' -> has_repo_dict e = true -> has_repo_dict e' = true.
Proof.
  induction 1 as [| a b c Hab Hbc IH]; [auto |].
  intros H. apply IH. eapply entry_step_repo_dict; eassumption.
Qed.

Lemma has_repo_dict_inv (ext : pyval) :
  has_repo_dict ext = true ->
  exists d r, ext = PyDict d /\ Dict.get REPO d = Some (PyDict r).
Proof.
  unfold has_repo_dict, repo_of. destruct ext as [| | | d]; try discriminate.
  destruct (Dict.get REPO d) as [[| | | r] |] eqn:Hrepo; try discriminate. eauto.
Qed.

Lemma default_top_total (key : string) (ext : pyval) :
  has_repo_dict ext = true -> exists ext', default_top key ext = Ok ext'.
Proof.
  intros H. apply has_repo_dict_inv in H as (d & r & -> & _).
  unfold default_top. cbn [Py.contains rbind].
  destruct (Dict.mem key d); cbn; eauto.
Qed.

Lemma default_repo_total (key : string) (ext : pyval) :
  has_repo_dict ext = true -> exists ext', default_repo key ext = Ok ext'.
Proof.
  intros H. apply has_repo_dict_inv in H as (d & r & -> & Hrepo).
  unfold default_repo, set_repo_item. cbn [Py.getitem]. rewrite Hrepo.
  cbn [rbind Py.contains]. destruct (Dict.mem key r); cbn; eauto.
Qed.

(** On a dictionary with a dictionary under [repo], the defaults are
    filled in without an exception. *)
Lemma fill_defaults_total (ext : pyval) :
  has_repo_dict ext = true -> exists ext', fill_defaults ext = Ok ext'.
Proof.
  intros H0. unfold fill_defaults.
  destruct (default_top_total EXTERNALS ext H0) as [e1 H1]. rewrite H1. cbn [rbind].
  assert (R1 : has_repo_dict e1 = true).
  { eapply entry_step_repo_dict; [| exact H0].
    eapply default_top_step; [| | exact H1]; discriminate. }
  destruct (default_repo_total TAG e1 R1) as [e2 H2]. rewrite H2. cbn [rbind].
  assert (R2 : has_repo_dict e2 = true).
  { eapply entry_step_repo_dict; [eapply default_repo_step; exact H2 | exact R1]. }
  destruct (default_repo_total BRANCH e2 R2) as [e3 H3]. rewrite H3. cbn [rbind].
  assert (R3 : has_repo_dict e3 = true).
  { eapply entry_step_repo_dict; [eapply default_repo_step; exact H3 | exact R2]. }
  destruct (default_repo_total HASH e3 R3) as [e4 H4]. rewrite H4. cbn [rbind].
  assert (R4 : has_repo_dict e4 = true).
  { eapply entry_step_repo_dict; [eapply default_repo_step; exact H4 | exact R3]. }
  destruct (default_repo_total REPO_URL e4 R4) as [e5 H5]. rewrite H5. cbn [rbind].
  assert (R5 : has_repo_dict e5 = true).
  { eapply entry_step_repo_dict; [eapply default_repo_step; exact H5 | exact R4]. }
  apply default_repo_total, R5.
Qed.

Lemma contains_submodule (ext : pyval) :
  has_repo_dict ext = true ->
  Py.contains SUBMODULE ext = Ok (declares_from_submodule ext).
Proof.
  intros H. apply has_repo_dict_inv in H as (d & r & -> & _).
  unfold declares_from_submodule, from_submodule_of. cbn. unfold Dict.mem.
  destruct (Dict.get SUBMODULE d); reflexivity.
Qed.

(** The three assignments that end the resolution of an entry. *)
Lemma resolved_values (ext ext' repo_url repo_path ref_hash : pyval) :
  (let! e1 := set_repo_item REPO_URL repo_url ext in
   let! e2 := set_repo_item HASH ref_hash e1 in
   Py.setitem e2 PATH repo_path) = Ok ext' ->
  repo_item REPO_URL ext' = Ok repo_url
  /\ repo_item HASH ext' = Ok ref_hash
  /\ Py.getitem ext' PATH = Ok repo_path
  /\ entry_steps ext ext'.
Proof.
  destruct (set_repo_item REPO_URL repo_url ext) as [e1 |] eqn:H1; cbn [rbind];
    [| discriminate].
  destruct (set_repo_item HASH ref_hash e1) as [e2 |] eqn:H2; cbn [rbind];
    [| discriminate].
  intros H3.
  apply set_repo_item_inv in H1 as (d & r & -> & Hrepo & ->).
  apply set_repo_item_inv in H2 as (d1 & r1 & Hd1 & Hrepo1 & ->).
  inversion Hd1; subst d1. rewrite dict_get_set_eq in Hrepo1.
  inversion Hrepo1; subst r1.
  apply setitem_inv in H3 as (d2 & Hd2 & ->). inversion Hd2; subst d2.
  unfold repo_item. cbn [Py.getitem].
  rewrite !(dict_get_set_ne PATH REPO) by discriminate.
  rewrite !dict_get_set_eq. cbn [rbind Py.getitem].
  rewrite (dict_get_set_ne HASH REPO_URL) by discriminate.
  rewrite !dict_get_set_eq.
  repeat split.
  eapply steps_cons; [apply (step_repo d r REPO_URL repo_url); exact Hrepo |].
  eapply steps_cons;
    [eapply (step_repo _ _ HASH ref_hash); apply dict_get_set_eq |].
  eapply steps_cons; [eapply (step_top _ PATH repo_path); discriminate | constructor].
Qed.

(** What the search in the description of the submodules returns, when it
    is not [None], are the values of the entry of that name. *)
Lemma find_submodule_config_found (field : string) (d : Description)
    (repo_url repo_path ref_hash : pyval) :
  find_submodule_config field d = Ok (repo_url, repo_path, ref_hash) ->
  is_none repo_url = false ->
  exists e,
    Dict.get field d = Some e
    /\ repo_item REPO_URL e = Ok repo_url
    /\ repo_item HASH e = Ok ref_hash
    /\ Py.getitem e PATH = Ok repo_path.
Proof.
  unfold find_submodule_config, repo_item.
  destruct (Dict.get field d) as [e |];
    [| intros H Hn; inversion H; subst; cbn in Hn; discriminate Hn].
  destruct (Py.getitem e REPO) as [repo |] eqn:Hr; cbn [rbind]; [| discriminate].
  destruct (Py.getitem repo REPO_URL) as [u |] eqn:Hu; cbn [rbind]; [| discriminate].
  destruct (Py.getitem e PATH) as [p |] eqn:Hp; cbn [rbind]; [| discriminate].
  destruct (Py.getitem repo HASH) as [h |] eqn:Hh; cbn [rbind]; [| discriminate].
  intros H _. inversion H; subst. exists e. rewrite Hr. cbn [rbind]. auto.
Qed.

Section OptionalEntry.
Variable create : Config -> M Description.
Variable env : Env.

Lemma repo_config_from_submodule_ok (parent : ParentRepo) (field : string)
    (submod_desc : option Description) (w w' : World)
    (repo_url repo_path ref_hash : pyval) (d : Description) :
  _repo_config_from_submodule create env parent field submod_desc w
  = (Ok (repo_url, repo_path, ref_hash, d), w') ->
  submodules_loaded create env parent submod_desc w d w'
  /\ find_submodule_config field d = Ok (repo_url, repo_path, ref_hash).
Proof.
  unfold _repo_config_from_submodule, submodules_loaded.
  destruct submod_desc as [d0 |].
  - unfold bind, ret, lift.
    destruct (find_submodule_config field d0) as [[[u p] h] |] eqn:Hfind; [| discriminate].
    intros H. inversion H; subst. split; [split; reflexivity | exact Hfind].
  - unfold bind at 1 2. unfold getcwd at 1.
    destruct (parent_submodules_file parent (cwd w)) as [submod_file |] eqn:Hfile;
      [| discriminate].
    unfold bind at 1.
    destruct (read_gitmodules_file env (cwd w) submod_file w) as [[cfg | ex] w1] eqn:Hread;
      [| discriminate].
    destruct (create cfg w1) as [[d1 | ex] w2] eqn:Hcreate; [| discriminate].
    unfold bind, lift, ret.
    destruct (find_submodule_config field d1) as [[[u p] h] |] eqn:Hfind; [| discriminate].
    intros H. inversion H; subst. split; [| exact Hfind].
    exists submod_file, cfg, w1. auto.
Qed.

(** An entry with the [from_submodule] key is resolved only under a parent
    repository whose protocol is git, and then against the description of
    the parent's submodules, whose values for [repo_url], [hash] and
    [local_path] it is given. *)
Lemma resolve_from_submodule_ok (parent_repo : option ParentRepo) (field : string)
    (ext ext' : pyval) (submod_desc sd' : option Description) (w w' : World) :
  resolve_from_submodule create env parent_repo field ext submod_desc w
  = (Ok (ext', sd'), w') ->
  exists parent d e,
    parent_repo = Some parent /\ parent_protocol parent = PROTOCOL_GIT
    /\ submodules_loaded create env parent submod_desc w d w' /\ sd' = Some d
    /\ Dict.get field d = Some e
    /\ repo_item REPO_URL ext' = repo_item REPO_URL e
    /\ repo_item HASH ext' = repo_item HASH e
    /\ Py.getitem ext' PATH = Py.getitem e PATH
    /\ entry_steps ext ext'.
Proof.
  unfold resolve_from_submodule.
  destruct parent_repo as [parent |]; [| discriminate].
  destruct (String.eqb_spec (parent_protocol parent) PROTOCOL_GIT) as [Hgit | Hgit];
    cbn [negb]; [| discriminate].
  unfold bind at 1.
  destruct (_repo_config_from_submodule create env parent field submod_desc w)
    as [[[[[u p] h] d] | ex] w1] eqn:Hcfg; [| discriminate].
  apply repo_config_from_submodule_ok in Hcfg as [Hloaded Hfind].
  unfold bind, lift, ret, fatal_when.
  destruct (is_none u) eqn:Hnone; [discriminate |].
  destruct (let! e1 := set_repo_item REPO_URL u ext in
            let! e2 := set_repo_item HASH h e1 in Py.setitem e2 PATH p)
    as [e3 |] eqn:Hset; [| discriminate].
  intros H. inversion H; subst.
  destruct (find_submodule_config_found field d u p h Hfind Hnone)
    as (e & Hget & Hu & Hh & Hp).
  destruct (resolved_values ext ext' u p h Hset) as (Ru & Rh & Rp & Hsteps).
  exists parent, d, e. rewrite Ru, Rh, Rp, Hu, Hh, Hp. auto 10.
Qed.

Lemma check_optional_entry_declared (parent_repo : option ParentRepo) (field : string)
    (ext ext1 : pyval) (submod_desc : option Description) (w : World) :
  fill_defaults ext = Ok ext1 ->
  declares_from_submodule ext = true ->
  check_optional_entry create env parent_repo field ext submod_desc w
  = (let* r := resolve_from_submodule create env parent_repo field ext1 submod_desc in
     let* _ := lift (Py.getitem (fst r) SUBMODULE) in
     ret r) w.
Proof.
  intros Hfill Hdecl. unfold check_optional_entry.
  unfold bind at 1 2. unfold lift at 1 2. rewrite Hfill.
  pose proof (fill_defaults_steps ext ext1 Hfill) as Hsteps.
  assert (Hsub : from_submodule_of ext1 = from_submodule_of ext)
    by (apply entry_steps_submodule, Hsteps).
  assert (Hc : Py.contains SUBMODULE ext1 = Ok true).
  { unfold declares_from_submodule in Hdecl. rewrite <- Hsub in Hdecl.
    destruct ext1 as [| | | d1]; cbn in Hdecl; try discriminate.
    cbn. unfold Dict.mem. destruct (Dict.get SUBMODULE d1); [reflexivity | discriminate]. }
  rewrite Hc. reflexivity.
Qed.

End OptionalEntry.

Section OptionalPhase.
Variable create : Config -> M Description.
Variable env : Env.
Variable parent_repo : option ParentRepo.

Lemma check_optional_entry_parent_error (field msg : string) (ext : pyval)
    (submod_desc : option Description) (w : World) :
  has_repo_dict ext = true ->
  declares_from_submodule ext = true ->
  parent_error parent_repo field = Some msg ->
  check_optional_entry create env parent_repo field ext submod_desc w
  = (Raise (FatalError msg), w).
Proof.
  intros Hrepo Hdecl Herr.
  destruct (fill_defaults_total ext Hrepo) as [ext1 Hfill].
  rewrite (check_optional_entry_declared create env parent_repo field ext ext1
             submod_desc w Hfill Hdecl).
  unfold bind, resolve_from_submodule, parent_error in *.
  destruct parent_repo as [parent |].
  - destruct (String.eqb (parent_protocol parent) PROTOCOL_GIT); [discriminate |].
    inversion Herr; subst. reflexivity.
  - inversion Herr; subst. reflexivity.
Qed.

Lemma check_optional_entry_plain (field : string) (ext : pyval)
    (submod_desc : option Description) (w : World) :
  plain_entry (field, ext) = true ->
  exists ext',
    check_optional_entry create env parent_repo field ext submod_desc w
    = (Ok (ext', submod_desc), w).
Proof.
  unfold plain_entry. cbn [snd]. intros H. apply andb_true_iff in H as [Hrepo Hdecl].
  apply negb_true_iff in Hdecl.
  destruct (fill_defaults_total ext Hrepo) as [ext1 Hfill].
  pose proof (fill_defaults_steps ext ext1 Hfill) as Hsteps.
  pose proof (entry_steps_repo_dict ext ext1 Hsteps Hrepo) as Hrepo1.
  pose proof (entry_steps_submodule ext ext1 Hsteps) as Hsub.
  unfold check_optional_entry, bind, lift, ret. rewrite Hfill.
  rewrite (contains_submodule ext1 Hrepo1).
  unfold declares_from_submodule in *. rewrite Hsub, Hdecl.
  apply has_repo_dict_inv in Hrepo1 as (d1 & r1 & -> & _). cbn. eauto.
Qed.

(** The entries without the [from_submodule] key go through, and the first
    entry that raises ends the phase, with the world as it was. *)
Lemma check_optional_entries_first_error (done rest : Description) (field : string)
    (ext : pyval) (submod_desc : option Description) (w : World) (e : exn) :
  forallb plain_entry done = true ->
  check_optional_entry create env parent_repo field ext submod_desc w = (Raise e, w) ->
  check_optional_entries create env parent_repo (done ++ (field, ext) :: rest)
    submod_desc w = (Raise e, w).
Proof.
  induction done as [| [n x] done IH]; cbn [forallb app check_optional_entries].
  - intros _ He. unfold bind. rewrite He. reflexivity.
  - intros H He. apply andb_true_iff in H as [Hx Hdone].
    destruct (check_optional_entry_plain n x submod_desc w Hx) as [x' Hx'].
    unfold bind at 1. rewrite Hx'. cbn [fst snd].
    unfold bind at 1. rewrite (IH Hdone He). reflexivity.
Qed.

End OptionalPhase.

(** An entry with the [from_submodule] key that is handled without an
    error has been resolved against the parent's submodules. *)
Lemma check_optional_entry_resolved
    (create : Config -> M Description) (env : Env) (parent_repo : option ParentRepo)
    (field : string) (ext ext' : pyval) (submod_desc sd' : option Description)
    (w w' : World) :
  has_repo_dict ext = true ->
  declares_from_submodule ext = true ->
  check_optional_entry create env parent_repo field ext submod_desc w
  = (Ok (ext', sd'), w') ->
  exists parent d e,
    parent_repo = Some parent /\ parent_protocol parent = PROTOCOL_GIT
    /\ submodules_loaded create env parent submod_desc w d w' /\ sd' = Some d
    /\ Dict.get field d = Some e
    /\ repo_item REPO_URL ext' = repo_item REPO_URL e
    /\ repo_item HASH ext' = repo_item HASH e
    /\ Py.getitem ext' PATH = Py.getitem e PATH
    /\ from_submodule_of ext' = from_submodule_of ext.
Proof.
  intros Hrepo Hdecl Hok.
  destruct (fill_defaults_total ext Hrepo) as [ext1 Hfill].
  rewrite (check_optional_entry_declared create env parent_repo field ext ext1
             submod_desc w Hfill Hdecl) in Hok.
  unfold bind, lift, ret in Hok.
  destruct (resolve_from_submodule create env parent_repo field ext1 submod_desc w)
    as [[[e2 sd2] | ex] w2] eqn:Hres; [| discriminate].
  cbn [fst] in Hok.
  destruct (Py.getitem e2 SUBMODULE); [| discriminate].
  inversion Hok; subst.
  apply resolve_from_submodule_ok in Hres
    as (parent & d & e & Hp & Hgit & Hload & Hsd & Hget & Hu & Hh & Hpath & Hsteps).
  exists parent, d, e. repeat (split; [assumption |]).
  rewrite (entry_steps_submodule ext1 ext' Hsteps).
  apply entry_steps_submodule, fill_defaults_steps, Hfill.
Qed.

(** C9: an entry that has the [from_submodule] key, whatever its value (so
    also [False]), is not treated as one without the key.  In
    [_check_optional] such an entry raises the fatal "No parent submodule"
    error when there is no parent repository, and the fatal "Parent
    protocol" error when the parent's protocol is not git; this ends the
    whole phase when the entries before it have no such key.  When the
    entry is handled without an error, there is a parent with the git
    protocol, the description of the parent's submodules (loaded from its
    submodules file, or already loaded for an earlier entry) has an entry of
    the same name, and [repo_url], [hash] and [local_path] of the entry are
    those of that description: a URL that the user gave is gone, while the
    [from_submodule] value stays as declared. *)
Theorem from_submodule_key_is_resolved
    (create : Config -> M Description) (env : Env) (parent_repo : option ParentRepo)
    (field : string) (ext : pyval) (submod_desc : option Description) (w : World) :
  has_repo_dict ext = true ->
  declares_from_submodule ext = true ->
  (parent_repo = None ->
   check_optional_entry create env parent_repo field ext submod_desc w
   = (Raise (FatalError (no_parent_msg field)), w))
  /\ (forall parent,
        parent_repo = Some parent -> parent_protocol parent <> PROTOCOL_GIT ->
        check_optional_entry create env parent_repo field ext submod_desc w
        = (Raise (FatalError (parent_protocol_msg parent)), w))
  /\ (forall msg done rest,
        parent_error parent_repo field = Some msg ->
        forallb plain_entry done = true ->
        distinct (Dict.keys (done ++ (field, ext) :: rest)) = true ->
        _check_optional create env parent_repo (done ++ (field, ext) :: rest) w
        = (Raise (FatalError msg), w))
  /\ (forall ext' sd' w',
        check_optional_entry create env parent_repo field ext submod_desc w
        = (Ok (ext', sd'), w') ->
        exists parent d e,
          parent_repo = Some parent /\ parent_protocol parent = PROTOCOL_GIT
          /\ submodules_loaded create env parent submod_desc w d w' /\ sd' = Some d
          /\ Dict.get field d = Some e
          /\ repo_item REPO_URL ext' = repo_item REPO_URL e
          /\ repo_item HASH ext' = repo_item HASH e
          /\ Py.getitem ext' PATH = Py.getitem e PATH
          /\ from_submodule_of ext' = from_submodule_of ext).
Proof.
  intros Hrepo Hdecl. split; [| split; [| split]].
  - intros ->. apply check_optional_entry_parent_error; auto.
  - intros parent -> Hne. apply check_optional_entry_parent_error; auto.
    unfold parent_error. destruct (String.eqb_spec (parent_protocol parent) PROTOCOL_GIT);
      [contradiction | reflexivity].
  - intros msg done rest Herr Hplain Hd.
    rewrite (_check_optional_entries create env parent_repo _ w Hd).
    apply check_optional_entries_first_error; [exact Hplain |].
    apply check_optional_entry_parent_error; auto.
  - intros ext' sd' w' Hok.
    eapply check_optional_entry_resolved; eassumption.
Qed.

(** [entry_declared_false], under no parent and under a git parent whose
    submodules file is [manifest_lib]. *)
Lemma from_submodule_key_is_resolved_witness :
  repo_item REPO_URL entry_declared_false = Ok (PyStr "https://user/fork.git")
  /\ check_optional_entry (create_for_submodules env_lib) env_lib None "lib"
       entry_declared_false None world0
     = (Raise (FatalError (no_parent_msg "lib")), world0)
  /\ check_optional_entry (create_for_submodules env_lib) env_lib (Some parent_git) "lib"
       entry_declared_false None world0
     = (Ok (entry_declared_false_resolved, Some description_lib), world0)
  /\ repo_item REPO_URL entry_declared_false_resolved = Ok (PyStr "https://x/lib.git")
  /\ repo_item HASH entry_declared_false_resolved = Ok (PyStr "abc123")
  /\ Py.getitem entry_declared_false_resolved PATH = Ok (PyStr "src/lib").
Proof.
  assert (Hrun : check_optional_entry (create_for_submodules env_lib) env_lib
                   (Some parent_git) "lib" entry_declared_false None world0
                 = (Ok (entry_declared_false_resolved, Some description_lib), world0))
    by (vm_compute; reflexivity).
  destruct (from_submodule_key_is_resolved (create_for_submodules env_lib) env_lib
              (Some parent_git) "lib" entry_declared_false None world0 eq_refl eq_refl)
    as (_ & _ & _ & Hres).
  destruct (Hres _ _ _ Hrun)
    as (parent & d & e & _ & _ & _ & Hsd & Hget & Hu & Hh & Hpath & _).
  inversion Hsd; subst d. cbn in Hget. inversion Hget; subst e.
  split; [reflexivity |]. split.
  - exact (proj1 (from_submodule_key_is_resolved (create_for_submodules env_lib) env_lib
                    None "lib" entry_declared_false None world0 eq_refl eq_refl) eq_refl).
  - split; [exact Hrun |]. split; [exact Hu |]. split; [exact Hh | exact Hpath].
Defined.

(** ** The three phases together *)

Lemma validate_keys_true (validate : pyval -> pyval -> result bool)
    (ditems l : list (string * pyval)) :
  forall in_ref valid,
    validate_keys validate (PyDict ditems) l in_ref valid = Ok true ->
    in_ref = true /\ valid = true
    /\ Forall (fun kv => exists x, Dict.get (fst kv) ditems = Some x
                                   /\ validate (snd kv) x = Ok true) l.
Proof.
  induction l as [| [key sub] l IH]; intros in_ref valid.
  - cbn. intros H. inversion H as [Hb]. apply andb_true_iff in Hb as [-> ->]. auto.
  - cbn [validate_keys].
    destruct in_ref; cbn [Py.contains rbind andb].
    + unfold Dict.mem. destruct (Dict.get key ditems) as [x |] eqn:Hget.
      * destruct valid; cbn [andb].
        -- cbn [Py.getitem]. rewrite Hget. cbn [rbind].
           destruct (validate sub x) as [v |] eqn:Hv; cbn [rbind]; [| discriminate].
           intros H. apply IH in H as (_ & -> & Hall).
           repeat split; [constructor; [| exact Hall]].
           exists x. auto.
        -- intros H. apply IH in H as (_ & Hf & _). discriminate.
      * cbn [andb]. intros H. apply IH in H as (Hf & _ & _). discriminate.
    + intros H. apply IH in H as (Hf & _ & _). discriminate.
Qed.

(** A validated entry is a dictionary whose [from_submodule] is a boolean. *)
Lemma validated_submodule_bool (ext : pyval) :
  validate_data_struct (PyDict _source_schema) ext = Ok true ->
  exists b, from_submodule_of ext = Some (PyBool b).
Proof.
  destruct ext as [| | | d];
    [cbn [validate_data_struct Py.is_dict Py.same_type rbind];
     destruct (print_unmatched _ _); discriminate .. |].
  cbn [validate_data_struct Py.is_dict].
  destruct (validate_keys validate_data_struct (PyDict d) _source_schema true true)
    as [[|] |] eqn:Hkeys; cbn [rbind].
  - intros _. apply validate_keys_true in Hkeys as (_ & _ & Hall).
    unfold _source_schema in Hall.
    inversion Hall as [| ? ? _ H1]; subst. inversion H1 as [| ? ? _ H2]; subst.
    inversion H2 as [| ? ? _ H3]; subst. inversion H3 as [| ? ? Hsub _]; subst.
    destruct Hsub as (x & Hget & Hval). cbn [fst snd] in Hget, Hval.
    cbn [from_submodule_of]. rewrite Hget.
    destruct x as [| b | |]; try (cbn in Hval; discriminate). eauto.
  - destruct (print_unmatched _ _); discriminate.
  - discriminate.
Qed.

Lemma validate_loop_ok (self : Description) (fields : list string) :
  validate_loop fields self = Ok tt ->
  forall field, In field fields ->
    exists ext, Dict.get field self = Some ext
                /\ validate_data_struct (PyDict _source_schema) ext = Ok true.
Proof.
  induction fields as [| f rest IH]; cbn [validate_loop]; [intros _ ? [] |].
  unfold desc_get. destruct (Dict.get f self) as [ext |] eqn:Hget; cbn [rbind];
    [| discriminate].
  destruct (validate_data_struct (PyDict _source_schema) ext) as [[|] |] eqn:Hval;
    cbn [rbind negb fatal_when]; [| discriminate | discriminate].
  intros H field [<- | Hin]; [eauto | auto].
Qed.

Lemma dict_get_keys (k : string) (v : pyval) (d : Description) :
  Dict.get k d = Some v -> In k (Dict.keys d).
Proof.
  intros H. apply dict_get_in in H. apply (in_map fst) in H. exact H.
Qed.

Lemma has_repo_dict_intro (ext : pyval) :
  (exists d r, ext = PyDict d /\ Dict.get REPO d = Some (PyDict r)) ->
  has_repo_dict ext = true.
Proof.
  intros (d & r & -> & H). unfold has_repo_dict, repo_of. rewrite H. reflexivity.
Qed.

(** Every entry of a description that passes the three phases obeys the
    reference rule, and its [from_submodule], when given, is a boolean. *)
Lemma check_user_input_ok_entry (create : Config -> M Description) (env : Env)
    (parent_repo : option ParentRepo) (self self' : Description) (w w' : World)
    (name : string) (ext : pyval) :
  distinct (Dict.keys self) = true ->
  _check_user_input create env parent_repo self w = (Ok self', w') ->
  Dict.get name self = Some ext ->
  reference_rule ext /\ from_submodule_is_bool ext.
Proof.
  intros Hd Hrun Hget. unfold _check_user_input, bind, lift, ret in Hrun.
  destruct (_check_data env self) as [self1 |] eqn:Hdata; [| discriminate].
  rewrite (_check_data_entries env self Hd) in Hdata.
  destruct (_check_optional create env parent_repo self1 w) as [[self2 | ex] w2] eqn:Hopt;
    [| discriminate].
  assert (Hd1 : distinct (Dict.keys self1) = true)
    by (rewrite (check_data_entries_keys env self self1 Hdata); exact Hd).
  rewrite (_check_optional_entries create env parent_repo self1 w Hd1) in Hopt.
  destruct (_validate self2) as [[] |] eqn:Hval; [| discriminate].
  destruct (check_data_entries_get env self self1 name ext Hdata Hget)
    as (e1 & Hget1 & Hentry).
  destruct (check_data_entry_ok env name ext e1 Hentry) as (Hrule & Hstep & Hshape).
  split; [exact Hrule |].
  intros v Hv.
  destruct (check_optional_entries_get create env parent_repo self1 self2 name e1
              None w w2 Hopt Hget1) as (e2 & sd1 & w1 & sd2 & w3 & Hget2 & Hentry2).
  assert (Hrepo1 : has_repo_dict e1 = true).
  { eapply entry_step_repo_dict; [exact Hstep |]. apply has_repo_dict_intro, Hshape. }
  assert (Hv1 : from_submodule_of e1 = Some v)
    by (rewrite (entry_step_submodule ext e1 Hstep); exact Hv).
  assert (Hdecl : declares_from_submodule e1 = true)
    by (unfold declares_from_submodule; rewrite Hv1; reflexivity).
  destruct (check_optional_entry_resolved create env parent_repo name e1 e2 sd1 sd2
              w1 w3 Hrepo1 Hdecl Hentry2)
    as (_ & _ & _ & _ & _ & _ & _ & _ & _ & _ & _ & Hsame).
  destruct (validate_loop_ok self2 (Dict.keys self2) Hval name
              (dict_get_keys name e2 self2 Hget2)) as (e2' & Hget2' & Hvalid).
  rewrite Hget2 in Hget2'. inversion Hget2'; subst e2'.
  destruct (validated_submodule_bool e2 Hvalid) as [b Hb].
  exists b. rewrite Hsame, Hv1 in Hb. congruence.
Qed.

Lemma reaches_count_inv (ext : pyval) :
  reaches_count ext = true ->
  exists d r, ext = PyDict d /\ Dict.get REPO d = Some (PyDict r).
Proof.
  unfold reaches_count, protocol_of. intros H. apply has_repo_dict_inv.
  unfold has_repo_dict. destruct (repo_of ext); [reflexivity | discriminate].
Qed.

Lemma declares_is_mem (d : list (string * pyval)) :
  Dict.mem SUBMODULE d = declares_from_submodule (PyDict d).
Proof. reflexivity. Qed.

(** The three ways in which the count of references ends an entry. *)
Lemma check_data_entry_over_specified (env : Env) (ext_name : string) (ext : pyval) :
  reaches_count ext = true -> 1 < ref_count ext -> no_braces ext_name = true ->
  exists found_refs,
    check_data_entry env ext_name ext
    = Raise (FatalError (over_specified_text ext_name (declares_from_submodule ext)
                           found_refs)).
Proof.
  intros Hreach Hcount Hname.
  destruct (reaches_count_inv ext Hreach) as (d & r & -> & Hrepo).
  rewrite (check_data_entry_reaches env ext_name d r Hrepo Hreach).
  destruct (check_references_by_cases env ext_name d r Hrepo) as [found ->].
  exists found. unfold check_references_cases.
  destruct (Nat.ltb_spec 1 (ref_count (PyDict d))) as [_ | Hle]; [| lia].
  rewrite (over_specified_msg_text ext_name d found Hname), declares_is_mem.
  reflexivity.
Qed.

Lemma check_data_entry_under_specified (env : Env) (ext_name : string) (ext : pyval) :
  reaches_count ext = true -> ref_count ext = 0 ->
  check_data_entry env ext_name ext = Raise (FatalError (under_specified_msg ext_name)).
Proof.
  intros Hreach Hcount.
  destruct (reaches_count_inv ext Hreach) as (d & r & -> & Hrepo).
  rewrite (check_data_entry_reaches env ext_name d r Hrepo Hreach).
  destruct (check_references_by_cases env ext_name d r Hrepo) as [found ->].
  unfold check_references_cases. rewrite Hcount. reflexivity.
Qed.

Lemma check_data_entry_missing_url (env : Env) (ext_name : string) (ext : pyval) :
  reaches_count ext = true -> ref_count ext = 1 ->
  repo_has REPO_URL ext = false -> from_submodule_true ext = false ->
  check_data_entry env ext_name ext = Raise (FatalError (missing_url_msg ext_name)).
Proof.
  intros Hreach Hcount Hurl Hsub.
  destruct (reaches_count_inv ext Hreach) as (d & r & -> & Hrepo).
  rewrite (check_data_entry_reaches env ext_name d r Hrepo Hreach).
  destruct (check_references_by_cases env ext_name d r Hrepo) as [found ->].
  unfold check_references_cases. rewrite Hcount, Hsub.
  unfold repo_has, repo_of in Hurl. rewrite Hrepo in Hurl. rewrite Hurl. reflexivity.
Qed.

(** An error of [_check_data] in the first entry that fails is the result
    of the three phases, and nothing else has happened. *)
Lemma check_user_input_first_error (create : Config -> M Description) (env : Env)
    (parent_repo : option ParentRepo) (done rest : Description) (name : string)
    (ext : pyval) (w : World) (e : exn) :
  distinct (Dict.keys (done ++ (name, ext) :: rest)) = true ->
  is_ok (check_data_entries env done) = true ->
  check_data_entry env name ext = Raise e ->
  _check_user_input create env parent_repo (done ++ (name, ext) :: rest) w = (Raise e, w).
Proof.
  intros Hd Hdone He. unfold _check_user_input, bind, lift.
  rewrite (_check_data_entries env _ Hd).
  destruct (check_data_entries env done) as [done' |] eqn:Hdone'; [| discriminate].
  rewrite (check_data_entries_first_error env done rest done' name ext e Hdone' He).
  reflexivity.
Qed.

(** C1, as stated, fails in the "if" direction: the map with the single
    git entry [{repo: {protocol: git, tag: v1, repo_url: ..}}] has exactly
    one reference and a URL, and validation aborts in [_validate] because
    [required] and [local_path] are missing; a map whose entry has the
    protocol [hg], one reference and a URL aborts in [_check_data] with the
    unknown-protocol error. *)
Lemma reference_rule_not_sufficient_counterexample :
  is_externals_only entry_without_required = false
  /\ ref_count entry_without_required = 1
  /\ repo_has REPO_URL entry_without_required = true
  /\ _check_user_input (create_for_submodules env_lib) env_lib None
       [("lib", entry_without_required)] world0
     = (Raise (FatalError (not_validated_msg "lib")), world0)
  /\ is_externals_only entry_hg = false
  /\ ref_count entry_hg = 1
  /\ repo_has REPO_URL entry_hg = true
  /\ _check_user_input (create_for_submodules env_lib) env_lib None
       [("lib", entry_hg)] world0
     = (Raise (FatalError (unknown_protocol_msg "lib" (PyStr "hg"))), world0).
Proof. repeat split; vm_compute; reflexivity. Qed.

(** C1, amended: when the full validation pipeline ([_check_data],
    [_check_optional], [_validate]) succeeds on an entry map, every entry
    whose protocol is not [externals_only] has exactly one of: tag present,
    branch present, hash present, [from_submodule] true; it has a
    [repo_url] unless [from_submodule] is true; and a [from_submodule] that
    is given is a boolean.  (The converse does not hold: the pipeline has
    other checks.)  In [_check_data], the first entry that does not pass,
    when its protocol is git, or svn with neither [hash] nor
    [from_submodule], aborts the pipeline with the over-specified fatal
    error if its count is above one (for a name without braces), with the
    under-specified fatal error if its count is zero, and with the
    under-specified "Must have repo_url" fatal error if its count is one,
    [repo_url] is absent and [from_submodule] is absent or false. *)
Theorem check_user_input_reference_rule (create : Config -> M Description) (env : Env)
    (parent_repo : option ParentRepo) (self : Description) :
  distinct (Dict.keys self) = true ->
  (forall w self' w',
     _check_user_input create env parent_repo self w = (Ok self', w') ->
     forall name ext,
       Dict.get name self = Some ext ->
       reference_rule ext /\ from_submodule_is_bool ext)
  /\ (forall done name ext rest w,
        self = done ++ (name, ext) :: rest ->
        is_ok (check_data_entries env done) = true ->
        reaches_count ext = true ->
        (1 < ref_count ext -> no_braces name = true ->
         exists found_refs,
           _check_user_input create env parent_repo self w
           = (Raise (FatalError (over_specified_text name (declares_from_submodule ext)
                                   found_refs)), w))
        /\ (ref_count ext = 0 ->
            _check_user_input create env parent_repo self w
            = (Raise (FatalError (under_specified_msg name)), w))
        /\ (ref_count ext = 1 -> repo_has REPO_URL ext = false ->
            from_submodule_true ext = false ->
            _check_user_input create env parent_repo self w
            = (Raise (FatalError (missing_url_msg name)), w))).
Proof.
  intros Hd. split.
  - intros w self' w' Hrun name ext Hget.
    eapply check_user_input_ok_entry; eassumption.
  - intros done name ext rest w -> Hdone Hreach. split; [| split].
    + intros Hcount Hname.
      destruct (check_data_entry_over_specified env name ext Hreach Hcount Hname)
        as [found Hfound].
      exists found. apply check_user_input_first_error; assumption.
    + intros Hcount. apply check_user_input_first_error; try assumption.
      apply check_data_entry_under_specified; assumption.
    + intros Hcount Hurl Hsub. apply check_user_input_first_error; try assumption.
      apply check_data_entry_missing_url; assumption.
Qed.

(** A description that passes, and one whose second entry gives a tag and
    a branch. *)
Lemma check_user_input_reference_rule_witness :
  (reference_rule entry_tag_only /\ from_submodule_is_bool entry_tag_only)
  /\ exists found_refs,
       _check_user_input (create_for_submodules env_lib) env_lib None
         [("ok", entry_tag_only); ("lib", entry_tag_branch)] world0
       = (Raise (FatalError (over_specified_text "lib" false found_refs)), world0).
Proof.
  split.
  - assert (Hrun : _check_user_input (create_for_submodules env_lib) env_lib None
                     [("ok", entry_tag_only)] world0
                   = (Ok [("ok", entry_tag_only_validated)], world0))
      by (vm_compute; reflexivity).
    exact (proj1 (check_user_input_reference_rule (create_for_submodules env_lib) env_lib
                    None [("ok", entry_tag_only)] eq_refl)
                 world0 _ world0 Hrun "ok" entry_tag_only eq_refl).
  - exact (proj1 (proj2 (check_user_input_reference_rule (create_for_submodules env_lib)
                           env_lib None
                           [("ok", entry_tag_only); ("lib", entry_tag_branch)] eq_refl)
                        [("ok", entry_tag_only)] "lib" entry_tag_branch [] world0
                        eq_refl eq_refl eq_refl)
                 ltac:(vm_compute; lia) eq_refl).
Defined.

(** ** The factory without a parent repository *)

Section NoParent.
Variables create1 create2 : Config -> M Description.
Variable env : Env.

Lemma check_optional_entry_no_parent (field : string) (ext : pyval)
    (submod_desc : option Description) (w : World) :
  check_optional_entry create1 env None field ext submod_desc w
  = check_optional_entry create2 env None field ext submod_desc w.
Proof.
  unfold check_optional_entry, bind, lift.
  destruct (fill_defaults ext) as [ext1 |]; [| reflexivity].
  destruct (Py.contains SUBMODULE ext1) as [[|] |]; reflexivity.
Qed.

Lemma check_optional_loop_no_parent (fields : list string) :
  forall self submod_desc w,
    check_optional_loop create1 env None fields self submod_desc w
    = check_optional_loop create2 env None fields self submod_desc w.
Proof.
  induction fields as [| field rest IH]; intros self sd w; [reflexivity |].
  cbn [check_optional_loop]. unfold bind, lift.
  destruct (desc_get self field) as [ext |]; [| reflexivity].
  rewrite check_optional_entry_no_parent.
  destruct (check_optional_entry create2 env None field ext sd w) as [[r | ex] w1];
    [apply IH | reflexivity].
Qed.

Lemma check_user_input_no_parent (self : Description) (w : World) :
  _check_user_input create1 env None self w = _check_user_input create2 env None self w.
Proof.
  unfold _check_user_input, _check_optional, bind, lift.
  destruct (_check_data env self) as [self1 |]; [| reflexivity].
  rewrite check_optional_loop_no_parent. reflexivity.
Qed.

(** Without a parent repository the factory never builds the description
    of a parent's submodules: the factory it is given for that is not
    used.  This is why [create_for_submodules] can be given one that only
    raises. *)
Lemma create_without_parent (data : ModelData) (components exclude : list string)
    (w : World) :
  create_externals_description_with create1 env data components exclude None w
  = create_externals_description_with create2 env data components exclude None w.
Proof.
  unfold create_externals_description_with, ExternalsDescriptionDict,
    ExternalsDescriptionConfigV1.
  destruct data as [cfg | d | fmt]; [| | reflexivity].
  - unfold bind, lift.
    destruct (get_cfg_schema_version cfg) as [[[ma mi] pa] |]; [| reflexivity].
    destruct (ma =? 1)%Z; [| reflexivity].
    destruct (_verify_schema_version _ _); [| reflexivity].
    destruct (_parse_cfg env (_remove_metadata cfg) components exclude); [| reflexivity].
    apply check_user_input_no_parent.
  - unfold bind, lift.
    destruct (_verify_schema_version _ _); [| reflexivity].
    apply check_user_input_no_parent.
Qed.

End NoParent.

(** * Properties of the rest of the module *)

(** ** [LstripReader] *)

Lemma take_all (s : string) (n : nat) : String.length s <= n -> PyStr.take n s = s.
Proof.
  revert n. induction s as [| c s IH]; intros [| n] H; cbn in *; try reflexivity; try lia.
  f_equal. apply IH. lia.
Qed.

Lemma lstrip_no_leading_space (line : string) : starts_with_space (lstrip line) = false.
Proof.
  unfold lstrip. induction line as [| c s IH]; [reflexivity |].
  cbn [PyStr.lstrip_by]. destruct (PyStr.is_space c) eqn:Hc; [exact IH |].
  cbn. exact Hc.
Qed.

Lemma lstrip_drops_spaces_only (line : string) :
  exists blanks, all_space blanks = true /\ line = blanks +:+ lstrip line.
Proof.
  unfold lstrip. induction line as [| c s IH].
  - exists "". split; reflexivity.
  - cbn [PyStr.lstrip_by]. destruct (PyStr.is_space c) eqn:Hc.
    + destruct IH as (b & Hb & Hs). exists (String c b). split.
      * cbn. rewrite Hc, Hb. reflexivity.
      * change (String c b +:+ PyStr.lstrip_by PyStr.is_space s)
          with (String c (b +:+ PyStr.lstrip_by PyStr.is_space s)).
        rewrite <- Hs. reflexivity.
    + exists "". split; reflexivity.
Qed.

Lemma skipn_nth_error (l : list string) (i : nat) (x : string) :
  nth_error l i = Some x -> skipn i l = x :: skipn (S i) l.
Proof.
  revert i. induction l as [| y l IH]; intros [| i]; cbn; try discriminate.
  - intros H. inversion H. reflexivity.
  - intros H. apply IH, H.
Qed.

(** From any position, [__next__] gives the lines that are left, in order,
    and then stops, with the index at the end. *)
Lemma next_until_stop_rest (fuel : nat) :
  forall self,
    reader_ok self ->
    _num_lines self - _index self <= fuel ->
    next_until_stop fuel self
    = (Ok (skipn (_index self) (_lines self)),
       mkReader (_lines self) (_num_lines self) (_num_lines self)).
Proof.
  induction fuel as [| fuel IH]; intros [lines num i] [Hnum Hi] Hfuel; cbn in *.
  - assert (i = num) by lia. subst i. rewrite Hnum, skipn_all. reflexivity.
  - unfold reader_next. cbn [_num_lines _index _lines].
    destruct (Nat.leb_spec num i) as [Hle | Hlt].
    + assert (i = num) by lia. subst i. rewrite Hnum, skipn_all. reflexivity.
    + replace (i + 1 - 1) with i by lia.
      destruct (nth_error lines i) as [line |] eqn:Hnth.
      * rewrite (IH (mkReader lines num (i + 1))); [| split; cbn; lia | cbn; lia].
        cbn [_lines _num_lines _index].
        rewrite (skipn_nth_error lines i line Hnth).
        replace (i + 1) with (S i) by lia. reflexivity.
      * apply nth_error_None in Hnth. lia.
Qed.

(** X1: iterating over a reader made from the lines of a file gives every
    line without its leading white space (and otherwise unchanged), in
    order, and then stops; no line given starts with white space; after the
    last line [__next__] stops again and [readline] returns the empty text,
    both leaving the reader where it is. *)
Theorem lstrip_reader_iteration (lines : list string) (fuel : nat) :
  length lines <= fuel ->
  let done := mkReader (map lstrip lines) (length lines) (length lines) in
  iterate fuel (LstripReader_init lines) = (Ok (map lstrip lines), done)
  /\ Forall (fun line => starts_with_space line = false) (map lstrip lines)
  /\ Forall2 (fun line stripped =>
               exists blanks, all_space blanks = true /\ line = blanks +:+ stripped)
       lines (map lstrip lines)
  /\ reader_next done = (Ok None, done)
  /\ (forall size, readline done size = (Ok "", done)).
Proof.
  intros Hfuel done. split; [| split; [| split; [| split]]].
  - unfold iterate, LstripReader_init, reader_iter. cbn [_lines _num_lines].
    rewrite next_until_stop_rest; cbn [_lines _num_lines _index].
    + reflexivity.
    + split; cbn; [symmetry; apply List.length_map | lia].
    + cbn. lia.
  - clear. induction lines as [| l lines IH]; cbn; constructor;
      [apply lstrip_no_leading_space | exact IH].
  - clear. induction lines as [| l lines IH]; cbn; constructor.
    + apply lstrip_drops_spaces_only.
    + exact IH.
  - unfold reader_next, done. cbn. rewrite Nat.leb_refl. reflexivity.
  - intros size. unfold readline, reader_next, done. cbn. rewrite Nat.leb_refl.
    cbn [String.length]. destruct (0 <? size)%Z; cbn [andb]; [| reflexivity].
    destruct (Z.of_nat 0 <? size)%Z; [| reflexivity].
    destruct (Z.to_nat size); reflexivity.
Qed.

Lemma lstrip_reader_iteration_witness :
  iterate 3 (LstripReader_init ["[submodule lib]"; "    path = src/lib"; "  url = u"])
  = (Ok ["[submodule lib]"; "path = src/lib"; "url = u"],
     mkReader ["[submodule lib]"; "path = src/lib"; "url = u"] 3 3).
Proof.
  exact (proj1 (lstrip_reader_iteration
                  ["[submodule lib]"; "    path = src/lib"; "  url = u"] 3
                  (le_n 3))).
Defined.

(** X2: [readline] never cuts a line: whatever [size] is given, the
    result and the reader are those of [readline()] with the default. *)
Theorem readline_ignores_size (self : LstripReader) (size : Z) :
  readline self size = readline self (-1).
Proof.
  unfold readline. destruct (reader_next self) as [[next_line | e] self']; [| reflexivity].
  cbn [Z.ltb Z.compare andb].
  destruct (0 <? size)%Z eqn:Hpos; cbn [andb]; [| reflexivity].
  destruct (Z.ltb_spec (Z.of_nat
              (String.length match next_line with Some l => l | None => "" end)) size)
    as [Hlt | Hge]; [| reflexivity].
  rewrite take_all by lia. reflexivity.
Qed.

(** ** [read_externals_description_file] *)

(** X3: reading a description file never changes the working directory and
    never warns when the file is not the submodules file; whether the file
    is there is asked for [file_name] seen from the working directory, not
    for the path under [root_dir] that is then parsed; a missing file is a
    fatal error (the internal-error wording when the name is [none] in any
    case), and a file without section headers is the fatal error of an
    unknown format.  For the submodules file the result is that of
    [read_gitmodules_file] on the absolute [root_dir]. *)
Theorem read_externals_description_file_cases (env : Env)
    (read_cfg : string -> string -> result (option Config))
    (root_dir file_name : string) (w : World) :
  let file_path := path_join (abspath env (cwd w) root_dir) file_name in
  (path_exists env (cwd w) file_name = false ->
   read_externals_description_file env read_cfg root_dir file_name w
   = (Raise (FatalError (if String.eqb (PyStr.lower file_name) "none"
                         then not_configured_msg file_path
                         else no_description_file_msg file_name file_path)), w))
  /\ (path_exists env (cwd w) file_name = true ->
      file_name <> GIT_SUBMODULES_FILENAME ->
      read_externals_description_file env read_cfg root_dir file_name w
      = (match read_cfg (cwd w) file_path with
         | Ok (Some cfg) => Ok cfg
         | Ok None => Raise (FatalError "Unknown file format!")
         | Raise e => Raise e
         end, w))
  /\ (path_exists env (cwd w) file_name = true ->
      file_name = GIT_SUBMODULES_FILENAME ->
      read_externals_description_file env read_cfg root_dir file_name w
      = read_gitmodules_file env (abspath env (cwd w) root_dir) file_name w).
Proof.
  intros file_path. unfold read_externals_description_file, bind, getcwd, lift, ret.
  split; [| split].
  - intros Hex. rewrite Hex. cbn. reflexivity.
  - intros Hex Hne. rewrite Hex. cbn.
    apply String.eqb_neq in Hne. rewrite Hne.
    fold file_path. destruct (read_cfg (cwd w) file_path) as [[cfg |] | e]; reflexivity.
  - intros Hex ->. rewrite Hex. cbn [negb fatal_when]. rewrite String.eqb_refl.
    destruct (read_gitmodules_file env (abspath env (cwd w) root_dir)
                GIT_SUBMODULES_FILENAME w) as [[cfg | e] w']; reflexivity.
Qed.

Lemma read_externals_description_file_cases_witness :
  read_externals_description_file env_cfg_only read_cfg_versioned "/r" "none" world0
  = (Raise (FatalError (not_configured_msg "/r/none")), world0).
Proof.
  exact (proj1 (read_externals_description_file_cases env_cfg_only read_cfg_versioned
                  "/r" "none" world0) eq_refl).
Defined.

(** ** [git_submodule_status] *)

Lemma parse_status_lines_result (lines : list string)
    (m : gmap string SubmoduleStatus) :
  (exists m', parse_status_lines lines m = Ok m')
  \/ parse_status_lines lines m = Raise IndexError.
Proof.
  revert m. induction lines as [| l lines IH]; intros m; cbn.
  - left. eexists. reflexivity.
  - destruct (parse_status_line l m) as [m1 | e] eqn:Hl; cbn [rbind].
    + apply IH.
    + right. f_equal. unfold parse_status_line in Hl.
      destruct l as [| status rest]; [discriminate Hl |].
      destruct (nth_error (PyStr.split " " rest) 0) as [h |];
        [| inversion Hl; reflexivity].
      destruct (nth_error (PyStr.split " " rest) 1) as [name |];
        inversion Hl; reflexivity.
Qed.

(** X4: when the status query enters [repo_dir], reaching [dir], and the
    way back from there leads to where it started, then a query that
    succeeds leaves the world as it found it, and a query that fails, by
    the command or by a line without a name, leaves the process in [dir];
    it never warns; and the only exceptions are those of the command and
    [IndexError]. *)
Theorem git_submodule_status_world (env : Env) (repo_dir dir : string) (w : World) :
  chdir_target env (cwd w) repo_dir = Some dir ->
  chdir_target env dir (cwd w) = Some (cwd w) ->
  let r := git_submodule_status env repo_dir w in
  (is_ok (fst r) = true -> snd r = w)
  /\ (is_ok (fst r) = false -> snd r = mkWorld dir (warnings w))
  /\ (forall e, fst r = Raise e ->
        execute_subprocess env dir status_cmd = Raise e \/ e = IndexError).
Proof.
  intros Hin Hback r. subst r.
  unfold git_submodule_status, bind, getcwd, chdir, lift, ret.
  rewrite Hin. cbn [cwd warnings].
  change ["git"; "submodule"; "status"] with status_cmd.
  destruct (execute_subprocess env dir status_cmd) as [git_output | e0] eqn:Hcmd.
  - destruct (parse_status_lines_result (PyStr.split "010"%char git_output) ∅)
      as [[m Hm] | Hm]; rewrite Hm.
    + rewrite Hback. cbn. destruct w as [c ws]. cbn.
      split; [reflexivity |]. split; [discriminate |]. intros e He. discriminate He.
    + cbn. split; [discriminate |]. split; [reflexivity |].
      intros e He. inversion He. right. reflexivity.
  - cbn. split; [discriminate |]. split; [reflexivity |].
    intros e He. inversion He. left. reflexivity.
Qed.

Lemma git_submodule_status_world_witness :
  cwd (snd (git_submodule_status env_git_fails "/repo" world0)) = "/repo".
Proof.
  exact (f_equal cwd
           (proj1 (proj2 (git_submodule_status_world env_git_fails "/repo" "/repo" world0
                            eq_refl eq_refl)) eq_refl)).
Defined.

(** ** The lines of [git submodule status] *)

Lemma string_app_assoc (a b c : string) : (a +:+ b) +:+ c = a +:+ (b +:+ c).
Proof.
  induction a as [| x a IH]; [reflexivity |].
  change (String x ((a +:+ b) +:+ c) = String x (a +:+ (b +:+ c))). rewrite IH. reflexivity.
Qed.

Lemma string_app_empty (a : string) : a +:+ "" = a.
Proof.
  induction a as [| x a IH]; [reflexivity |].
  change (String x (a +:+ "") = String x a). rewrite IH. reflexivity.
Qed.

Lemma rev_app_append (s : string) :
  forall acc a, String.rev_app s acc +:+ a = String.rev_app s (acc +:+ a).
Proof.
  induction s as [| x s IH]; intros acc a; [reflexivity |].
  cbn [String.rev_app]. rewrite IH. reflexivity.
Qed.

Lemma split_go_sep (p : ascii -> bool) (a : string) (c : ascii) (rest : string) :
  forall cur,
    free_of p a = true -> p c = true ->
    PyStr.split_go p cur (a +:+ String c rest)
    = (String.rev cur +:+ a) :: PyStr.split_go p EmptyString rest.
Proof.
  induction a as [| x a IH]; intros cur Hfree Hc.
  - change ("" +:+ String c rest) with (String c rest). cbn [PyStr.split_go].
    rewrite Hc, string_app_empty. reflexivity.
  - cbn in Hfree. apply andb_true_iff in Hfree as [Hx Hfree].
    apply negb_true_iff in Hx.
    change (String x a +:+ String c rest) with (String x (a +:+ String c rest)).
    cbn [PyStr.split_go]. rewrite Hx, IH by assumption.
    unfold String.rev. cbn [String.rev_app]. rewrite !rev_app_append. reflexivity.
Qed.

Lemma split_go_free (p : ascii -> bool) (a : string) :
  forall cur,
    free_of p a = true -> PyStr.split_go p cur a = [String.rev cur +:+ a].
Proof.
  induction a as [| x a IH]; intros cur Hfree.
  - cbn. rewrite string_app_empty. reflexivity.
  - cbn in Hfree. apply andb_true_iff in Hfree as [Hx Hfree].
    apply negb_true_iff in Hx. cbn [PyStr.split_go]. rewrite Hx, IH by assumption.
    unfold String.rev. cbn [String.rev_app]. rewrite !rev_app_append. reflexivity.
Qed.

(** X5: a line of the status output that is a flag character, a hash, a
    blank and a name, with or without a further blank and a description,
    is recorded under the name with the hash, the flag and the description
    (or none); the hash, the name and the description have no blanks.  An
    earlier record of the same name is replaced, others are kept. *)
Theorem parse_status_line_fields (status : ascii) (hash name : string)
    (submodules : gmap string SubmoduleStatus) :
  free_of is_blank hash = true ->
  free_of is_blank name = true ->
  parse_status_line (String status (hash +:+ " " +:+ name)) submodules
  = Ok (<[name := mkStatus hash (String status EmptyString) None]> submodules)
  /\ (forall tag,
        free_of is_blank tag = true ->
        exists submodules',
          parse_status_line (String status (hash +:+ " " +:+ name +:+ " " +:+ tag))
            submodules = Ok submodules'
          /\ submodules' !! name
             = Some (mkStatus hash (String status EmptyString) (Some tag))
          /\ forall other, other <> name -> submodules' !! other = submodules !! other).
Proof.
  intros Hhash Hname. unfold parse_status_line, PyStr.split, PyStr.split_by. split.
  - change (hash +:+ " " +:+ name) with (hash +:+ String " " name).
    rewrite (split_go_sep (Ascii.eqb " ") hash " " name "" Hhash eq_refl).
    rewrite (split_go_free (Ascii.eqb " ") name "" Hname). reflexivity.
  - intros tag Htag.
    change (hash +:+ " " +:+ name +:+ " " +:+ tag)
      with (hash +:+ String " " (name +:+ String " " tag)).
    rewrite (split_go_sep (Ascii.eqb " ") hash " " _ "" Hhash eq_refl).
    rewrite (split_go_sep (Ascii.eqb " ") name " " tag "" Hname eq_refl).
    rewrite (split_go_free (Ascii.eqb " ") tag "" Htag). cbn.
    eexists. split; [reflexivity |]. split.
    + apply lookup_insert_eq.
    + intros other Hne. apply lookup_insert_ne. intros E. apply Hne. symmetry. exact E.
Qed.

Lemma parse_status_line_fields_witness :
  parse_status_line "+abc123 src/lib" ∅
  = Ok (<["src/lib" := mkStatus "abc123" "+" None]> ∅).
Proof.
  exact (proj1 (parse_status_line_fields "+" "abc123" "src/lib" ∅ eq_refl eq_refl)).
Defined.

(** ** The shape of what [read_gitmodules_file] returns *)

Section DictMore.
Context {A : Type}.

Lemma dict_get_app_skip (k : string) (d1 d2 : list (string * A)) :
  Dict.get k d1 = None -> Dict.get k (d1 ++ d2) = Dict.get k d2.
Proof.
  induction d1 as [| [k' v'] d1 IH]; simpl; [reflexivity |].
  destruct (String.eqb k k'); [discriminate |]. exact IH.
Qed.

Lemma dict_set_app_skip (k : string) (v : A) (d1 d2 : list (string * A)) :
  Dict.get k d1 = None -> Dict.set k v (d1 ++ d2) = d1 ++ Dict.set k v d2.
Proof.
  induction d1 as [| [k' v'] d1 IH]; simpl; [reflexivity |].
  destruct (String.eqb k k'); [discriminate |]. intros H. rewrite (IH H). reflexivity.
Qed.

End DictMore.

Lemma cfg_set_last (name option_name value : string) (ed : Config)
    (opts : list (string * string)) :
  name <> "" -> name <> Cfg.DEFAULTSECT ->
  Dict.mem name ed = false ->
  Cfg.set name option_name value (ed ++ [(name, opts)])
  = if Cfg.set_accepts value
    then Ok (ed ++ [(name, Dict.set (PyStr.lower option_name) value opts)])
    else Raise ValueError.
Proof.
  intros Hne Hnd Hmem. apply dict_mem_false in Hmem.
  rewrite (cfg_set_named name option_name value _ opts Hne Hnd).
  - rewrite (dict_set_app_skip _ _ _ _ Hmem). cbn [Dict.set].
    rewrite String.eqb_refl. reflexivity.
  - rewrite (dict_get_app_skip _ _ _ Hmem). cbn [Dict.get].
    rewrite String.eqb_refl. reflexivity.
Qed.

Lemma distinct_snoc (l : list string) (x : string) :
  distinct (l ++ [x]) = distinct l && negb (str_mem x l).
Proof.
  induction l as [| y l IH]; cbn; [reflexivity |].
  rewrite IH. unfold str_mem. rewrite existsb_app. cbn.
  rewrite (String.eqb_sym x y).
  destruct (String.eqb y x), (existsb (String.eqb y) l), (distinct l),
    (existsb (String.eqb x) l); reflexivity.
Qed.

Lemma str_mem_keys {A : Type} (k : string) (d : list (string * A)) :
  str_mem k (Dict.keys d) = Dict.mem k d.
Proof.
  unfold str_mem, Dict.mem. induction d as [| [k' v] d IH]; cbn; [reflexivity |].
  destruct (String.eqb k k'); [reflexivity | exact IH].
Qed.

Lemma keys_snoc {A : Type} (d : list (string * A)) (k : string) (v : A) :
  Dict.keys (d ++ [(k, v)]) = Dict.keys d ++ [k].
Proof. unfold Dict.keys. rewrite map_app. reflexivity. Qed.

(** One step of the converter: a section that is not a submodule section
    is skipped; another one, when it has a name, adds one section at the
    end, under a name that was not there, with the five options in their
    order. *)
Lemma convert_submodule_section_shape (sd : Config)
    (submods : gmap string SubmoduleStatus) (file_path section : string)
    (ed ed' : Config) (w w' : World) :
  convert_submodule_section sd submods file_path section ed w = (Ok ed', w') ->
  if is_submodule_section section then
    sec_name_of section <> Cfg.DEFAULTSECT
    /\ Dict.mem (sec_name_of section) ed = false
    /\ (sec_name_of section <> "" ->
        exists path url hash,
          ed' = ed ++ [(sec_name_of section, converted_section path url hash)])
  else ed' = ed.
Proof.
  unfold convert_submodule_section, is_submodule_section.
  destruct (String.eqb (PyStr.take 9 section) "submodule");
    [| intros H; inversion H; reflexivity].
  unfold bind, lift, Cfg.add_section.
  destruct (String.eqb_spec (sec_name_of section) Cfg.DEFAULTSECT) as [| Hnd];
    [discriminate |].
  destruct (Dict.mem (sec_name_of section) ed) eqn:Hmem; [discriminate |].
  destruct (Cfg.items section sd) as [section_items | e]; [| discriminate].
  unfold parse_submodules_desc_section. rewrite parse_submodules_desc_loop_spec.
  destruct (last_value "path" section_items None) as [path |]; [| discriminate].
  destruct (last_value "url" section_items None) as [url |]; [| discriminate].
  intros Hrun. split; [exact Hnd |]. split; [reflexivity |]. intros Hne.
  revert Hrun.
  rewrite (cfg_set_last _ _ _ _ _ Hne Hnd Hmem).
  destruct (Cfg.set_accepts path); [| discriminate]. cbn [rbind].
  rewrite (cfg_set_last _ _ _ _ _ Hne Hnd Hmem).
  destruct (Cfg.set_accepts "git"); [| discriminate]. cbn [rbind].
  rewrite (cfg_set_last _ _ _ _ _ Hne Hnd Hmem).
  destruct (Cfg.set_accepts url); [| discriminate]. cbn [rbind].
  rewrite (cfg_set_last _ _ _ _ _ Hne Hnd Hmem).
  destruct (Cfg.set_accepts "True"); [| discriminate]. cbn [rbind].
  rewrite attach_submodule_hash_cases.
  assert (Hset : forall st ed6,
             Cfg.set (sec_name_of section) HASH (sm_hash st)
               (ed ++ [(sec_name_of section,
                        Dict.set (PyStr.lower REQUIRED) "True"
                          (Dict.set (PyStr.lower REPO_URL) url
                             (Dict.set (PyStr.lower PROTOCOL) "git"
                                (Dict.set (PyStr.lower PATH) path []))))])
             = Ok ed6 ->
             ed6 = ed ++ [(sec_name_of section,
                           converted_section path url (sm_hash st))]).
  { intros st ed6. rewrite (cfg_set_last _ _ _ _ _ Hne Hnd Hmem).
    destruct (Cfg.set_accepts (sm_hash st)); [| discriminate].
    intros H. inversion H. reflexivity. }
  destruct (submods !! sec_name_of section) as [st |].
  - intros H. exists path, url, (sm_hash st). apply Hset.
    destruct (Cfg.set _ _ _ _); inversion H. reflexivity.
  - destruct (submods !! path) as [st |]; [| discriminate].
    intros H. exists path, url, (sm_hash st). apply Hset.
    destruct (Cfg.set _ _ _ _); inversion H. reflexivity.
Qed.

Lemma convert_submodule_sections_shape (sd : Config)
    (submods : gmap string SubmoduleStatus) (file_path : string)
    (sections : list string) :
  (forall section, In section sections -> is_submodule_section section = true ->
                   sec_name_of section <> "") ->
  forall ed ed' w w',
    convert_submodule_sections sd submods file_path sections ed w = (Ok ed', w') ->
    exists new,
      ed' = ed ++ new
      /\ Dict.keys new = map sec_name_of (List.filter is_submodule_section sections)
      /\ Forall is_converted_section new
      /\ Forall (fun name => name <> Cfg.DEFAULTSECT) (Dict.keys new)
      /\ (distinct (Dict.keys ed) = true -> distinct (Dict.keys ed') = true).
Proof.
  induction sections as [| section rest IH]; intros Hnames ed ed' w w';
    cbn [convert_submodule_sections List.filter].
  - intros H. inversion H. exists []. rewrite app_nil_r.
    split; [reflexivity |]. split; [reflexivity |]. split; [constructor |].
    split; [constructor | tauto].
  - unfold bind at 1.
    destruct (convert_submodule_section sd submods file_path section ed w)
      as [[ed1 | e] w1] eqn:Hstep; [| discriminate].
    intros Hrest.
    apply IH in Hrest as (new & -> & Hkeys & Hall & Hnd & Hdist);
      [| intros s Hs; apply Hnames; right; exact Hs].
    apply convert_submodule_section_shape in Hstep.
    pose proof (Hnames section (or_introl eq_refl)) as Hname.
    destruct (is_submodule_section section).
    + destruct Hstep as (Hnd0 & Hmem & Hshape).
      destruct (Hshape (Hname eq_refl)) as (path & url & hash & ->).
      exists ((sec_name_of section, converted_section path url hash) :: new).
      rewrite <- app_assoc. split; [reflexivity |]. split; [| split; [| split]].
      * cbn [map Dict.keys fst]. fold (Dict.keys new). rewrite Hkeys. reflexivity.
      * constructor; [| exact Hall]. exists path, url, hash. reflexivity.
      * constructor; [exact Hnd0 | exact Hnd].
      * intros Hed. rewrite <- app_assoc in Hdist. apply Hdist.
        rewrite keys_snoc, distinct_snoc, Hed, str_mem_keys, Hmem. reflexivity.
    + subst ed1. exists new. split; [reflexivity |]. split; [exact Hkeys |].
      split; [exact Hall |]. split; [exact Hnd | exact Hdist].
Qed.

Lemma sections_all (names : list string) :
  Forall (fun name => name <> Cfg.DEFAULTSECT) names ->
  List.filter (fun name => negb (String.eqb name Cfg.DEFAULTSECT)) names = names.
Proof.
  induction 1 as [| name names Hname _ IH]; [reflexivity |].
  cbn [List.filter]. apply String.eqb_neq in Hname. rewrite Hname, IH. reflexivity.
Qed.

(** The version that is read from a document closed as the converter
    closes it. *)
Lemma converted_version (ed ed1 cfg : Config) :
  Cfg.add_section DESCRIPTION_SECTION ed = Ok ed1 ->
  Cfg.set DESCRIPTION_SECTION VERSION_ITEM "1.0.0" ed1 = Ok cfg ->
  get_cfg_schema_version cfg = Ok (1, 0, 0)%Z.
Proof.
  intros Hadd Hset.
  destruct (cfg_set_ready DESCRIPTION_SECTION VERSION_ITEM "1.0.0" ed1
              (add_section_ready _ _ _ Hadd))
    as [[_ E] | (_ & cfg' & E & _ & Hraw)]; rewrite E in Hset; inversion Hset; subst cfg'.
  unfold get_cfg_schema_version, Cfg.get. unfold Cfg.get_raw in Hraw.
  destruct (Cfg.unify_values DESCRIPTION_SECTION cfg) as [d | e]; [| discriminate Hraw].
  cbn [rbind] in *.
  destruct (Dict.get (PyStr.lower VERSION_ITEM) d) as [v |]; inversion Hraw; subst v.
  change (Cfg.before_get d "1.0.0") with (@Ok string "1.0.0").
  reflexivity.
Qed.

(** X6: whatever [read_gitmodules_file] returns reads as schema version
    1.0.0; and, every section of the submodules file whose name starts
    with [submodule] having a name after that word, it is a document of
    this shape: one section for each of those sections, in the order of
    the file and under distinct names, each with exactly the options
    [local_path], [protocol = git], [repo_url], [required = True] and
    [hash], followed by the section [externals_description] with
    [schema_version = 1.0.0].  (The options of a section without a name
    are given to the defaults, see [nameless_submodule_example].) *)
Theorem read_gitmodules_file_shape (env : Env) (root_dir file_name : string)
    (w w' : World) (cfg : Config) :
  read_gitmodules_file env root_dir file_name w = (Ok cfg, w') ->
  exists manifest,
    read_lstripped env (cwd w) (path_join (abspath env (cwd w) root_dir) file_name)
    = Ok (Some manifest)
    /\ get_cfg_schema_version cfg = Ok (1, 0, 0)%Z
    /\ ((forall section,
           In section (Cfg.sections manifest) ->
           is_submodule_section section = true -> sec_name_of section <> "") ->
        exists converted,
          cfg = converted ++ [version_section]
          /\ Dict.keys converted
             = map sec_name_of
                 (List.filter is_submodule_section (Cfg.sections manifest))
          /\ Forall is_converted_section converted
          /\ distinct (Cfg.sections cfg) = true).
Proof.
  unfold read_gitmodules_file, bind, getcwd, lift.
  destruct (fatal_when _ _) as [[] | e]; [| discriminate].
  destruct (read_lstripped env (cwd w) _) as [[manifest |] | e]; [| discriminate ..].
  destruct (git_submodule_status env (abspath env (cwd w) root_dir) w)
    as [[submods | e] w1]; [| discriminate].
  destruct (convert_submodule_sections manifest submods _ (Cfg.sections manifest) [] w1)
    as [[ed | e] w2] eqn:Hloop; [| discriminate].
  destruct (Cfg.add_section DESCRIPTION_SECTION ed) as [ed1 | e] eqn:Hadd;
    [| discriminate].
  cbn [rbind].
  destruct (Cfg.set DESCRIPTION_SECTION VERSION_ITEM "1.0.0" ed1) as [cfg' | e] eqn:Hset;
    [| discriminate].
  intros H. inversion H. subst w' cfg'. clear H.
  exists manifest. split; [reflexivity |].
  split; [exact (converted_version ed ed1 cfg Hadd Hset) |].
  intros Hnames.
  apply (convert_submodule_sections_shape _ _ _ _ Hnames) in Hloop
    as (converted & -> & Hkeys & Hall & Hnd & Hdist).
  cbn [app] in *.
  apply cfg_add_section_ok in Hadd as (Hnd1 & Hmem & ->).
  assert (Hne1 : DESCRIPTION_SECTION <> "") by discriminate.
  rewrite (cfg_set_last _ _ _ _ _ Hne1 Hnd1 Hmem) in Hset.
  change (Cfg.set_accepts "1.0.0") with true in Hset. inversion Hset. subst cfg.
  exists converted. split; [reflexivity |]. split; [exact Hkeys |].
  split; [exact Hall |].
  unfold Cfg.sections, version_section. rewrite keys_snoc.
  rewrite sections_all.
  - rewrite distinct_snoc, (Hdist eq_refl), str_mem_keys, Hmem. reflexivity.
  - apply Forall_app. split; [exact Hnd |]. constructor; [exact Hnd1 | constructor].
Qed.

Lemma read_gitmodules_file_shape_witness :
  exists manifest,
    read_lstripped env_lib (cwd world0) (path_join (abspath env_lib (cwd world0) "/r")
                                           ".gitmodules")
    = Ok (Some manifest)
    /\ get_cfg_schema_version document_lib = Ok (1, 0, 0)%Z
    /\ ((forall section,
           In section (Cfg.sections manifest) ->
           is_submodule_section section = true -> sec_name_of section <> "") ->
        exists converted,
          document_lib = converted ++ [version_section]
          /\ Dict.keys converted
             = map sec_name_of
                 (List.filter is_submodule_section (Cfg.sections manifest))
          /\ Forall is_converted_section converted
          /\ distinct (Cfg.sections document_lib) = true).
Proof.
  exact (read_gitmodules_file_shape env_lib "/r" ".gitmodules" world0 world0
           document_lib eq_refl).
Defined.

(** A section called [submodule] and nothing more has the empty name:
    [add_section] makes a section of that name, and [set], for which an
    empty name means the defaults, gives its five options to the defaults,
    where every other section of the document sees them. *)
Example nameless_submodule_example :
  convert_submodule_section [("submodule", [("path", "src/lib"); ("url", "u")])]
    status_by_path "/r/.gitmodules" "submodule" [] world0
  = (Ok [("", []); (Cfg.DEFAULTSECT, converted_section "src/lib" "u" "abc123")], world0).
Proof. reflexivity. Qed.

(** X7: how the converter fails on one submodule section: a name that an
    earlier section already gave (the names are compared without the
    blanks and double quotes around them) raises [DuplicateSectionError],
    which is not a fatal error, and leaves the world as it is; a section
    without [path] is the fatal error of a missing path, one with [path]
    and without [url] that of a missing url, both after the warnings for
    the unknown keys of the section. *)
Theorem convert_submodule_section_errors (sd : Config)
    (submods : gmap string SubmoduleStatus) (file_path section : string)
    (ed : Config) (w : World) :
  is_submodule_section section = true ->
  sec_name_of section <> "DEFAULT" ->
  (Dict.mem (sec_name_of section) ed = true ->
   convert_submodule_section sd submods file_path section ed w
   = (Raise (DuplicateSectionError (sec_name_of section)), w))
  /\ (forall section_items,
        Dict.mem (sec_name_of section) ed = false ->
        Cfg.items section sd = Ok section_items ->
        (last_value "path" section_items None = None ->
         convert_submodule_section sd submods file_path section ed w
         = (Raise (FatalError ("Submodule " +:+ sec_name_of section +:+ " missing path")),
            warned file_path section_items w))
        /\ (last_value "path" section_items None <> None ->
            last_value "url" section_items None = None ->
            convert_submodule_section sd submods file_path section ed w
            = (Raise (FatalError ("Submodule " +:+ sec_name_of section +:+ " missing url")),
               warned file_path section_items w))).
Proof.
  intros Hsec Hdefault. unfold convert_submodule_section.
  unfold is_submodule_section in Hsec. rewrite Hsec.
  apply String.eqb_neq in Hdefault.
  unfold bind, lift, Cfg.add_section, Cfg.DEFAULTSECT. rewrite Hdefault. split.
  - intros Hmem. rewrite Hmem. reflexivity.
  - intros section_items Hmem Hitems. rewrite Hmem, Hitems.
    unfold parse_submodules_desc_section. rewrite parse_submodules_desc_loop_spec.
    fold (warned file_path section_items w). split.
    + intros Hpath. rewrite Hpath. reflexivity.
    + intros Hpath Hurl. rewrite Hurl.
      destruct (last_value "path" section_items None); [reflexivity | congruence].
Qed.

Lemma convert_submodule_section_errors_witness :
  convert_submodule_section manifest_twice status_lib "/r/.gitmodules" "submodule lib"
    [("lib", converted_section "src/lib" "https://x/lib.git" "abc123")] world0
  = (Raise (DuplicateSectionError "lib"), world0).
Proof.
  exact (proj1 (convert_submodule_section_errors manifest_twice status_lib "/r/.gitmodules"
                  "submodule lib"
                  [("lib", converted_section "src/lib" "https://x/lib.git" "abc123")]
                  world0 eq_refl ltac:(discriminate)) eq_refl).
Defined.

(** ** [get_cfg_schema_version] *)

Lemma free_of_rev_app (q : ascii -> bool) (s : string) :
  forall acc, free_of q (String.rev_app s acc) = free_of q s && free_of q acc.
Proof.
  induction s as [| c s IH]; intros acc; cbn; [reflexivity |].
  rewrite IH. cbn. destruct (q c), (free_of q s), (free_of q acc); reflexivity.
Qed.

Lemma free_of_rev (q : ascii -> bool) (s : string) :
  free_of q (String.rev s) = free_of q s.
Proof. unfold String.rev. rewrite free_of_rev_app. cbn. apply andb_true_r. Qed.

(** The pieces of a split have none of the separators. *)
Lemma split_go_pieces_free (p : ascii -> bool) (s : string) :
  forall cur,
    free_of p cur = true ->
    List.Forall (fun piece => free_of p piece = true) (PyStr.split_go p cur s).
Proof.
  induction s as [| c s IH]; intros cur Hcur; cbn.
  - constructor; [| constructor]. rewrite free_of_rev. exact Hcur.
  - destruct (p c) eqn:Hc.
    + constructor; [rewrite free_of_rev; exact Hcur | apply IH; reflexivity].
    + apply IH. cbn. rewrite Hc, Hcur. reflexivity.
Qed.

(** The pieces of a text without the characters [q] have none either. *)
Lemma split_go_keeps_free (p q : ascii -> bool) (s : string) :
  forall cur,
    free_of q cur = true -> free_of q s = true ->
    List.Forall (fun piece => free_of q piece = true) (PyStr.split_go p cur s).
Proof.
  induction s as [| c s IH]; intros cur Hcur Hs; cbn.
  - constructor; [| constructor]. rewrite free_of_rev. exact Hcur.
  - cbn in Hs. apply andb_true_iff in Hs as [Hc Hs]. destruct (p c).
    + constructor; [rewrite free_of_rev; exact Hcur | apply IH; [reflexivity | exact Hs]].
    + apply IH; [| exact Hs]. cbn. rewrite Hc, Hcur. reflexivity.
Qed.

Lemma free_of_lstrip (p q : ascii -> bool) (s : string) :
  free_of q s = true -> free_of q (PyStr.lstrip_by p s) = true.
Proof.
  induction s as [| c s IH]; cbn; [reflexivity |].
  intros H. destruct (p c); [| exact H].
  apply andb_true_iff in H as [_ H]. apply IH, H.
Qed.

Lemma free_of_rstrip (p q : ascii -> bool) (s : string) :
  free_of q s = true -> free_of q (PyStr.rstrip_by p s) = true.
Proof.
  induction s as [| c s IH]; cbn; [reflexivity |].
  intros H. apply andb_true_iff in H as [Hc H]. specialize (IH H).
  destruct (PyStr.rstrip_by p s) as [| c' t].
  - destruct (p c); cbn; [reflexivity | rewrite Hc; reflexivity].
  - cbn [free_of]. rewrite Hc. exact IH.
Qed.

Lemma free_of_strip (q : ascii -> bool) (s : string) :
  free_of q s = true -> free_of q (PyStr.strip s) = true.
Proof.
  intros H. unfold PyStr.strip, PyStr.strip_by. apply free_of_rstrip, free_of_lstrip, H.
Qed.

Lemma digit_of_nonneg (c : ascii) (d : Z) : PyStr.digit_of c = Some d -> (0 <= d)%Z.
Proof.
  unfold PyStr.digit_of. destruct (_ && _); [| discriminate].
  intros H. inversion H. lia.
Qed.

Lemma digits_val_nonneg (s : string) :
  forall acc after_digit z,
    (0 <= acc)%Z -> PyStr.digits_val s acc after_digit = Some z -> (0 <= z)%Z.
Proof.
  induction s as [| c s IH]; intros acc after_digit z Hacc; cbn.
  - destruct after_digit; [| discriminate]. intros H. inversion H. subst. exact Hacc.
  - destruct (PyStr.digit_of c) as [d |] eqn:Hd.
    + apply digit_of_nonneg in Hd. apply IH. lia.
    + destruct (Ascii.eqb c "_" && after_digit); [| discriminate]. apply IH, Hacc.
Qed.

(** A text without a sign is never read as a negative number. *)
Lemma int_nonneg (s : string) (z : Z) :
  free_of is_dash_or_plus s = true -> PyStr.int s = Some z -> (0 <= z)%Z.
Proof.
  intros Hfree. apply free_of_strip in Hfree. unfold PyStr.int.
  destruct (PyStr.strip s) as [| c t]; [apply digits_val_nonneg; lia |].
  cbn [free_of] in Hfree. apply andb_true_iff in Hfree as [Hc _].
  destruct c as [[] [] [] [] [] [] [] []]; try discriminate Hc;
    apply digits_val_nonneg; lia.
Qed.

Lemma version_component_cases (version : list string) (i : nat) :
  (exists z, version_component version i = Ok z)
  \/ version_component version i = Raise IndexError
  \/ version_component version i = Raise ValueError.
Proof.
  unfold version_component. destruct (nth_error version i) as [s |];
    [| right; left; reflexivity].
  destruct (PyStr.int (PyStr.strip s)) as [z |]; [| right; right; reflexivity].
  left. exists z. reflexivity.
Qed.

Lemma version_component_nonneg (version_str : string) (i : nat) (z : Z) :
  free_of is_dash_or_plus version_str = true ->
  version_component (PyStr.split VERSION_SEPERATOR version_str) i = Ok z -> (0 <= z)%Z.
Proof.
  intros Hfree. unfold version_component.
  destruct (nth_error _ i) as [s |] eqn:Hnth; [| discriminate].
  destruct (PyStr.int (PyStr.strip s)) as [z' |] eqn:Hint; [| discriminate].
  intros H. inversion H. subst z'. apply (int_nonneg (PyStr.strip s)); [| exact Hint].
  apply free_of_strip. apply nth_error_In in Hnth.
  pose proof (split_go_keeps_free (Ascii.eqb VERSION_SEPERATOR) is_dash_or_plus
                version_str "" eq_refl Hfree) as Hall.
  rewrite List.Forall_forall in Hall. apply Hall, Hnth.
Qed.

Lemma interpolate_loop_errors (deeper : string -> string -> result string)
    (map : list (string * string)) :
  (forall v accum e, deeper v accum = Raise e -> is_interpolation_error e = true) ->
  forall rest st accum e,
    Cfg.interpolate_loop deeper map st rest accum = Raise e ->
    is_interpolation_error e = true.
Proof.
  intros Hdeeper. induction rest as [| c rest IH]; intros st accum e.
  - destruct st; cbn; intros H; inversion H; reflexivity.
  - destruct st as [| | acc | name]; cbn [Cfg.interpolate_loop].
    + destruct (Ascii.eqb c "%"); apply IH.
    + destruct (Ascii.eqb c "%"); [apply IH |].
      destruct (Ascii.eqb c "("); [apply IH |]. intros H; inversion H; reflexivity.
    + destruct (Ascii.eqb c ")"); [| apply IH].
      destruct acc; [intros H; inversion H; reflexivity | apply IH].
    + destruct (Ascii.eqb c "s"); [| intros H; inversion H; reflexivity].
      destruct (Dict.get (PyStr.lower name) map) as [v |];
        [| intros H; inversion H; reflexivity].
      destruct (PyStr.contains "%" v).
      * destruct (deeper v accum) as [accum' | e'] eqn:Hd; cbn [rbind].
        -- apply IH.
        -- intros H; inversion H; subst. eapply Hdeeper, Hd.
      * cbn [rbind]. apply IH.
Qed.

Lemma interpolate_some_errors (map : list (string * string)) (levels : nat) :
  forall rest accum e,
    Cfg.interpolate_some levels map rest accum = Raise e ->
    is_interpolation_error e = true.
Proof.
  induction levels as [| levels IH]; intros rest accum e; cbn [Cfg.interpolate_some].
  - intros H; inversion H; reflexivity.
  - apply interpolate_loop_errors. exact IH.
Qed.

(** [get] raises [NoSectionError], [NoOptionError] or an interpolation
    error, and nothing else. *)
Lemma cfg_get_errors (section option_name : string) (c : Config) (e : exn) :
  Cfg.get section option_name c = Raise e ->
  is_no_section_or_option e = true \/ is_interpolation_error e = true.
Proof.
  unfold Cfg.get, Cfg.unify_values.
  destruct (Cfg.section_dict section c) as [opts |]; cbn [rbind].
  - destruct (Dict.get (PyStr.lower option_name) (opts ++ Cfg.defaults c)) as [v |].
    + intros H. right. eapply interpolate_some_errors, H.
    + intros H; inversion H. left. reflexivity.
  - destruct (String.eqb section Cfg.DEFAULTSECT); cbn [rbind].
    + destruct (Dict.get (PyStr.lower option_name) (Cfg.defaults c)) as [v |].
      * intros H. right. eapply interpolate_some_errors, H.
      * intros H; inversion H. left. reflexivity.
    + intros H; inversion H. left. reflexivity.
Qed.

(** X8: the schema version that is read never has a negative component,
    and reading it fails in three ways only: with a fatal error (no
    section or no item, or a component that is not an integer), with
    [IndexError] (fewer than three components), or with an interpolation
    error of [configparser] (a [%] in the declared version that is not
    [%%] or a reference to an option that is there), which is not
    caught. *)
Theorem get_cfg_schema_version_outcomes (model_cfg : Config) :
  match get_cfg_schema_version model_cfg with
  | Ok (major, minor, patch) => (0 <= major)%Z /\ (0 <= minor)%Z /\ (0 <= patch)%Z
  | Raise e =>
      e = IndexError \/ (exists msg, e = FatalError msg)
      \/ is_interpolation_error e = true
  end.
Proof.
  unfold get_cfg_schema_version.
  destruct (Cfg.get DESCRIPTION_SECTION VERSION_ITEM model_cfg) as [semver_str | e] eqn:Hget.
  - cbn [try_except rbind].
    pose proof (split_go_pieces_free is_dash_or_plus semver_str "" eq_refl) as Hpieces.
    fold (PyStr.split_by is_dash_or_plus semver_str) in Hpieces.
    destruct (get_version_text model_cfg semver_str Hget) as [version_str Hhead].
    rewrite Hhead. cbn [rbind].
    rewrite List.Forall_forall in Hpieces.
    pose proof (Hpieces version_str (nth_error_In _ _ Hhead)) as Hfree.
    pose proof (version_component_nonneg version_str 0) as H0.
    pose proof (version_component_nonneg version_str 1) as H1.
    pose proof (version_component_nonneg version_str 2) as H2.
    destruct (version_component_cases (PyStr.split VERSION_SEPERATOR version_str) 0)
      as [(z0 & E0) | [E0 | E0]]; rewrite E0 in *; cbn;
      [| left; reflexivity | right; left; eexists; reflexivity].
    destruct (version_component_cases (PyStr.split VERSION_SEPERATOR version_str) 1)
      as [(z1 & E1) | [E1 | E1]]; rewrite E1 in *; cbn;
      [| left; reflexivity | right; left; eexists; reflexivity].
    destruct (version_component_cases (PyStr.split VERSION_SEPERATOR version_str) 2)
      as [(z2 & E2) | [E2 | E2]]; rewrite E2 in *; cbn;
      [| left; reflexivity | right; left; eexists; reflexivity].
    auto.
  - destruct (cfg_get_errors _ _ _ _ Hget) as [Hcaught | Hinterp].
    + cbn [try_except]. rewrite Hcaught. cbn. right. left. eexists. reflexivity.
    + assert (Hnot : is_no_section_or_option e = false)
        by (destruct e; try discriminate Hinterp; reflexivity).
      cbn [try_except]. rewrite Hnot. cbn [rbind]. right. right. exact Hinterp.
Qed.

(** The declared version [1.1.0+50%] is such an error; written [1.1.0+50%%]
    it is read as 1.1.0. *)
Example schema_version_percent_example :
  get_cfg_schema_version (cfg_with_version "1.1.0+50%") = Raise InterpolationSyntaxError
  /\ get_cfg_schema_version (cfg_with_version "1.1.0+50%%") = Ok (1, 1, 0)%Z.
Proof. split; reflexivity. Qed.

(** X9: what follows the first [-] or [+] of the declared version is not
    read: two documents whose version texts, as [get] gives them, with
    their references replaced, agree up to there give the same result, the
    same error included. *)
Theorem get_cfg_schema_version_ignores_metadata (cfg_plain cfg_tagged : Config)
    (version_str metadata : string) (sep : ascii) :
  free_of is_dash_or_plus version_str = true ->
  is_dash_or_plus sep = true ->
  Cfg.get DESCRIPTION_SECTION VERSION_ITEM cfg_plain = Ok version_str ->
  Cfg.get DESCRIPTION_SECTION VERSION_ITEM cfg_tagged
  = Ok (version_str +:+ String sep metadata) ->
  get_cfg_schema_version cfg_tagged = get_cfg_schema_version cfg_plain.
Proof.
  intros Hfree Hsep Hplain Htagged. unfold get_cfg_schema_version.
  rewrite Hplain, Htagged. cbn [try_except rbind]. unfold PyStr.split_by.
  rewrite (split_go_sep is_dash_or_plus version_str sep metadata "" Hfree Hsep).
  rewrite (split_go_free is_dash_or_plus version_str "" Hfree).
  reflexivity.
Qed.

Lemma get_cfg_schema_version_ignores_metadata_witness :
  get_cfg_schema_version (cfg_with_version "1.1.0-rc1+b5")
  = get_cfg_schema_version (cfg_with_version "1.1.0").
Proof.
  exact (get_cfg_schema_version_ignores_metadata (cfg_with_version "1.1.0")
           (cfg_with_version "1.1.0-rc1+b5") "1.1.0" "rc1+b5" "-"
           eq_refl eq_refl eq_refl eq_refl).
Defined.

(** ** The factory *)

(** X10: what the factory does with the declared version of a document:
    a version that cannot be read is the error of reading it; a major
    version other than 1 is the fatal error of an unsupported schema
    version, raised by the factory itself, so that the developer error of
    [_verify_schema_version] is never reached from here; major 1 with a
    minor above 1 is the fatal error of a version that is too new.  No
    entry is looked at in these cases and the world is not touched.  Any
    other format than these two is a fatal error as well. *)
Theorem create_externals_description_version_gate (env : Env) (model_data : Config)
    (components exclude : list string) (parent_repo : option ParentRepo) (w : World) :
  (forall e,
     get_cfg_schema_version model_data = Raise e ->
     create_externals_description env (CfgData model_data) components exclude
       parent_repo w = (Raise e, w))
  /\ (forall major minor patch,
        get_cfg_schema_version model_data = Ok (major, minor, patch) ->
        major <> 1%Z ->
        create_externals_description env (CfgData model_data) components exclude
          parent_repo w
        = (Raise (FatalError (unsupported_version_msg major)), w))
  /\ (forall minor patch,
        get_cfg_schema_version model_data = Ok (1%Z, minor, patch) ->
        (1 < minor)%Z ->
        create_externals_description env (CfgData model_data) components exclude
          parent_repo w
        = (Raise (FatalError (too_new_msg supported_v1 (mkVersion 1 minor patch))), w))
  /\ (forall model_format,
        create_externals_description env (OtherFormat model_format) components exclude
          parent_repo w
        = (Raise (FatalError ("Unknown model data format " +:+ quoted model_format)), w)).
Proof.
  unfold create_externals_description, create_externals_description_with.
  split; [| split; [| split]].
  - intros e He. unfold bind, lift. rewrite He. reflexivity.
  - intros major minor patch Hv Hne. unfold bind, lift. rewrite Hv.
    apply Z.eqb_neq in Hne. rewrite Hne. reflexivity.
  - intros minor patch Hv Hminor. unfold bind at 1. unfold lift at 1. rewrite Hv.
    cbn [Z.eqb Pos.eqb]. unfold ExternalsDescriptionConfigV1.
    unfold bind at 1. unfold lift at 1. rewrite Hv.
    unfold bind at 1. unfold lift at 1.
    rewrite (verify_minor_too_new (mkVersion 1 1 0) (mkVersion 1 minor patch) eq_refl Hminor).
    reflexivity.
  - intros model_format. reflexivity.
Qed.

(** ** The three phases of [_check_user_input] together *)

(** A successful [_check_user_input], phase by phase. *)
Lemma check_user_input_phases (create : Config -> M Description) (env : Env)
    (parent_repo : option ParentRepo) (self self' : Description) (w w' : World) :
  distinct (Dict.keys self) = true ->
  _check_user_input create env parent_repo self w = (Ok self', w') ->
  exists self1,
    check_data_entries env self = Ok self1
    /\ Dict.keys self1 = Dict.keys self
    /\ check_optional_entries create env parent_repo self1 None w = (Ok self', w')
    /\ _validate self' = Ok tt.
Proof.
  intros Hd Hrun. unfold _check_user_input, bind, lift, ret in Hrun.
  destruct (_check_data env self) as [self1 |] eqn:Hdata; [| discriminate].
  rewrite (_check_data_entries env self Hd) in Hdata.
  destruct (_check_optional create env parent_repo self1 w) as [[self2 | ex] w2] eqn:Hopt;
    [| discriminate].
  pose proof (check_data_entries_keys env self self1 Hdata) as Hkeys.
  assert (Hd1 : distinct (Dict.keys self1) = true) by (rewrite Hkeys; exact Hd).
  rewrite (_check_optional_entries create env parent_repo self1 w Hd1) in Hopt.
  destruct (_validate self2) as [[] |] eqn:Hval; [| discriminate].
  inversion Hrun; subst self2 w2. exists self1. auto.
Qed.

Lemma check_optional_entries_keys (create : Config -> M Description) (env : Env)
    (parent_repo : option ParentRepo) (d : Description) :
  forall d' submod_desc w w',
    check_optional_entries create env parent_repo d submod_desc w = (Ok d', w') ->
    Dict.keys d' = Dict.keys d.
Proof.
  induction d as [| [field ext] rest IH]; intros d' sd w w'; cbn.
  - unfold ret. intros H. inversion H. reflexivity.
  - unfold bind, ret.
    destruct (check_optional_entry create env parent_repo field ext sd w)
      as [[r | e] w1]; [| discriminate].
    destruct (check_optional_entries create env parent_repo rest (snd r) w1)
      as [[rest' | e] w2] eqn:Hrest; [| discriminate].
    intros H. inversion H. cbn. f_equal. eapply IH, Hrest.
Qed.

Lemma validate_keys_ok_conforms (validate : pyval -> pyval -> result bool)
    (ditems l : list (string * pyval)) :
  Forall (fun kv => forall data,
            validate (snd kv) data = Ok true -> conforms (snd kv) data = true) l ->
  forall in_ref valid,
    validate_keys validate (PyDict ditems) l in_ref valid = Ok true ->
    conforms_keys conforms ditems l = true.
Proof.
  intros Hall in_ref valid Hrun.
  destruct (validate_keys_true validate ditems l in_ref valid Hrun) as (_ & _ & Hkeys).
  clear Hrun. induction l as [| [key sub] l IH]; [reflexivity |].
  inversion Hall as [| ? ? Hhead Htail]; subst.
  inversion Hkeys as [| ? ? (x & Hget & Hval) Hrest]; subst.
  cbn in *. rewrite Hget, (Hhead x Hval). cbn. apply IH; assumption.
Qed.

(** What [validate_data_struct] accepts conforms to the schema. *)
Lemma validate_data_struct_ok_conforms (schema : pyval) :
  forall data,
    validate_data_struct schema data = Ok true -> conforms schema data = true.
Proof.
  induction schema as [| b | s | sitems IH] using pyval_induction; intros data Hrun.
  - destruct data; cbn in *; congruence.
  - destruct data; cbn in *; congruence.
  - destruct data; cbn in *; congruence.
  - destruct data as [| b | s | ditems];
      try (exfalso; cbn [validate_data_struct Py.is_dict Py.same_type rbind] in Hrun;
           destruct (print_unmatched (PyDict sitems) _); cbn [rbind] in Hrun;
           discriminate Hrun).
    cbn [validate_data_struct Py.is_dict] in Hrun. cbn [conforms].
    destruct (validate_keys validate_data_struct (PyDict ditems) sitems true true)
      as [[] | e] eqn:Hkeys; cbn [rbind] in Hrun.
    + eapply validate_keys_ok_conforms; [exact IH | exact Hkeys].
    + destruct (print_unmatched (PyDict sitems) (PyDict ditems)); cbn in Hrun; congruence.
    + discriminate.
Qed.

(** X11: a description that [_check_user_input] accepts has the names it
    was given, in their order, and each of its entries conforms to the
    schema: [required] and [from_submodule] are booleans, [local_path] and
    [externals] texts, and [repo] is a dictionary with the texts
    [protocol], [repo_url], [tag], [branch], [hash] and [sparse]. *)
Theorem check_user_input_result_conforms (create : Config -> M Description) (env : Env)
    (parent_repo : option ParentRepo) (self self' : Description) (w w' : World) :
  distinct (Dict.keys self) = true ->
  _check_user_input create env parent_repo self w = (Ok self', w') ->
  Dict.keys self' = Dict.keys self
  /\ forall name ext',
       Dict.get name self' = Some ext' -> conforms (PyDict _source_schema) ext' = true.
Proof.
  intros Hd Hrun.
  destruct (check_user_input_phases create env parent_repo self self' w w' Hd Hrun)
    as (self1 & Hdata & Hkeys & Hopt & Hval).
  split.
  - rewrite (check_optional_entries_keys create env parent_repo self1 self' None w w' Hopt).
    exact Hkeys.
  - intros name ext' Hget.
    destruct (validate_loop_ok self' (Dict.keys self') Hval name
                (dict_get_keys name ext' self' Hget)) as (e & Hget' & Hvalid).
    rewrite Hget in Hget'. inversion Hget'; subst e.
    apply validate_data_struct_ok_conforms, Hvalid.
Qed.

Lemma check_user_input_result_conforms_witness :
  Dict.keys [("lib", entry_tag_only_validated)] = Dict.keys [("lib", entry_tag_only)]
  /\ forall name ext',
       Dict.get name [("lib", entry_tag_only_validated)] = Some ext' ->
       conforms (PyDict _source_schema) ext' = true.
Proof.
  exact (check_user_input_result_conforms (create_for_submodules env_lib) env_lib None
           [("lib", entry_tag_only)] [("lib", entry_tag_only_validated)] world0 world0
           eq_refl eq_refl).
Defined.

(** What an entry that conforms to the schema has. *)
Lemma conforms_schema_inv (ext : pyval) :
  conforms (PyDict _source_schema) ext = true ->
  exists d r p b,
    ext = PyDict d /\ Dict.get REPO d = Some (PyDict r)
    /\ Dict.get SUBMODULE d = Some (PyBool b)
    /\ Dict.get PROTOCOL r = Some (PyStr p)
    /\ Dict.mem TAG r = true /\ Dict.mem BRANCH r = true /\ Dict.mem HASH r = true.
Proof.
  destruct ext as [| | | d]; try discriminate.
  cbn. intros H.
  repeat (apply andb_true_iff in H; destruct H as [? H]).
  destruct (Dict.get SUBMODULE d) as [[| b | |] |] eqn:Hsub; try discriminate.
  destruct (Dict.get REPO d) as [[| | | r] |] eqn:Hrepo; try discriminate.
  repeat match goal with
         | H : _ && _ = true |- _ => apply andb_true_iff in H; destruct H
         end.
  destruct (Dict.get PROTOCOL r) as [[| | p |] |] eqn:Hproto; try discriminate.
  destruct (Dict.get TAG r) as [? |] eqn:Htag; try discriminate.
  destruct (Dict.get BRANCH r) as [? |] eqn:Hbranch; try discriminate.
  destruct (Dict.get HASH r) as [? |] eqn:Hhash; try discriminate.
  exists d, r, p, b. unfold Dict.mem. rewrite Htag, Hbranch, Hhash.
  repeat split; first [assumption | reflexivity].
Qed.

(** The first phase rejects every entry that conforms to the schema: it
    has a tag, a branch and a hash, and the key [from_submodule]. *)
Lemma conforming_entry_rejected (env : Env) (ext_name : string) (ext : pyval) :
  conforms (PyDict _source_schema) ext = true ->
  is_ok (check_data_entry env ext_name ext) = false.
Proof.
  intros Hc. destruct (conforms_schema_inv ext Hc)
    as (d & r & p & b & -> & Hrepo & Hsub & Hproto & Htag & Hbranch & Hhash).
  destruct (check_data_entry env ext_name (PyDict d)) as [ext' | e] eqn:Hrun;
    [| reflexivity].
  exfalso.
  destruct (check_data_entry_ok env ext_name (PyDict d) ext' Hrun) as (Hrule & _ & _).
  unfold reference_rule in Hrule.
  destruct (is_externals_only (PyDict d)) eqn:Honly.
  - unfold is_externals_only, protocol_of, repo_of in Honly.
    rewrite Hrepo, Hproto in Honly.
    unfold check_data_entry in Hrun. cbn [Py.getitem] in Hrun.
    rewrite Hrepo in Hrun. cbn [rbind Py.getitem] in Hrun. rewrite Hproto in Hrun.
    cbn [rbind] in Hrun.
    apply eq_str_inv in Honly. inversion Honly; subst p.
    cbn in Hrun. unfold Dict.mem in Hrun. rewrite Hsub in Hrun. cbn in Hrun. discriminate.
  - destruct (Hrule eq_refl) as [Hone _].
    rewrite (ref_count_dicts d r Hrepo), Htag, Hbranch, Hhash in Hone. cbn in Hone. lia.
Qed.

(** X12: validation cannot be repeated: a description that
    [_check_user_input] has accepted, unless it is empty, is rejected when
    it is given to [_check_user_input] again, whatever the environment and
    the parent repository: every accepted entry has the keys [tag],
    [branch], [hash] and [from_submodule], which the first phase counts as
    references given by the user. *)
Theorem check_user_input_not_repeatable (create create2 : Config -> M Description)
    (env env2 : Env) (parent_repo parent_repo2 : option ParentRepo)
    (self self' : Description) (w w' w2 : World) :
  distinct (Dict.keys self) = true ->
  self <> [] ->
  _check_user_input create env parent_repo self w = (Ok self', w') ->
  is_ok (fst (_check_user_input create2 env2 parent_repo2 self' w2)) = false.
Proof.
  intros Hd Hne Hrun.
  destruct (check_user_input_phases create env parent_repo self self' w w' Hd Hrun)
    as (self1 & Hdata & Hkeys1 & Hopt & Hval).
  pose proof (check_optional_entries_keys create env parent_repo self1 self' None w w' Hopt)
    as Hkeys.
  rewrite Hkeys1 in Hkeys.
  destruct self' as [| [name ext'] rest].
  - destruct self; [congruence | discriminate Hkeys].
  - destruct (validate_loop_ok _ _ Hval name (or_introl eq_refl)) as (e & Hget & Hvalid).
    cbn [Dict.get] in Hget. rewrite String.eqb_refl in Hget. inversion Hget; subst e.
    apply validate_data_struct_ok_conforms in Hvalid.
    unfold _check_user_input, bind, lift, _check_data.
    cbn [Dict.keys map fst check_data_loop]. unfold desc_get at 1. cbn [Dict.get].
    rewrite String.eqb_refl. cbn [rbind].
    pose proof (conforming_entry_rejected env2 name ext' Hvalid) as Hrej.
    destruct (check_data_entry env2 name ext'); [discriminate Hrej | reflexivity].
Qed.

Lemma check_user_input_not_repeatable_witness :
  is_ok (fst (_check_user_input (create_for_submodules env_lib) env_lib None
                [("lib", entry_tag_only_validated)] world0)) = false.
Proof.
  exact (check_user_input_not_repeatable (create_for_submodules env_lib)
           (create_for_submodules env_lib) env_lib env_lib None None
           [("lib", entry_tag_only)] [("lib", entry_tag_only_validated)]
           world0 world0 world0 eq_refl ltac:(discriminate) eq_refl).
Defined.

(** ** Validation without a git parent *)

Lemma parent_error_unsupported (parent_repo : option ParentRepo) (field : string) :
  submodules_supported parent_repo = false ->
  exists msg, parent_error parent_repo field = Some msg.
Proof.
  unfold submodules_supported, parent_error. destruct parent_repo as [parent |].
  - intros H. rewrite H. eexists. reflexivity.
  - intros _. eexists. reflexivity.
Qed.

(** X13: without a parent repository, or with a parent that is not a git
    repository, a description with an entry that has the [from_submodule]
    key, whatever its value, is never accepted.  So it is never accepted
    in a description that is given as a dictionary, which is validated
    without a parent. *)
Theorem from_submodule_needs_git_parent (create : Config -> M Description) (env : Env)
    (parent_repo : option ParentRepo) (self : Description) (w : World)
    (name : string) (ext : pyval) :
  distinct (Dict.keys self) = true ->
  submodules_supported parent_repo = false ->
  Dict.get name self = Some ext ->
  declares_from_submodule ext = true ->
  is_ok (fst (_check_user_input create env parent_repo self w)) = false
  /\ is_ok (fst (ExternalsDescriptionDict create env self [] [] w)) = false.
Proof.
  intros Hd Hparent Hget Hdecl.
  assert (Hmain : forall parent_repo0,
             submodules_supported parent_repo0 = false ->
             is_ok (fst (_check_user_input create env parent_repo0 self w)) = false).
  { clear parent_repo Hparent. intros parent_repo Hparent.
    destruct (_check_user_input create env parent_repo self w) as [[self' | e] w'] eqn:Hrun;
      [| reflexivity].
    exfalso.
    destruct (check_user_input_phases create env parent_repo self self' w w' Hd Hrun)
      as (self1 & Hdata & Hkeys & Hopt & Hval).
    destruct (check_data_entries_get env self self1 name ext Hdata Hget)
      as (e1 & Hget1 & Hentry).
    destruct (check_data_entry_ok env name ext e1 Hentry) as (_ & Hstep & Hshape).
    destruct (check_optional_entries_get create env parent_repo self1 self' name e1
                None w w' Hopt Hget1) as (e2 & sd1 & w1 & sd2 & w3 & Hget2 & Hentry2).
    assert (Hrepo1 : has_repo_dict e1 = true).
    { eapply entry_step_repo_dict; [exact Hstep |]. apply has_repo_dict_intro, Hshape. }
    assert (Hdecl1 : declares_from_submodule e1 = true).
    { unfold declares_from_submodule in *.
      rewrite (entry_step_submodule ext e1 Hstep). exact Hdecl. }
    destruct (parent_error_unsupported parent_repo name Hparent) as [msg Hmsg].
    rewrite (check_optional_entry_parent_error create env parent_repo name msg e1 sd1 w1
               Hrepo1 Hdecl1 Hmsg) in Hentry2.
    discriminate Hentry2. }
  split; [apply Hmain, Hparent |].
  unfold ExternalsDescriptionDict. cbn [length Nat.eqb negb].
  unfold bind at 1. unfold lift at 1.
  rewrite (verify_accepts (mkVersion 1 0 0) (mkVersion 1 0 0) eq_refl (Z.le_refl _)).
  apply Hmain. reflexivity.
Qed.

Lemma from_submodule_needs_git_parent_witness :
  is_ok (fst (_check_user_input (create_for_submodules env_lib) env_lib (Some parent_svn)
                [("lib", entry_from_submodule)] world0)) = false
  /\ is_ok (fst (ExternalsDescriptionDict (create_for_submodules env_lib) env_lib
                   [("lib", entry_from_submodule)] [] [] world0)) = false.
Proof.
  exact (from_submodule_needs_git_parent (create_for_submodules env_lib) env_lib
           (Some parent_svn) [("lib", entry_from_submodule)] world0 "lib"
           entry_from_submodule eq_refl eq_refl eq_refl eq_refl).
Defined.

Section Frame.

Variable create : Config -> M Description.
Variable env : Env.

Lemma lift_world {A : Type} (r : result A) (w : World) : snd (lift r w) = w.
Proof. reflexivity. Qed.

(** An entry is resolved without any effect when the parent has no
    submodules to offer or when their description is at hand; the
    description at hand is kept. *)
Lemma check_optional_entry_pure (parent_repo : option ParentRepo) (field : string)
    (ext : pyval) (submod_desc : option Description) (w : World) :
  submodules_supported parent_repo = false \/ submod_desc <> None ->
  snd (check_optional_entry create env parent_repo field ext submod_desc w) = w
  /\ forall r, fst (check_optional_entry create env parent_repo field ext submod_desc w)
               = Ok r ->
               snd r = submod_desc.
Proof.
  intros Hcase. unfold check_optional_entry, bind, lift, ret.
  destruct (fill_defaults ext) as [ext1 | e]; [| split; [reflexivity | discriminate]].
  destruct (Py.contains SUBMODULE ext1) as [[] | e];
    [| | split; [reflexivity | discriminate]].
  - unfold resolve_from_submodule, lift, bind, ret.
    destruct parent_repo as [parent |]; [| split; [reflexivity | discriminate]].
    destruct (negb (String.eqb (parent_protocol parent) PROTOCOL_GIT)) eqn:Hgit;
      [split; [reflexivity | discriminate] |].
    destruct Hcase as [Hparent | Hsome].
    { cbn in Hparent. rewrite Hparent in Hgit. discriminate Hgit. }
    destruct submod_desc as [d |]; [| congruence].
    unfold _repo_config_from_submodule, bind, lift, ret.
    destruct (find_submodule_config field d) as [[[repo_url repo_path] ref_hash] | e];
      [| split; [reflexivity | discriminate]].
    destruct (fatal_when (is_none repo_url) _) as [[] | e];
      [| split; [reflexivity | discriminate]].
    destruct (let! ext := set_repo_item REPO_URL repo_url ext1
              in let! ext0 := set_repo_item HASH ref_hash ext
                 in Py.setitem ext0 PATH repo_path) as [ext2 | e];
      [| split; [reflexivity | discriminate]].
    cbn [fst]. destruct (Py.getitem ext2 SUBMODULE) as [v | e];
      [| split; [reflexivity | discriminate]].
    split; [reflexivity |]. intros r H. inversion H. reflexivity.
  - destruct (Py.setitem ext1 SUBMODULE (PyBool false)) as [ext2 | e];
      [| split; [reflexivity | discriminate]].
    split; [reflexivity |]. intros r H. inversion H. reflexivity.
Qed.

Lemma check_optional_loop_pure (parent_repo : option ParentRepo) (fields : list string) :
  forall self submod_desc w,
    submodules_supported parent_repo = false \/ submod_desc <> None ->
    snd (check_optional_loop create env parent_repo fields self submod_desc w) = w.
Proof.
  induction fields as [| field rest IH]; intros self sd w Hcase; [reflexivity |].
  cbn [check_optional_loop]. unfold bind at 1. unfold lift at 1.
  destruct (desc_get self field) as [ext | e]; [| reflexivity].
  unfold bind at 1.
  destruct (check_optional_entry_pure parent_repo field ext sd w Hcase) as [Hw Hsd].
  destruct (check_optional_entry create env parent_repo field ext sd w) as [[r | e] w1];
    cbn [snd fst] in *; subst w1; [| reflexivity].
  apply IH. destruct Hcase as [Hparent | Hsome]; [left; exact Hparent |].
  right. rewrite (Hsd r eq_refl). exact Hsome.
Qed.

Lemma check_user_input_pure (parent_repo : option ParentRepo) (self : Description)
    (w : World) :
  submodules_supported parent_repo = false ->
  snd (_check_user_input create env parent_repo self w) = w.
Proof.
  intros Hparent. unfold _check_user_input. unfold bind at 1. unfold lift at 1.
  destruct (_check_data env self) as [self1 | e]; [| reflexivity].
  unfold bind at 1. unfold _check_optional.
  pose proof (check_optional_loop_pure parent_repo (Dict.keys self1) self1 None w
                (or_introl Hparent)) as Hw.
  destruct (check_optional_loop create env parent_repo (Dict.keys self1) self1 None w)
    as [[self2 | e] w1]; cbn [snd] in Hw; subst w1; [| reflexivity].
  unfold bind, lift, ret. destruct (_validate self2); reflexivity.
Qed.

End Frame.

(** X14: building a description changes nothing outside, neither the
    working directory nor the warnings, whether it succeeds or fails, when
    it is given as a dictionary, and when it is given as a document and
    there is no parent repository or the parent is not a git repository:
    only the submodules of a git parent are ever read. *)
Theorem create_externals_description_keeps_world (env : Env) (data : ModelData)
    (components exclude : list string) (parent_repo : option ParentRepo) (w : World) :
  (submodules_supported parent_repo = false ->
   snd (create_externals_description env data components exclude parent_repo w) = w)
  /\ (forall model_data,
        data = DictData model_data ->
        snd (create_externals_description env data components exclude parent_repo w) = w).
Proof.
  assert (Hdict : forall model_data,
             snd (create_externals_description env (DictData model_data) components
                    exclude parent_repo w) = w).
  { intros model_data.
    unfold create_externals_description, create_externals_description_with,
      ExternalsDescriptionDict.
    unfold bind at 1. unfold lift at 1.
    rewrite (verify_accepts (mkVersion 1 0 0) (mkVersion 1 0 0) eq_refl (Z.le_refl _)).
    apply check_user_input_pure. reflexivity. }
  split; [| intros model_data ->; apply Hdict].
  intros Hparent. destruct data as [model_data | model_data | model_format].
  - unfold create_externals_description, create_externals_description_with.
    unfold bind at 1. unfold lift at 1.
    destruct (get_cfg_schema_version model_data) as [[[major minor] patch] | e] eqn:Hv;
      [| reflexivity].
    destruct (major =? 1)%Z; [| reflexivity].
    unfold ExternalsDescriptionConfigV1.
    unfold bind at 1. unfold lift at 1. rewrite Hv.
    unfold bind at 1. unfold lift at 1.
    destruct (_verify_schema_version _ _) as [[] | e]; [| reflexivity].
    unfold bind at 1. unfold lift at 1.
    destruct (_parse_cfg env (_remove_metadata model_data) components exclude)
      as [self | e]; [| reflexivity].
    apply check_user_input_pure, Hparent.
  - apply Hdict.
  - reflexivity.
Qed.

(** X15: once the description of the parent's submodules is at hand, the
    rest of the loop of [_check_optional] has no effect outside, whatever
    it finds: the submodules file is read, and [git submodule status] run,
    for the first entry with the [from_submodule] key and for no other. *)
Theorem submodules_are_loaded_once (create : Config -> M Description) (env : Env)
    (parent_repo : option ParentRepo) (field : string) (ext : pyval)
    (fields : list string) (self : Description) (submod_desc : Description) (w : World) :
  snd (check_optional_loop create env parent_repo fields self (Some submod_desc) w) = w
  /\ snd (check_optional_entry create env parent_repo field ext (Some submod_desc) w) = w
  /\ (forall ext' cache w',
        check_optional_entry create env parent_repo field ext (Some submod_desc) w
        = (Ok (ext', cache), w') ->
        cache = Some submod_desc).
Proof.
  assert (Hsome : submodules_supported parent_repo = false \/ Some submod_desc <> None)
    by (right; discriminate).
  split; [apply check_optional_loop_pure, Hsome |].
  destruct (check_optional_entry_pure create env parent_repo field ext (Some submod_desc)
              w Hsome) as [Hw Hsd].
  split; [exact Hw |].
  intros ext' cache w' Hrun. rewrite Hrun in Hsd. exact (Hsd (ext', cache) eq_refl).
Qed.

(** ** The first phase, entry by entry *)

(** X16: the first phase changes nothing in an entry that it accepts but
    the [repo_url], which it replaces by its expansion; an entry without
    [repo_url], and an entry whose protocol is [externals_only], is left as
    it is. *)
Theorem check_data_entry_changes_url_only (env : Env) (ext_name : string)
    (ext ext' : pyval) :
  check_data_entry env ext_name ext = Ok ext' ->
  exists d r,
    ext = PyDict d /\ Dict.get REPO d = Some (PyDict r)
    /\ match Dict.get REPO_URL r with
       | Some old =>
           if is_externals_only ext then ext' = ext
           else exists url,
                  expand_local_url env old ext_name = Ok url
                  /\ ext' = PyDict (Dict.set REPO (PyDict (Dict.set REPO_URL url r)) d)
       | None => ext' = ext
       end.
Proof.
  intros Hrun.
  destruct (check_data_entry_ok env ext_name ext ext' Hrun)
    as (_ & _ & d & r & -> & Hrepo).
  exists d, r. split; [reflexivity |]. split; [exact Hrepo |].
  unfold check_data_entry in Hrun. cbn [Py.getitem] in Hrun. rewrite Hrepo in Hrun.
  cbn [rbind Py.getitem] in Hrun.
  unfold is_externals_only, protocol_of, repo_of. rewrite Hrepo.
  destruct (Dict.get PROTOCOL r) as [p |]; [| discriminate]. cbn [rbind] in Hrun.
  destruct (fatal_when (negb (Py.in_strs p KNOWN_PRROTOCOLS)) _) as [[] |];
    [| discriminate].
  cbn [rbind] in Hrun.
  destruct (if Py.eq_str p PROTOCOL_SVN then _ else _) as [[] |]; [| discriminate].
  cbn [rbind] in Hrun.
  destruct (if negb (Py.eq_str p PROTOCOL_GIT) then _ else _) as [[] |]; [| discriminate].
  cbn [rbind] in Hrun.
  destruct (Py.eq_str p PROTOCOL_EXTERNALS_ONLY); cbn [negb] in Hrun.
  - inversion Hrun. destruct (Dict.get REPO_URL r); reflexivity.
  - destruct (check_references_by_cases env ext_name d r Hrepo) as [found Hcases].
    rewrite Hcases in Hrun. unfold check_references_cases in Hrun.
    destruct (1 <? ref_count (PyDict d)).
    { destruct (over_specified_msg ext_name (PyDict d) found); discriminate. }
    destruct (ref_count (PyDict d) <? 1); [discriminate |].
    destruct (Dict.get REPO_URL r) as [old |] eqn:Hurl.
    + destruct (negb (Dict.mem REPO_URL r) && negb (from_submodule_true (PyDict d)));
        [discriminate |].
      destruct (from_submodule_true (PyDict d) && Dict.mem REPO_URL r); [discriminate |].
      destruct (from_submodule_true (PyDict d) && Dict.mem PATH d); [discriminate |].
      destruct (expand_local_url env old ext_name) as [url |]; [| discriminate].
      cbn [rbind] in Hrun. inversion Hrun. exists url. split; reflexivity.
    + destruct (negb (Dict.mem REPO_URL r) && negb (from_submodule_true (PyDict d)));
        [discriminate |].
      destruct (from_submodule_true (PyDict d) && Dict.mem REPO_URL r); [discriminate |].
      destruct (from_submodule_true (PyDict d) && Dict.mem PATH d); [discriminate |].
      inversion Hrun. reflexivity.
Qed.

Lemma check_data_entry_changes_url_only_witness :
  exists d r,
    entry_tag_only = PyDict d /\ Dict.get REPO d = Some (PyDict r)
    /\ match Dict.get REPO_URL r with
       | Some old =>
           if is_externals_only entry_tag_only then entry_tag_only = entry_tag_only
           else exists url,
                  expand_local_url env_lib old "lib" = Ok url
                  /\ entry_tag_only
                     = PyDict (Dict.set REPO (PyDict (Dict.set REPO_URL url r)) d)
       | None => entry_tag_only = entry_tag_only
       end.
Proof.
  exact (check_data_entry_changes_url_only env_lib "lib" entry_tag_only entry_tag_only
           eq_refl).
Defined.

(** X17: the guards of the first phase on the protocol of an entry, in
    their order: a protocol other than [git], [svn] and [externals_only]
    is a fatal error; so is an [svn] entry with the key [hash], and then an
    entry that is not a [git] entry and has the key [from_submodule],
    whatever its value.  An entry whose [repo] has no [protocol] is not a
    fatal error: it raises [KeyError].  An [externals_only] entry without
    the key [from_submodule] is accepted as it is, whatever references and
    URL it gives or lacks. *)
Theorem check_data_entry_protocol_guards (env : Env) (ext_name : string)
    (d r : list (string * pyval)) :
  Dict.get REPO d = Some (PyDict r) ->
  (Dict.get PROTOCOL r = None ->
   check_data_entry env ext_name (PyDict d) = Raise (KeyError PROTOCOL))
  /\ (forall p,
        Dict.get PROTOCOL r = Some p -> Py.in_strs p KNOWN_PRROTOCOLS = false ->
        check_data_entry env ext_name (PyDict d)
        = Raise (FatalError (unknown_protocol_msg ext_name p)))
  /\ (Dict.get PROTOCOL r = Some (PyStr PROTOCOL_SVN) -> Dict.mem HASH r = true ->
      check_data_entry env ext_name (PyDict d)
      = Raise (FatalError (svn_hash_msg ext_name)))
  /\ (Dict.get PROTOCOL r = Some (PyStr PROTOCOL_SVN) -> Dict.mem HASH r = false ->
      Dict.mem SUBMODULE d = true ->
      check_data_entry env ext_name (PyDict d)
      = Raise (FatalError (submodule_protocol_msg ext_name (PyStr PROTOCOL_SVN))))
  /\ (Dict.get PROTOCOL r = Some (PyStr PROTOCOL_EXTERNALS_ONLY) ->
      check_data_entry env ext_name (PyDict d)
      = if Dict.mem SUBMODULE d
        then Raise (FatalError (submodule_protocol_msg ext_name
                                  (PyStr PROTOCOL_EXTERNALS_ONLY)))
        else Ok (PyDict d)).
Proof.
  intros Hrepo. unfold check_data_entry. cbn [Py.getitem]. rewrite Hrepo.
  cbn [rbind Py.getitem]. split; [| split; [| split; [| split]]].
  - intros Hp. rewrite Hp. reflexivity.
  - intros p Hp Hknown. rewrite Hp. cbn [rbind]. rewrite Hknown. reflexivity.
  - intros Hp Hhash. rewrite Hp. cbn. rewrite Hhash. reflexivity.
  - intros Hp Hhash Hsub. rewrite Hp. cbn. rewrite Hhash. cbn. rewrite Hsub. reflexivity.
  - intros Hp. rewrite Hp. cbn. destruct (Dict.mem SUBMODULE d); reflexivity.
Qed.

Lemma check_data_entry_protocol_guards_witness :
  check_data_entry env_lib "lib"
    (PyDict [(REPO, PyDict [(PROTOCOL, PyStr "externals_only"); (TAG, PyStr "v1");
                            (BRANCH, PyStr "main")])])
  = Ok (PyDict [(REPO, PyDict [(PROTOCOL, PyStr "externals_only"); (TAG, PyStr "v1");
                               (BRANCH, PyStr "main")])]).
Proof.
  exact (proj2 (proj2 (proj2 (proj2
           (check_data_entry_protocol_guards env_lib "lib"
              [(REPO, PyDict [(PROTOCOL, PyStr "externals_only"); (TAG, PyStr "v1");
                              (BRANCH, PyStr "main")])]
              [(PROTOCOL, PyStr "externals_only"); (TAG, PyStr "v1");
               (BRANCH, PyStr "main")] eq_refl)))) eq_refl).
Defined.

(** ** The defaults of the second phase *)

Lemma get_with_default (key k : string) (d : list (string * pyval)) :
  Dict.get k (with_default key d) = get_or_default [key] k d.
Proof.
  unfold with_default, get_or_default, str_mem, Dict.mem. cbn [existsb].
  rewrite orb_false_r.
  destruct (String.eqb_spec k key) as [-> | Hne].
  - destruct (Dict.get key d) eqn:Hget; [exact Hget |]. apply dict_get_set_eq.
  - destruct (Dict.get key d) eqn:Hkey.
    + destruct (Dict.get k d); reflexivity.
    + rewrite dict_get_set_ne by congruence. destruct (Dict.get k d); reflexivity.
Qed.

Lemma get_or_default_step (key : string) (defaults : list string) (k : string)
    (d : list (string * pyval)) :
  get_or_default defaults k (with_default key d) = get_or_default (key :: defaults) k d.
Proof.
  unfold get_or_default at 1. rewrite get_with_default.
  unfold get_or_default, str_mem. cbn [existsb].
  destruct (Dict.get k d); [reflexivity |].
  destruct (String.eqb k key); reflexivity.
Qed.

Lemma default_top_spec (key : string) (d : list (string * pyval)) :
  default_top key (PyDict d) = Ok (PyDict (with_default key d)).
Proof.
  unfold default_top, with_default. cbn. destruct (Dict.mem key d); reflexivity.
Qed.

Lemma default_repo_spec (key : string) (d r : list (string * pyval)) :
  Dict.get REPO d = Some (PyDict r) ->
  exists d',
    default_repo key (PyDict d) = Ok (PyDict d')
    /\ Dict.get REPO d' = Some (PyDict (with_default key r))
    /\ forall k, k <> REPO -> Dict.get k d' = Dict.get k d.
Proof.
  intros Hrepo. unfold default_repo, set_repo_item, with_default. cbn [Py.getitem].
  rewrite Hrepo. cbn [rbind Py.contains]. destruct (Dict.mem key r).
  - exists d. split; [reflexivity |]. split; [exact Hrepo | reflexivity].
  - cbn. eexists. split; [reflexivity |]. split.
    + apply dict_get_set_eq.
    + intros k Hne. apply dict_get_set_ne. congruence.
Qed.

(** X18: what the second phase does to an entry without the key
    [from_submodule]: it succeeds, with no effect outside and without
    loading any description of submodules; it sets [from_submodule] to
    false; every value that the entry gives, at the top and under [repo],
    is kept; and the keys [externals], and [tag], [branch], [hash],
    [repo_url] and [sparse] under [repo], have the empty text where the
    entry does not give them.  No other key is added. *)
Theorem check_optional_entry_fills_defaults (create : Config -> M Description)
    (env : Env) (parent_repo : option ParentRepo) (field : string)
    (d r : list (string * pyval)) (submod_desc : option Description) (w : World) :
  Dict.get REPO d = Some (PyDict r) ->
  Dict.mem SUBMODULE d = false ->
  exists d' r',
    check_optional_entry create env parent_repo field (PyDict d) submod_desc w
    = (Ok (PyDict d', submod_desc), w)
    /\ Dict.get REPO d' = Some (PyDict r')
    /\ Dict.get SUBMODULE d' = Some (PyBool false)
    /\ (forall k, k <> REPO -> k <> SUBMODULE ->
                  Dict.get k d' = get_or_default [EXTERNALS] k d)
    /\ (forall k, Dict.get k r'
                  = get_or_default [TAG; BRANCH; HASH; REPO_URL; SPARSE] k r).
Proof.
  intros Hrepo Hsub.
  assert (Hrepo0 : Dict.get REPO (with_default EXTERNALS d) = Some (PyDict r)).
  { rewrite get_with_default. unfold get_or_default. rewrite Hrepo. reflexivity. }
  destruct (default_repo_spec TAG _ _ Hrepo0) as (d1 & E1 & Hrepo1 & Hsame1).
  destruct (default_repo_spec BRANCH _ _ Hrepo1) as (d2 & E2 & Hrepo2 & Hsame2).
  destruct (default_repo_spec HASH _ _ Hrepo2) as (d3 & E3 & Hrepo3 & Hsame3).
  destruct (default_repo_spec REPO_URL _ _ Hrepo3) as (d4 & E4 & Hrepo4 & Hsame4).
  destruct (default_repo_spec SPARSE _ _ Hrepo4) as (d5 & E5 & Hrepo5 & Hsame5).
  assert (Hsame : forall k, k <> REPO -> Dict.get k d5 = get_or_default [EXTERNALS] k d).
  { intros k Hk. rewrite Hsame5, Hsame4, Hsame3, Hsame2, Hsame1 by exact Hk.
    apply get_with_default. }
  exists (Dict.set SUBMODULE (PyBool false) d5). eexists.
  unfold check_optional_entry, fill_defaults, bind, lift, ret.
  rewrite default_top_spec. cbn [rbind].
  rewrite E1. cbn [rbind]. rewrite E2. cbn [rbind]. rewrite E3. cbn [rbind].
  rewrite E4. cbn [rbind]. rewrite E5. cbn [Py.contains].
  assert (Hmem5 : Dict.mem SUBMODULE d5 = false).
  { unfold Dict.mem. rewrite (Hsame SUBMODULE) by discriminate.
    unfold get_or_default. apply dict_mem_false in Hsub. rewrite Hsub. reflexivity. }
  rewrite Hmem5. cbn [Py.setitem fst snd].
  split; [reflexivity |]. split; [| split; [| split]].
  - rewrite dict_get_set_ne by discriminate. exact Hrepo5.
  - apply dict_get_set_eq.
  - intros k Hk1 Hk2. rewrite dict_get_set_ne by congruence. apply Hsame, Hk1.
  - intros k. rewrite get_with_default, !get_or_default_step. reflexivity.
Qed.

Lemma check_optional_entry_fills_defaults_witness :
  exists d' r',
    check_optional_entry (create_for_submodules env_lib) env_lib None "lib"
      entry_tag_only None world0
    = (Ok (PyDict d', None), world0)
    /\ Dict.get REPO d' = Some (PyDict r')
    /\ Dict.get SUBMODULE d' = Some (PyBool false)
    /\ (forall k, k <> REPO -> k <> SUBMODULE ->
                  Dict.get k d'
                  = get_or_default [EXTERNALS] k
                      [(REQUIRED, PyBool true); (PATH, PyStr "src/lib");
                       (REPO, PyDict [(PROTOCOL, PyStr "git"); (TAG, PyStr "v1");
                                      (REPO_URL, PyStr "https://x/lib.git")])])
    /\ (forall k, Dict.get k r'
                  = get_or_default [TAG; BRANCH; HASH; REPO_URL; SPARSE] k
                      [(PROTOCOL, PyStr "git"); (TAG, PyStr "v1");
                       (REPO_URL, PyStr "https://x/lib.git")]).
Proof.
  exact (check_optional_entry_fills_defaults (create_for_submodules env_lib) env_lib None
           "lib"
           [(REQUIRED, PyBool true); (PATH, PyStr "src/lib");
            (REPO, PyDict [(PROTOCOL, PyStr "git"); (TAG, PyStr "v1");
                           (REPO_URL, PyStr "https://x/lib.git")])]
           [(PROTOCOL, PyStr "git"); (TAG, PyStr "v1");
            (REPO_URL, PyStr "https://x/lib.git")]
           None world0 eq_refl eq_refl).
Defined.

(** ** The filters of [ExternalsDescriptionDict] *)

Lemma keys_filter (f : string -> bool) (d : Description) :
  Dict.keys (List.filter (fun kv => f (fst kv)) d) = List.filter f (Dict.keys d).
Proof.
  unfold Dict.keys. induction d as [| [k v] d IH]; cbn; [reflexivity |].
  destruct (f k); cbn; rewrite IH; reflexivity.
Qed.

Lemma str_mem_filter (f : string -> bool) (x : string) (l : list string) :
  str_mem x l = false -> str_mem x (List.filter f l) = false.
Proof.
  unfold str_mem. induction l as [| y l IH]; cbn; [reflexivity |].
  intros H. apply orb_false_iff in H as [Hy Hl].
  destruct (f y); cbn; [rewrite Hy |]; apply IH, Hl.
Qed.

Lemma distinct_filter (f : string -> bool) (l : list string) :
  distinct l = true -> distinct (List.filter f l) = true.
Proof.
  induction l as [| x l IH]; cbn; [reflexivity |].
  intros H. apply andb_true_iff in H as [Hx Hl]. apply negb_true_iff in Hx.
  destruct (f x); cbn; [| apply IH, Hl].
  rewrite (str_mem_filter f x l Hx). cbn. apply IH, Hl.
Qed.

Lemma filter_filter (f g : string -> bool) (l : list string) :
  List.filter g (List.filter f l) = List.filter (fun x => f x && g x) l.
Proof.
  induction l as [| x l IH]; cbn; [reflexivity |].
  destruct (f x); cbn; [destruct (g x) |]; rewrite IH; reflexivity.
Qed.

Lemma filter_all (l : list string) : List.filter (fun _ => true) l = l.
Proof. induction l as [| x l IH]; cbn; [| rewrite IH]; reflexivity. Qed.

Lemma filter_ext_str (f g : string -> bool) (l : list string) :
  (forall x, f x = g x) -> List.filter f l = List.filter g l.
Proof.
  intros H. induction l as [| x l IH]; cbn; [reflexivity |].
  rewrite H, IH. reflexivity.
Qed.

(** The two filters of [ExternalsDescriptionDict], as one. *)
Lemma dict_filters_selected (components exclude : list string) (d : Description) :
  let d1 := if negb (length components =? 0)
            then List.filter (fun kv => str_mem (fst kv) components) d else d in
  let d2 := if negb (length exclude =? 0)
            then List.filter (fun kv => negb (str_mem (fst kv) exclude)) d1 else d1 in
  Dict.keys d2 = List.filter (selected components exclude) (Dict.keys d).
Proof.
  cbv zeta. unfold selected.
  destruct (length components =? 0); destruct (length exclude =? 0); cbn [negb orb].
  - symmetry. apply filter_all.
  - rewrite (keys_filter (fun k => negb (str_mem k exclude))). reflexivity.
  - rewrite (keys_filter (fun k => str_mem k components)).
    apply filter_ext_str. intros x. rewrite andb_true_r. reflexivity.
  - rewrite (keys_filter (fun k => negb (str_mem k exclude))),
      (keys_filter (fun k => str_mem k components)), filter_filter. reflexivity.
Qed.

(** X19: a description given as a dictionary, when it is accepted, has
    exactly the names that pass both filters, in the order in which they
    were given: those in [components], unless that list is empty, that are
    not in [exclude]; and nothing outside has changed. *)
Theorem externals_description_dict_selects (create : Config -> M Description)
    (env : Env) (model_data d : Description) (components exclude : list string)
    (w w' : World) :
  distinct (Dict.keys model_data) = true ->
  ExternalsDescriptionDict create env model_data components exclude w = (Ok d, w') ->
  Dict.keys d = List.filter (selected components exclude) (Dict.keys model_data)
  /\ w' = w.
Proof.
  intros Hd Hrun.
  pose proof (dict_filters_selected components exclude model_data) as Hsel.
  cbv zeta in Hsel.
  unfold ExternalsDescriptionDict in Hrun.
  unfold bind at 1 in Hrun. unfold lift at 1 in Hrun.
  rewrite (verify_accepts (mkVersion 1 0 0) (mkVersion 1 0 0) eq_refl (Z.le_refl _))
    in Hrun.
  set (filtered := if negb (length exclude =? 0) then _ else _) in *.
  assert (Hdf : distinct (Dict.keys filtered) = true)
    by (rewrite Hsel; apply distinct_filter, Hd).
  destruct (check_user_input_phases create env None filtered d w w' Hdf Hrun)
    as (self1 & _ & Hkeys1 & Hopt & _).
  split.
  - rewrite (check_optional_entries_keys create env None self1 d None w w' Hopt),
      Hkeys1.
    exact Hsel.
  - pose proof (check_user_input_pure create env None filtered w eq_refl) as Hw.
    rewrite Hrun in Hw. exact Hw.
Qed.

Lemma externals_description_dict_selects_witness :
  Dict.keys [("lib", entry_tag_only_validated)]
  = List.filter (selected ["lib"; "other"] ["tools"]) (Dict.keys
      [("lib", entry_tag_only); ("tools", entry_tag_branch)])
  /\ world0 = world0.
Proof.
  exact (externals_description_dict_selects (create_for_submodules env_lib) env_lib
           [("lib", entry_tag_only); ("tools", entry_tag_branch)]
           [("lib", entry_tag_only_validated)] ["lib"; "other"] ["tools"]
           world0 world0 eq_refl eq_refl).
Defined.

(** ** The builder, [_parse_cfg] *)

Lemma dict_get_in_keys_of {A : Type} (k : string) (v : A) (d : list (string * A)) :
  Dict.get k d = Some v -> In k (Dict.keys d).
Proof.
  induction d as [| [k' v'] d IH]; cbn; [discriminate |].
  destruct (String.eqb_spec k k') as [-> | Hne]; [left; reflexivity |].
  intros H. right. apply IH, H.
Qed.

Lemma keys_set_in {A : Type} (k k' : string) (v : A) (d : list (string * A)) :
  In k (Dict.keys d) \/ k = k' -> In k (Dict.keys (Dict.set k' v d)).
Proof.
  induction d as [| [k0 v0] d IH]; cbn.
  - intros [[] | ->]. left. reflexivity.
  - destruct (String.eqb_spec k' k0) as [-> | Hne]; cbn.
    + intros [[-> | Hin] | ->]; auto.
    + intros [[-> | Hin] | ->]; auto.
Qed.

Lemma list_to_dict_keys (items : list (string * string)) (item : string * string) :
  In item items -> In (option_key item) (Dict.keys (list_to_dict items)).
Proof.
  unfold list_to_dict. generalize (@nil (string * pyval)) as acc.
  assert (Hkeep : forall l acc k,
             In k (Dict.keys acc) ->
             In k (Dict.keys
                     (fold_left
                        (fun output_dict it =>
                           Dict.set (PyStr.lower (PyStr.strip (fst it)))
                             (PyStr (PyStr.strip (snd it))) output_dict) l acc))).
  { induction l as [| it l IH]; intros acc k Hin; cbn; [exact Hin |].
    apply IH, keys_set_in. left. exact Hin. }
  induction items as [| it items IH]; intros acc Hin; [destruct Hin |].
  cbn [fold_left]. destruct Hin as [-> | Hin].
  - apply Hkeep, keys_set_in. right. reflexivity.
  - apply IH, Hin.
Qed.

Lemma parse_cfg_items_unknown_key (env : Env) (name key : string)
    (loop_keys : list string) :
  In key loop_keys -> known_key key = false ->
  forall ext, is_ok (parse_cfg_items env name loop_keys ext) = false.
Proof.
  intros Hin Hunknown. apply orb_false_iff in Hunknown as [Htop Hrepo].
  induction loop_keys as [| item rest IH]; [destruct Hin |]. intros ext.
  cbn [parse_cfg_items].
  destruct Hin as [-> | Hin].
  - unfold parse_cfg_item. apply dict_mem_false in Htop. rewrite Htop, Hrepo. reflexivity.
  - destruct (parse_cfg_item env name item ext) as [ext' | e]; [| reflexivity].
    cbn [rbind]. apply IH, Hin.
Qed.

Lemma parse_cfg_sections_rejects (env : Env) (cfg_data : Config)
    (components exclude : list string) (section : string) (sections : list string) :
  In section sections ->
  (forall self, is_ok (parse_cfg_section env cfg_data components exclude section self)
                = false) ->
  forall self,
    is_ok (parse_cfg_sections env cfg_data components exclude sections self) = false.
Proof.
  intros Hin Hbad. induction sections as [| s rest IH]; [destruct Hin |]. intros self.
  cbn [parse_cfg_sections]. destruct Hin as [-> | Hin].
  - specialize (Hbad self).
    destruct (parse_cfg_section env cfg_data components exclude section self);
      [discriminate Hbad | reflexivity].
  - destruct (parse_cfg_section env cfg_data components exclude s self); [| reflexivity].
    cbn [rbind]. apply IH, Hin.
Qed.

Lemma selected_not_skipped (components exclude : list string) (name : string) :
  selected components exclude name = true ->
  (negb (length components =? 0) && negb (str_mem name components))
  || (negb (length exclude =? 0) && str_mem name exclude) = false.
Proof.
  unfold selected.
  destruct (length components =? 0), (length exclude =? 0), (str_mem name components),
    (str_mem name exclude); cbn; congruence.
Qed.

(** X20: the builder accepts no document in which a section that passes
    the filters has an option, of its own or of the defaults, whose name,
    stripped and in lower case, is not a key of the schema, at the top
    level or under [repo]: unlike the validator, which does not look at
    keys that the schema does not have, the builder lets no unknown key
    through. *)
Theorem parse_cfg_rejects_unknown_keys (env : Env) (cfg_data : Config)
    (components exclude : list string) (section : string)
    (items : list (string * string)) (item : string * string) :
  In section (Cfg.sections cfg_data) ->
  Cfg.items section cfg_data = Ok items ->
  selected components exclude (PyStr.strip section) = true ->
  In item items ->
  known_key (option_key item) = false ->
  is_ok (_parse_cfg env cfg_data components exclude) = false.
Proof.
  intros Hin Hget Hsel Hitem Hunknown. unfold _parse_cfg.
  apply (parse_cfg_sections_rejects env cfg_data components exclude section).
  - exact Hin.
  - intros self. unfold parse_cfg_section.
    rewrite (selected_not_skipped components exclude _ Hsel).
    rewrite Hget. cbn [rbind].
    pose proof (parse_cfg_items_unknown_key env (PyStr.strip section) (option_key item)
                  (Dict.keys (Dict.set REPO (PyDict []) (list_to_dict items)))
                  (keys_set_in _ _ _ _ (or_introl (list_to_dict_keys items item Hitem)))
                  Hunknown
                  (PyDict (Dict.set REPO (PyDict []) (list_to_dict items)))) as Hr.
    destruct (parse_cfg_items env (PyStr.strip section) _ _);
      [discriminate Hr | reflexivity].
Qed.

Lemma parse_cfg_rejects_unknown_keys_witness :
  is_ok (_parse_cfg env_lib document_with_comment [] []) = false.
Proof.
  exact (parse_cfg_rejects_unknown_keys env_lib document_with_comment [] [] "lib"
           [("protocol", "git"); ("comment", "not in the schema")]
           ("comment", "not in the schema") (or_introl eq_refl) eq_refl eq_refl
           (or_intror (or_introl eq_refl)) eq_refl).
Defined.

(** * The converter and the factory together *)

Lemma interpolate_loop_plain (deeper : string -> string -> result string)
    (map : list (string * string)) (rest : string) :
  free_of is_percent rest = true ->
  forall accum,
    Cfg.interpolate_loop deeper map Cfg.IText rest accum = Ok (accum +:+ rest).
Proof.
  induction rest as [| c rest IH]; intros Hfree accum.
  - cbn. rewrite string_app_empty. reflexivity.
  - cbn [free_of] in Hfree. apply andb_true_iff in Hfree as [Hc Hfree].
    apply negb_true_iff in Hc. unfold is_percent in Hc.
    cbn [Cfg.interpolate_loop]. rewrite Hc, (IH Hfree), string_app_assoc. reflexivity.
Qed.

Lemma before_get_plain (map : list (string * string)) (value : string) :
  free_of is_percent value = true -> Cfg.before_get map value = Ok value.
Proof.
  intros H. unfold Cfg.before_get. cbn [Cfg.interpolate_some].
  rewrite interpolate_loop_plain by exact H. reflexivity.
Qed.

Lemma items_of_section (subs : list Submodule) (s : Submodule) :
  Dict.get Cfg.DEFAULTSECT (map section_of subs) = None ->
  sub_name s <> Cfg.DEFAULTSECT ->
  Dict.get (sub_name s) (map section_of subs) = Some (snd (section_of s)) ->
  plain_values s = true ->
  Cfg.items (sub_name s) (map section_of subs) = Ok (snd (section_of s)).
Proof.
  intros Hdef Hnd Hget Hplain. unfold Cfg.items, Cfg.merged, Cfg.section_dict, Cfg.defaults.
  apply String.eqb_neq in Hnd. rewrite Hnd, Hget, Hdef. cbn [rbind].
  destruct s as [n p u h]. unfold plain_values in Hplain.
  cbn [section_of snd sub_path sub_url sub_hash] in *.
  apply andb_true_iff in Hplain as [Hplain Hh]. apply andb_true_iff in Hplain as [Hp Hu].
  change (Cfg.update [] (converted_section p u h)) with (converted_section p u h).
  unfold converted_section. cbn [Cfg.interpolate_items].
  rewrite !before_get_plain by (assumption || reflexivity). reflexivity.
Qed.

Lemma list_to_dict_converted (p u h : string) :
  list_to_dict (converted_section p u h)
  = [(PATH, PyStr (PyStr.strip p)); (PROTOCOL, PyStr "git");
     (REPO_URL, PyStr (PyStr.strip u)); (REQUIRED, PyStr "True");
     (HASH, PyStr (PyStr.strip h))].
Proof. reflexivity. Qed.

Lemma parse_cfg_section_converted (env : Env) (cfg : Config) (s : Submodule)
    (self : Description) :
  str_to_bool env "True" = Ok true ->
  Cfg.items (sub_name s) cfg = Ok (snd (section_of s)) ->
  parse_cfg_section env cfg [] [] (sub_name s) self
  = Ok (Dict.set (entry_name s) (entry_built s) self).
Proof.
  intros Hbool Hget. destruct s as [n p u h].
  cbn [sub_name section_of snd sub_path sub_url sub_hash] in *.
  unfold parse_cfg_section, entry_name, entry_built.
  cbn [length Nat.eqb negb andb orb sub_name sub_path sub_url sub_hash].
  rewrite Hget. cbn [rbind]. rewrite list_to_dict_converted.
  generalize (PyStr.strip p) as p', (PyStr.strip u) as u', (PyStr.strip h) as h',
    (PyStr.strip n) as n'.
  intros p' u' h' n'.
  cbn. rewrite Hbool. cbn. reflexivity.
Qed.

Lemma check_data_entry_built (env : Env) (s : Submodule) :
  expands_to_text env s ->
  check_data_entry env (entry_name s) (entry_built s) = Ok (entry_checked env s).
Proof.
  intros [url Hurl]. unfold entry_checked, expanded. rewrite Hurl.
  unfold expanded_url in Hurl. destruct s as [n p u h].
  unfold entry_built, entry_name in *. cbn [sub_name sub_path sub_url sub_hash] in *.
  revert Hurl.
  generalize (PyStr.strip p) as p', (PyStr.strip u) as u', (PyStr.strip h) as h',
    (PyStr.strip n) as n'.
  intros p' u' h' n' Hurl.
  cbn. rewrite Hurl. reflexivity.
Qed.

Lemma check_optional_entry_checked (create : Config -> M Description) (env : Env)
    (s : Submodule) (sd : option Description) (w : World) :
  check_optional_entry create env None (entry_name s) (entry_checked env s) sd w
  = (Ok (entry_of env s, sd), w).
Proof.
  unfold entry_checked, entry_of. destruct s as [n p u h].
  cbn [sub_name sub_path sub_url sub_hash].
  generalize (expanded env (mkSubmodule n p u h)) as x.
  generalize (PyStr.strip p) as p', (PyStr.strip h) as h'.
  intros p' h' x. reflexivity.
Qed.

Lemma entry_of_conforms (env : Env) (s : Submodule) :
  expands_to_text env s ->
  conforms (PyDict _source_schema) (entry_of env s) = true
  /\ dicts_where_expected (PyDict _source_schema) (entry_of env s) = true.
Proof.
  intros [url Hurl]. unfold entry_of, expanded. rewrite Hurl. split; reflexivity.
Qed.

Lemma dict_set_fresh {A : Type} (k : string) (v : A) (d : list (string * A)) :
  Dict.get k d = None -> Dict.set k v d = d ++ [(k, v)].
Proof.
  induction d as [| [k' v'] d IH]; cbn; [reflexivity |].
  destruct (String.eqb k k'); [discriminate |]. intros H. rewrite (IH H). reflexivity.
Qed.

Lemma distinct_app_cons (l r : list string) (x : string) :
  distinct (l ++ x :: r) = true ->
  str_mem x l = false /\ distinct ((l ++ [x]) ++ r) = true.
Proof.
  intros H. rewrite <- app_assoc. cbn [app]. split; [| exact H].
  induction l as [| y l IH]; [reflexivity |].
  cbn in H. apply andb_true_iff in H as [Hy Hl]. apply negb_true_iff in Hy.
  unfold str_mem in *. rewrite existsb_app in Hy. cbn in Hy.
  apply orb_false_iff in Hy as [_ Hy]. apply orb_false_iff in Hy as [Hyx _].
  cbn. rewrite String.eqb_sym, Hyx. cbn. apply IH, Hl.
Qed.

Lemma section_of_get (subs : list Submodule) :
  distinct (map sub_name subs) = true ->
  forall s, In s subs ->
    Dict.get (sub_name s) (map section_of subs) = Some (snd (section_of s)).
Proof.
  induction subs as [| t subs IH]; intros Hd s Hin; [destruct Hin |].
  cbn [map distinct] in Hd. apply andb_true_iff in Hd as [Ht Hd].
  apply negb_true_iff in Ht.
  cbn [map Dict.get]. unfold section_of at 1. cbn [fst snd].
  destruct Hin as [-> | Hin].
  - rewrite String.eqb_refl. reflexivity.
  - destruct (String.eqb_spec (sub_name s) (sub_name t)) as [E | _].
    + exfalso. unfold str_mem in Ht.
      assert (Hex : existsb (String.eqb (sub_name t)) (map sub_name subs) = true).
      { apply existsb_exists. exists (sub_name s). split.
        - apply in_map, Hin.
        - rewrite E. apply String.eqb_refl. }
      congruence.
    + apply (IH Hd s Hin).
Qed.

Lemma section_of_get_none (subs : list Submodule) (name : string) :
  str_mem name (map sub_name subs) = false ->
  Dict.get name (map section_of subs) = None.
Proof.
  unfold str_mem. induction subs as [| t subs IH]; [reflexivity |].
  cbn [map existsb Dict.get]. unfold section_of at 1. cbn [fst].
  intros H. apply orb_false_iff in H as [Ht H]. rewrite Ht. apply IH, H.
Qed.

Lemma parse_cfg_sections_built (env : Env) (cfg : Config) (todo : list Submodule) :
  str_to_bool env "True" = Ok true ->
  (forall s, In s todo -> Cfg.items (sub_name s) cfg = Ok (snd (section_of s))) ->
  forall self,
    distinct (Dict.keys self ++ map entry_name todo) = true ->
    parse_cfg_sections env cfg [] [] (map sub_name todo) self
    = Ok (self ++ built_of todo).
Proof.
  intros Hbool. induction todo as [| s todo IH]; intros Hget self Hd.
  - cbn [map parse_cfg_sections built_of]. rewrite app_nil_r. reflexivity.
  - cbn [map parse_cfg_sections].
    rewrite (parse_cfg_section_converted env cfg s self Hbool (Hget s (or_introl eq_refl))).
    cbn [rbind]. cbn [map] in Hd. apply distinct_app_cons in Hd as [Hfresh Hd].
    rewrite str_mem_keys in Hfresh. apply dict_mem_false in Hfresh.
    rewrite (dict_set_fresh _ _ _ Hfresh).
    rewrite IH.
    + unfold built_of. cbn [map]. rewrite <- app_assoc. reflexivity.
    + intros t Ht. apply Hget. right. exact Ht.
    + rewrite keys_snoc. exact Hd.
Qed.

Lemma check_data_entries_built (env : Env) (subs : list Submodule) :
  Forall (expands_to_text env) subs ->
  check_data_entries env (built_of subs) = Ok (checked_of env subs).
Proof.
  induction 1 as [| s subs Hs _ IH]; [reflexivity |].
  unfold built_of, checked_of. cbn [map check_data_entries].
  rewrite (check_data_entry_built env s Hs). cbn [rbind].
  fold (built_of subs). rewrite IH. reflexivity.
Qed.

Lemma check_optional_entries_checked (create : Config -> M Description) (env : Env)
    (subs : list Submodule) (sd : option Description) (w : World) :
  check_optional_entries create env None (checked_of env subs) sd w
  = (Ok (description_of env subs), w).
Proof.
  induction subs as [| s subs IH]; [reflexivity |].
  unfold checked_of, description_of. cbn [map check_optional_entries].
  unfold bind at 1. rewrite check_optional_entry_checked. cbn [snd fst].
  fold (checked_of env subs). unfold bind at 1. rewrite IH. reflexivity.
Qed.

Lemma find_none_all {A : Type} (f : A -> bool) (l : list A) :
  (forall x, In x l -> f x = false) -> List.find f l = None.
Proof.
  induction l as [| x l IH]; intros H; [reflexivity |].
  cbn [List.find]. rewrite (H x (or_introl eq_refl)). apply IH.
  intros y Hy. apply H. right. exact Hy.
Qed.

Lemma description_of_in (env : Env) (subs : list Submodule) (field : string)
    (ext : pyval) :
  In (field, ext) (description_of env subs) ->
  exists s, In s subs /\ ext = entry_of env s.
Proof.
  unfold description_of. intros Hin. apply in_map_iff in Hin as (s & Heq & Hs).
  inversion Heq. exists s. split; [exact Hs | reflexivity].
Qed.

Lemma validate_description_of (env : Env) (subs : list Submodule) :
  Forall (expands_to_text env) subs ->
  _validate (description_of env subs) = Ok tt.
Proof.
  intros Hall. rewrite List.Forall_forall in Hall. unfold _validate.
  rewrite validate_loop_first_mismatch.
  - rewrite find_none_all; [reflexivity |].
    intros field Hfield. apply negb_false_iff. unfold conforms_at.
    destruct (dict_get_in_keys field (description_of env subs) Hfield) as [ext Hget].
    rewrite Hget.
    destruct (description_of_in env subs field ext (dict_get_in field ext _ Hget))
      as (s & Hs & ->).
    exact (proj1 (entry_of_conforms env s (Hall s Hs))).
  - unfold well_shaped. apply forallb_forall. intros [field ext] Hin. cbn [snd].
    destruct (description_of_in env subs field ext Hin) as (s & Hs & ->).
    exact (proj2 (entry_of_conforms env s (Hall s Hs))).
  - intros f Hf. exact Hf.
Qed.

Lemma dict_del_last {A : Type} (k : string) (v : A) (d : list (string * A)) :
  Dict.get k d = None -> Dict.del k (d ++ [(k, v)]) = d.
Proof.
  induction d as [| [k' v'] d IH]; cbn [app Dict.del].
  - rewrite String.eqb_refl. reflexivity.
  - cbn [Dict.get]. destruct (String.eqb k k'); [discriminate |].
    intros H. rewrite (IH H). reflexivity.
Qed.

Lemma keys_built_of (subs : list Submodule) :
  Dict.keys (built_of subs) = map entry_name subs.
Proof. unfold Dict.keys, built_of. rewrite map_map. reflexivity. Qed.

Lemma keys_checked_of (env : Env) (subs : list Submodule) :
  Dict.keys (checked_of env subs) = map entry_name subs.
Proof. unfold Dict.keys, checked_of. rewrite map_map. reflexivity. Qed.

Lemma keys_sections_of (subs : list Submodule) :
  Dict.keys (map section_of subs) = map sub_name subs.
Proof. unfold Dict.keys. rewrite map_map. reflexivity. Qed.

Lemma str_mem_false_forall (x : string) (l : list string) :
  str_mem x l = false -> Forall (fun y => y <> x) l.
Proof.
  unfold str_mem. induction l as [| y l IH]; cbn [existsb]; intros H; constructor.
  - apply orb_false_iff in H as [H _]. apply String.eqb_neq in H. congruence.
  - apply orb_false_iff in H as [_ H]. apply IH, H.
Qed.

(** The factory on the document of [subs]. *)
Lemma create_with_document_of (create : Config -> M Description) (env : Env)
    (subs : list Submodule) (w : World) :
  distinct (map sub_name subs) = true ->
  str_mem Cfg.DEFAULTSECT (map sub_name subs) = false ->
  str_mem DESCRIPTION_SECTION (map sub_name subs) = false ->
  forallb plain_values subs = true ->
  str_to_bool env "True" = Ok true ->
  Forall (expands_to_text env) subs ->
  distinct (map entry_name subs) = true ->
  create_externals_description_with create env (CfgData (document_of subs)) [] [] None w
  = (Ok (description_of env subs), w).
Proof.
  intros Hd Hdefault Hfresh Hplain Hbool Hexp Hnames.
  pose proof (section_of_get_none subs _ Hdefault) as Hnodefault.
  pose proof (section_of_get_none subs _ Hfresh) as Hnodesc.
  assert (Hversion : get_cfg_schema_version (document_of subs) = Ok (1, 0, 0)%Z).
  { unfold get_cfg_schema_version, Cfg.get, Cfg.unify_values, Cfg.section_dict,
      document_of.
    change (String.eqb DESCRIPTION_SECTION Cfg.DEFAULTSECT) with false. cbv iota.
    rewrite (dict_get_app_skip _ _ _ Hnodesc). cbn [Dict.get version_section].
    rewrite String.eqb_refl. cbn [rbind app Dict.get].
    change (String.eqb (PyStr.lower VERSION_ITEM) VERSION_ITEM) with true. cbv iota.
    match goal with
    | |- context [Cfg.before_get ?d "1.0.0"] =>
        change (Cfg.before_get d "1.0.0") with (@Ok string "1.0.0")
    end.
    reflexivity. }
  assert (Hsections : Cfg.sections (map section_of subs) = map sub_name subs).
  { unfold Cfg.sections. rewrite keys_sections_of. apply sections_all.
    apply str_mem_false_forall, Hdefault. }
  assert (Hitems : forall s, In s subs ->
             Cfg.items (sub_name s) (map section_of subs) = Ok (snd (section_of s))).
  { intros s Hs. apply items_of_section.
    - exact Hnodefault.
    - pose proof (str_mem_false_forall _ _ Hdefault) as Hall.
      rewrite List.Forall_forall in Hall. apply Hall, in_map, Hs.
    - apply section_of_get; assumption.
    - rewrite forallb_forall in Hplain. apply Hplain, Hs. }
  unfold create_externals_description_with.
  unfold bind at 1. unfold lift at 1. rewrite Hversion. cbn [Z.eqb Pos.eqb].
  unfold ExternalsDescriptionConfigV1.
  unfold bind at 1. unfold lift at 1. rewrite Hversion.
  unfold bind at 1. unfold lift at 1.
  rewrite (verify_accepts (mkVersion 1 1 0) (mkVersion 1 0 0) eq_refl ltac:(cbn; lia)).
  assert (Hremove : _remove_metadata (document_of subs) = map section_of subs).
  { unfold _remove_metadata, Cfg.remove_section, Cfg.section_dict, document_of,
      version_section.
    change (String.eqb DESCRIPTION_SECTION Cfg.DEFAULTSECT) with false. cbv iota.
    rewrite (dict_get_app_skip _ _ _ Hnodesc). cbn [Dict.get].
    rewrite String.eqb_refl. apply dict_del_last, Hnodesc. }
  rewrite Hremove.
  unfold bind at 1. unfold lift at 1. unfold _parse_cfg. rewrite Hsections.
  rewrite (parse_cfg_sections_built env (map section_of subs) subs Hbool Hitems [] Hnames).
  cbn [app]. unfold _check_user_input.
  unfold bind at 1. unfold lift at 1.
  rewrite _check_data_entries by (rewrite keys_built_of; exact Hnames).
  rewrite (check_data_entries_built env subs Hexp).
  unfold bind at 1.
  rewrite _check_optional_entries by (rewrite keys_checked_of; exact Hnames).
  rewrite check_optional_entries_checked.
  unfold bind, lift, ret. rewrite (validate_description_of env subs Hexp). reflexivity.
Qed.

Lemma converted_sections_of (new : Config) :
  Forall is_converted_section new -> exists subs, new = map section_of subs.
Proof.
  induction 1 as [| [name opts] new (path & url & hash & Hopts) _ (subs & ->)].
  - exists []. reflexivity.
  - exists (mkSubmodule name path url hash :: subs). cbn [snd] in Hopts. subst opts.
    reflexivity.
Qed.

(** X21: the document that [read_gitmodules_file] returns is one that
    [create_externals_description] accepts.  When the submodule sections of
    the file have names, the document is [document_of subs] for a list of
    submodules with those names, in order; and when no path, url or hash has
    a [%], [str_to_bool] accepts [True], every url expands to a text and the
    stripped names differ, the factory, called on that document as
    [_repo_config_from_submodule] and as a caller do, returns the description
    with one entry for each submodule, under its stripped name: protocol
    [git], required, the stripped path and hash, the expanded url, the other
    fields empty, and leaves the world as it was. *)
Theorem converted_document_is_accepted (env : Env) (root_dir file_name : string)
    (w w' : World) (cfg : Config) :
  read_gitmodules_file env root_dir file_name w = (Ok cfg, w') ->
  exists manifest,
    read_lstripped env (cwd w) (path_join (abspath env (cwd w) root_dir) file_name)
    = Ok (Some manifest)
    /\ ((forall section,
           In section (Cfg.sections manifest) ->
           is_submodule_section section = true -> sec_name_of section <> "") ->
        exists subs,
          cfg = document_of subs
          /\ map sub_name subs
             = map sec_name_of
                 (List.filter is_submodule_section (Cfg.sections manifest))
          /\ (forallb plain_values subs = true ->
              str_to_bool env "True" = Ok true ->
              Forall (expands_to_text env) subs ->
              distinct (map entry_name subs) = true ->
              forall w2,
                create_for_submodules env cfg w2 = (Ok (description_of env subs), w2)
                /\ create_externals_description env (CfgData cfg) [] [] None w2
                   = (Ok (description_of env subs), w2))).
Proof.
  unfold read_gitmodules_file, bind, getcwd, lift.
  destruct (fatal_when _ _) as [[] | e]; [| discriminate].
  destruct (read_lstripped env (cwd w) _) as [[manifest |] | e]; [| discriminate ..].
  destruct (git_submodule_status env (abspath env (cwd w) root_dir) w)
    as [[submods | e] w1]; [| discriminate].
  destruct (convert_submodule_sections manifest submods _ (Cfg.sections manifest) [] w1)
    as [[ed | e] w2] eqn:Hloop; [| discriminate].
  destruct (Cfg.add_section DESCRIPTION_SECTION ed) as [ed1 | e] eqn:Hadd;
    [| discriminate].
  cbn [rbind].
  destruct (Cfg.set DESCRIPTION_SECTION VERSION_ITEM "1.0.0" ed1) as [cfg' | e] eqn:Hset;
    [| discriminate].
  intros H. inversion H. subst w' cfg'. clear H.
  exists manifest. split; [reflexivity |]. intros Hnonempty.
  apply (convert_submodule_sections_shape _ _ _ _ Hnonempty) in Hloop
    as (converted & -> & Hkeys & Hall & Hnd & Hdist).
  cbn [app] in *.
  apply cfg_add_section_ok in Hadd as (Hnd1 & Hmem & ->).
  assert (Hne1 : DESCRIPTION_SECTION <> "") by discriminate.
  rewrite (cfg_set_last _ _ _ _ _ Hne1 Hnd1 Hmem) in Hset.
  change (Cfg.set_accepts "1.0.0") with true in Hset.
  destruct (converted_sections_of converted Hall) as [subs ->].
  assert (Hcfg : cfg = document_of subs) by (inversion Hset; reflexivity).
  clear Hset. subst cfg.
  rewrite keys_sections_of in Hkeys, Hnd.
  specialize (Hdist eq_refl). rewrite keys_sections_of in Hdist.
  rewrite <- str_mem_keys, keys_sections_of in Hmem.
  exists subs. split; [reflexivity |]. split; [exact Hkeys |].
  intros Hplain Hbool Hexp Hnames w3.
  assert (Hdefault : str_mem Cfg.DEFAULTSECT (map sub_name subs) = false).
  { clear - Hnd. unfold str_mem. induction Hnd as [| name names Hname _ IH];
      [reflexivity |].
    cbn [existsb]. rewrite IH, orb_false_r. apply String.eqb_neq. congruence. }
  split.
  - exact (create_with_document_of (fun _ => lift (Raise TypeError)) env subs w3
             Hdist Hdefault Hmem Hplain Hbool Hexp Hnames).
  - exact (create_with_document_of (create_for_submodules env) env subs w3
             Hdist Hdefault Hmem Hplain Hbool Hexp Hnames).
Qed.

Lemma converted_document_is_accepted_witness :
  create_externals_description env_lib (CfgData document_lib) [] [] None world0
  = (Ok (description_of env_lib [submodule_lib]), world0).
Proof.
  destruct (converted_document_is_accepted env_lib "/r" ".gitmodules" world0 world0
              document_lib eq_refl) as (manifest & Hread & Hshape).
  inversion Hread; subst manifest.
  destruct (Hshape ltac:(intros section [<- | []] _; discriminate))
    as (subs & Hdoc & Hsubs & Haccepted).
  destruct subs as [| [n p u h] [| s2 subs]]; try discriminate Hdoc.
  inversion Hdoc; subst.
  exact (proj2 (Haccepted eq_refl eq_refl
                  ltac:(constructor; [eexists; reflexivity | constructor])
                  eq_refl world0)).
Defined.
